(** * pymonetdb.sql.cursors: result-protocol parser and windowed fetch engine

    A shallow embedding of [Cursor] (src/pymonetdb/sql/cursors.py).

    - Python [str] values are sequences of code points ([pystr]), [bytes]
      and [memoryview] values are sequences of bytes.
    - Python integers are [Z].
    - A method of [Cursor] is a function from the cursor state to an outcome
      (a value or a raised exception) and the cursor state left behind; the
      state is kept on a raise too, since [_exception_handler] logs before
      raising.
    - The collaborators that live outside cursors.py (transport, batching
      policy, cell decoders, the protocol's sentinels) are parameters. *)

From Stdlib Require Import ZArith String Ascii Lia.
From Stdlib.Strings Require Import Byte.
From stdpp Require Import base option list.

Local Open Scope Z_scope.

(** ** Python sequences *)

Module Py.

Section Seq.
Context {A : Type}.

(** Normalisation of one slice bound against a sequence of length [len]:
    a negative bound counts from the end, and the result is clamped to
    [0..len]. *)
Definition clamp (len i : Z) : Z :=
  if i <? 0 then Z.max (i + len) 0 else Z.min i len.

(** [l[a:b]] *)
Definition slice (l : list A) (a b : Z) : list A :=
  let len := Z.of_nat (length l) in
  let a' := clamp len a in
  let b' := clamp len b in
  take (Z.to_nat (b' - a')) (drop (Z.to_nat a') l).

(** [l[a:]] *)
Definition slice_from (l : list A) (a : Z) : list A :=
  drop (Z.to_nat (clamp (Z.of_nat (length l)) a)) l.

(** [l[:b]] *)
Definition slice_to (l : list A) (b : Z) : list A :=
  take (Z.to_nat (clamp (Z.of_nat (length l)) b)) l.

(** [l[i]]; [None] stands for the IndexError of an index out of range. *)
Definition index (l : list A) (i : Z) : option A :=
  let len := Z.of_nat (length l) in
  let i' := if i <? 0 then i + len else i in
  if (0 <=? i') && (i' <? len) then l !! Z.to_nat i' else None.

Context `{EqDecision A}.

Fixpoint startswith (s p : list A) : bool :=
  match p, s with
  | [], _ => true
  | _ :: _, [] => false
  | y :: p', x :: s' => if decide (x = y) then startswith s' p' else false
  end.

(** One left-to-right pass of [s.split(sep)] for a non-empty [sep]:
    [skip] counts the characters of a separator occurrence still to be
    passed over, [cur] holds the current piece, reversed. *)
Fixpoint split_aux (sep : list A) (skip : nat) (cur : list A) (s : list A)
  : list (list A) :=
  match s with
  | [] => [reverse cur]
  | x :: s' =>
      match skip with
      | S k => split_aux sep k cur s'
      | O =>
          if startswith s sep
          then reverse cur :: split_aux sep (length sep - 1) [] s'
          else split_aux sep 0 (x :: cur) s'
      end
  end.

(** [s.split(sep)], [sep] non-empty (it is a literal at every call site). *)
Definition split (sep s : list A) : list (list A) := split_aux sep 0 [] s.

(** [s.split(sep, 1)[0]] for a one-element [sep]: the part before the
    first occurrence. *)
Fixpoint before_first (x : A) (s : list A) : list A :=
  match s with
  | [] => []
  | y :: s' => if decide (y = x) then [] else y :: before_first x s'
  end.
End Seq.

(** ** Text *)

(** A [str]: its code points. *)
Definition pystr := list Z.

Definition lit (s : string) : pystr :=
  map (fun a => Z.of_N (N_of_ascii a)) (list_ascii_of_string s).

(** [str.isspace] of one character: the characters that [strip()] and
    [split()] treat as white space. *)
Definition isspace (c : Z) : bool :=
  ((9 <=? c) && (c <=? 13)) || ((28 <=? c) && (c <=? 32))
  || (c =? 133) || (c =? 160) || (c =? 5760)
  || ((8192 <=? c) && (c <=? 8202))
  || (c =? 8232) || (c =? 8233) || (c =? 8239) || (c =? 8287) || (c =? 12288).

Fixpoint lstrip (s : pystr) : pystr :=
  match s with
  | c :: s' => if isspace c then lstrip s' else s
  | [] => []
  end.

Definition rstrip (s : pystr) : pystr := reverse (lstrip (reverse s)).

(** [s.strip()] *)
Definition strip (s : pystr) : pystr := rstrip (lstrip s).

(** [s.split()]: the maximal runs of characters that are not white space. *)
Fixpoint words_aux (cur : pystr) (s : pystr) : list pystr :=
  match s with
  | [] => match cur with [] => [] | _ => [reverse cur] end
  | c :: s' =>
      if isspace c
      then match cur with
           | [] => words_aux [] s'
           | _ => reverse cur :: words_aux [] s'
           end
      else words_aux (c :: cur) s'
  end.

Definition words (s : pystr) : list pystr := words_aux [] s.

Definition digit_val (c : Z) : option Z :=
  if (48 <=? c) && (c <=? 57) then Some (c - 48) else None.

(** The digits of an [int()] literal after the sign; single underscores are
    allowed between digits. [acc] is the value so far, [prev] tells whether
    the previous character was a digit. *)
Fixpoint int_digits (acc : Z) (prev : bool) (s : pystr) : option Z :=
  match s with
  | [] => if prev then Some acc else None
  | c :: s' =>
      match digit_val c with
      | Some d => int_digits (10 * acc + d) true s'
      | None =>
          if (c =? 95) && prev
          then match s' with
               | [] => None
               | _ => int_digits acc false s'
               end
          else None
      end
  end.

(** The number of digits of a literal, and the interpreter's default limit
    on it ([sys.int_info.default_max_str_digits]): a decimal literal with
    more digits is refused with a ValueError. *)
Fixpoint count_digits (s : pystr) : Z :=
  match s with
  | [] => 0
  | c :: s' =>
      match digit_val c with
      | Some _ => 1 + count_digits s'
      | None => count_digits s'
      end
  end.

Definition max_str_digits : Z := 4300.

Definition int_literal (s : pystr) : option Z :=
  if max_str_digits <? count_digits s then None else int_digits 0 false s.

(** [int(s)] for a decimal literal of ASCII digits; [None] stands for the
    ValueError.  White space around the literal is accepted as Python does.
    A result [Some n] is the value Python computes; decimal digits outside
    ASCII, which Python also accepts, are not modelled: a statement that
    relies on [None] holds for ASCII text only. *)
Definition int (s : pystr) : option Z :=
  match strip s with
  | 43 :: s' => int_literal s'
  | 45 :: s' => Z.opp <$> int_literal s'
  | s' => int_literal s'
  end.

Fixpoint pos_digits (fuel : nat) (n : Z) (acc : pystr) : pystr :=
  match fuel with
  | O => acc
  | S f =>
      let acc' := (48 + n mod 10) :: acc in
      if n <? 10 then acc' else pos_digits f (n / 10) acc'
  end.

(** [str(n)] of an integer. *)
Definition str_of_int (n : Z) : pystr :=
  if n <? 0 then 45 :: pos_digits (S (Z.to_nat (Z.log2 (- n)))) (- n) []
  else pos_digits (S (Z.to_nat (Z.log2 n))) n [].

(** ** Bytes *)

Definition bytes := list byte.

#[global] Instance byte_eq_decision : EqDecision byte := Byte.byte_eq_dec.

Definition byte_val (b : byte) : Z := Z.of_N (Byte.to_N b).

(** The code points of a well-formed UTF-8 sequence (shortest form, no
    surrogates, at most U+10FFFF), given the values of its bytes. *)
Definition is_cont (b : Z) : bool := (128 <=? b) && (b <=? 191).

Fixpoint utf8_points (bs : list Z) : option (list Z) :=
  match bs with
  | [] => Some []
  | b0 :: r0 =>
      if b0 <? 128 then cons b0 <$> utf8_points r0
      else if (194 <=? b0) && (b0 <=? 223) then
        match r0 with
        | b1 :: r1 =>
            if is_cont b1
            then cons ((b0 - 192) * 64 + (b1 - 128)) <$> utf8_points r1
            else None
        | _ => None
        end
      else if (224 <=? b0) && (b0 <=? 239) then
        match r0 with
        | b1 :: b2 :: r2 =>
            let lo := if b0 =? 224 then 160 else 128 in
            let hi := if b0 =? 237 then 159 else 191 in
            if (lo <=? b1) && (b1 <=? hi) && is_cont b2
            then cons ((b0 - 224) * 4096 + (b1 - 128) * 64 + (b2 - 128))
                   <$> utf8_points r2
            else None
        | _ => None
        end
      else if (240 <=? b0) && (b0 <=? 244) then
        match r0 with
        | b1 :: b2 :: b3 :: r3 =>
            let lo := if b0 =? 240 then 144 else 128 in
            let hi := if b0 =? 244 then 143 else 191 in
            if (lo <=? b1) && (b1 <=? hi) && is_cont b2 && is_cont b3
            then cons ((b0 - 240) * 262144 + (b1 - 128) * 4096
                       + (b2 - 128) * 64 + (b3 - 128))
                   <$> utf8_points r3
            else None
        | _ => None
        end
      else None
  end.

(** [str(b, 'utf-8')]; [None] stands for the UnicodeDecodeError. *)
Definition decode_utf8 (b : bytes) : option pystr :=
  utf8_points (map byte_val b).

Inductive endian := Little | Big.

(** The unsigned value of bytes given least significant first. *)
Fixpoint le_unsigned (bs : list byte) : Z :=
  match bs with
  | [] => 0
  | b :: bs' => byte_val b + 256 * le_unsigned bs'
  end.

Definition to_signed64 (u : Z) : Z :=
  if u <? 2 ^ 63 then u else u - 2 ^ 64.

(** [struct.unpack_from(fmt, block, pos)[0]] for [fmt] one of ['<q'] and
    ['>q']; [None] stands for the struct.error of a buffer too short. *)
Definition unpack_int64 (e : endian) (block : bytes) (pos : Z) : option Z :=
  let len := Z.of_nat (length block) in
  let pos' := if pos <? 0 then pos + len else pos in
  if (pos' <? 0) || (len - pos' <? 8) then None
  else
    let raw := take 8 (drop (Z.to_nat pos') block) in
    Some (to_signed64 (le_unsigned
            match e with Little => raw | Big => reverse raw end)).

End Py.

(** ** Data model *)

(** The exception classes that cross the cursor's methods. [OtherError] is
    any other subclass of pymonetdb's [Error] raised by a collaborator,
    [OtherException] any other exception. *)
Inductive exc_class :=
| ProgrammingError | InterfaceError | OtherError
| IndexError | ValueError | TypeError | AttributeError | AssertionError
| StructError | Warning | OtherException.

#[global] Instance exc_class_eq_dec : EqDecision exc_class.
Proof. solve_decision. Defined.

(** [issubclass(cls, Error)] *)
Definition is_Error (cls : exc_class) : bool :=
  match cls with
  | ProgrammingError | InterfaceError | OtherError => true
  | _ => false
  end.

(** A raised exception: one built by the cursor with its message, or one
    raised by the interpreter or a collaborator, whose text is not
    modelled. *)
Inductive exn :=
| Exn (cls : exc_class) (msg : Py.pystr)
| Builtin (cls : exc_class).

Definition exn_class (e : exn) : exc_class :=
  match e with Exn cls _ => cls | Builtin cls => cls end.

Inductive outcome (A : Type) :=
| Ok (a : A)
| Raise (e : exn).
Arguments Ok {A} a.
Arguments Raise {A} e.

(** [Description], the namedtuple. *)
Record Description := mkDescription {
  name : option Py.pystr;
  type_code : option Py.pystr;
  display_size : option Z;
  internal_size : option Z;
  precision : option Z;
  scale : option Z;
  null_ok : option bool
}.

(** The protocol's sentinels, constants of [pymonetdb.mapi]. *)
Class Mapi := {
  MSG_PROMPT : Py.pystr;
  MSG_INFO : Py.pystr;
  MSG_ERROR : Py.pystr;
  MSG_QTABLE : Py.pystr;
  MSG_QUPDATE : Py.pystr;
  MSG_QSCHEMA : Py.pystr;
  MSG_QTRANS : Py.pystr;
  MSG_QPREPARE : Py.pystr;
  MSG_QBLOCK : Py.pystr;
  MSG_HEADER : Py.pystr;
  MSG_TUPLE : Py.pystr;
  MSG_TUPLE_NOSLICE : Py.pystr
}.

(** What the ghost field [trace] of a cursor records: the calls made on the
    transport and on the cursor's batching policy. *)
Inductive event :=
| EvExecute (query : Py.pystr)
| EvCommand (command : Py.pystr)
| EvBinaryCommand (command : Py.pystr)
| EvChangeReplysize (n : Z)
| EvNewQuery
| EvBatchSize (already_used position requested_end total : Z)
| EvScroll.

(** The types of the collaborators of a cursor: the connection with its
    transport ([pymonetdb.sql.connections], [pymonetdb.mapi]), the batching
    policy ([pymonetdb.policy]), the values and the binary decoders of the
    cells ([pythonize], [pythonizebin]) and the parameters of a query
    ([monetize]). *)
Class Types := {
  conn : Type;
  policy : Type;
  value : Type;
  decoder : Type;
  parameters : Type
}.

(** The operations the cursor calls on its collaborators. *)
Class Collab `{Types} := {
  (** [connection.execute(query)] *)
  conn_execute : Py.pystr -> conn -> outcome Py.pystr * conn;
  (** [connection.command(command)] *)
  conn_command : Py.pystr -> conn -> outcome Py.pystr * conn;
  (** [connection.binary_command(command)] *)
  conn_binary_command : Py.pystr -> conn -> outcome Py.bytes * conn;
  (** [connection._current_replysize] *)
  conn_current_replysize : conn -> Z;
  (** [connection._change_replysize(n)] *)
  conn_change_replysize : Z -> conn -> outcome unit * conn;
  (** [connection._policy.use_binary()] *)
  conn_use_binary : conn -> bool;
  (** [connection.mapi.server_endian] *)
  conn_server_endian : conn -> Py.endian;
  (** [_policy.new_query()] *)
  policy_new_query : policy -> Z * policy;
  (** [_policy.batch_size(already_used, position, requested_end, total)] *)
  policy_batch_size : Z -> Z -> Z -> Z -> policy -> Z * policy;
  (** [_policy.scroll()] *)
  policy_scroll : policy -> policy;
  (** [pythonizebin.get_decoder(cursor, i)], which reads the description *)
  get_decoder : list Description -> nat -> option decoder;
  (** [decoder.decode(server_endian, slice)] *)
  decoder_decode : decoder -> Py.endian -> Py.bytes -> outcome (list value);
  (** [pythonize.convert(data, type_code)] *)
  pythonize_convert : Py.pystr -> option Py.pystr -> outcome value;
  (** the text of the query for [operation] and [parameters], lines 221-243
      of [execute]; an [Exn] is the error those lines hand to
      [_exception_handler] *)
  bind_parameters : Py.pystr -> option parameters -> outcome Py.pystr
}.

Section Cursor.
Context {M : Mapi} {T : Types} {C : Collab}.

(** A cell of a row: a converted value, or the raw text of a tuple-noslice
    line. *)
Inductive cell :=
| CVal (v : value)
| CRaw (s : Py.pystr).

(** A row, a Python tuple. *)
Definition row := list cell.

(** An entry of [_next_result_sets]. *)
Definition result_set : Type :=
  Py.pystr * Z * list Description * list row.

Record Cursor := mkCursor {
  connection : option conn;
  _policy : policy;
  operation : Py.pystr;
  arraysize : Z;
  rowcount : Z;
  description : option (list Description);
  _can_bindecode : option bool;
  _bindecoders : option (list decoder);
  rownumber : Z;
  _executed : option Py.pystr;
  _offset : Z;
  _rows : list row;
  _resultsets_to_close : list Py.pystr;
  _query_id : option Py.pystr;
  messages : list (exc_class * Py.pystr);
  lastrowid : option Z;
  _next_result_sets : list result_set;
  _unpack_int64 : Py.endian;
  trace : list event
}.

Definition set_connection (v : option conn) (c : Cursor) : Cursor :=
  {| connection := v; _policy := _policy c; operation := operation c;
     arraysize := arraysize c; rowcount := rowcount c;
     description := description c; _can_bindecode := _can_bindecode c;
     _bindecoders := _bindecoders c; rownumber := rownumber c;
     _executed := _executed c; _offset := _offset c; _rows := _rows c;
     _resultsets_to_close := _resultsets_to_close c;
     _query_id := _query_id c; messages := messages c;
     lastrowid := lastrowid c; _next_result_sets := _next_result_sets c;
     _unpack_int64 := _unpack_int64 c; trace := trace c |}.

Definition set_policy (v : policy) (c : Cursor) : Cursor :=
  {| connection := connection c; _policy := v; operation := operation c;
     arraysize := arraysize c; rowcount := rowcount c;
     description := description c; _can_bindecode := _can_bindecode c;
     _bindecoders := _bindecoders c; rownumber := rownumber c;
     _executed := _executed c; _offset := _offset c; _rows := _rows c;
     _resultsets_to_close := _resultsets_to_close c;
     _query_id := _query_id c; messages := messages c;
     lastrowid := lastrowid c; _next_result_sets := _next_result_sets c;
     _unpack_int64 := _unpack_int64 c; trace := trace c |}.

Definition set_operation (v : Py.pystr) (c : Cursor) : Cursor :=
  {| connection := connection c; _policy := _policy c; operation := v;
     arraysize := arraysize c; rowcount := rowcount c;
     description := description c; _can_bindecode := _can_bindecode c;
     _bindecoders := _bindecoders c; rownumber := rownumber c;
     _executed := _executed c; _offset := _offset c; _rows := _rows c;
     _resultsets_to_close := _resultsets_to_close c;
     _query_id := _query_id c; messages := messages c;
     lastrowid := lastrowid c; _next_result_sets := _next_result_sets c;
     _unpack_int64 := _unpack_int64 c; trace := trace c |}.

Definition set_rowcount (v : Z) (c : Cursor) : Cursor :=
  {| connection := connection c; _policy := _policy c;
     operation := operation c; arraysize := arraysize c; rowcount := v;
     description := description c; _can_bindecode := _can_bindecode c;
     _bindecoders := _bindecoders c; rownumber := rownumber c;
     _executed := _executed c; _offset := _offset c; _rows := _rows c;
     _resultsets_to_close := _resultsets_to_close c;
     _query_id := _query_id c; messages := messages c;
     lastrowid := lastrowid c; _next_result_sets := _next_result_sets c;
     _unpack_int64 := _unpack_int64 c; trace := trace c |}.

Definition set_description (v : option (list Description)) (c : Cursor) : Cursor :=
  {| connection := connection c; _policy := _policy c;
     operation := operation c; arraysize := arraysize c;
     rowcount := rowcount c; description := v;
     _can_bindecode := _can_bindecode c; _bindecoders := _bindecoders c;
     rownumber := rownumber c; _executed := _executed c;
     _offset := _offset c; _rows := _rows c;
     _resultsets_to_close := _resultsets_to_close c;
     _query_id := _query_id c; messages := messages c;
     lastrowid := lastrowid c; _next_result_sets := _next_result_sets c;
     _unpack_int64 := _unpack_int64 c; trace := trace c |}.

Definition set_can_bindecode (v : option bool) (c : Cursor) : Cursor :=
  {| connection := connection c; _policy := _policy c;
     operation := operation c; arraysize := arraysize c;
     rowcount := rowcount c; description := description c;
     _can_bindecode := v; _bindecoders := _bindecoders c;
     rownumber := rownumber c; _executed := _executed c;
     _offset := _offset c; _rows := _rows c;
     _resultsets_to_close := _resultsets_to_close c;
     _query_id := _query_id c; messages := messages c;
     lastrowid := lastrowid c; _next_result_sets := _next_result_sets c;
     _unpack_int64 := _unpack_int64 c; trace := trace c |}.

Definition set_bindecoders (v : option (list decoder)) (c : Cursor) : Cursor :=
  {| connection := connection c; _policy := _policy c;
     operation := operation c; arraysize := arraysize c;
     rowcount := rowcount c; description := description c;
     _can_bindecode := _can_bindecode c; _bindecoders := v;
     rownumber := rownumber c; _executed := _executed c;
     _offset := _offset c; _rows := _rows c;
     _resultsets_to_close := _resultsets_to_close c;
     _query_id := _query_id c; messages := messages c;
     lastrowid := lastrowid c; _next_result_sets := _next_result_sets c;
     _unpack_int64 := _unpack_int64 c; trace := trace c |}.

Definition set_rownumber (v : Z) (c : Cursor) : Cursor :=
  {| connection := connection c; _policy := _policy c;
     operation := operation c; arraysize := arraysize c;
     rowcount := rowcount c; description := description c;
     _can_bindecode := _can_bindecode c; _bindecoders := _bindecoders c;
     rownumber := v; _executed := _executed c; _offset := _offset c;
     _rows := _rows c; _resultsets_to_close := _resultsets_to_close c;
     _query_id := _query_id c; messages := messages c;
     lastrowid := lastrowid c; _next_result_sets := _next_result_sets c;
     _unpack_int64 := _unpack_int64 c; trace := trace c |}.

Definition set_executed (v : option Py.pystr) (c : Cursor) : Cursor :=
  {| connection := connection c; _policy := _policy c;
     operation := operation c; arraysize := arraysize c;
     rowcount := rowcount c; description := description c;
     _can_bindecode := _can_bindecode c; _bindecoders := _bindecoders c;
     rownumber := rownumber c; _executed := v; _offset := _offset c;
     _rows := _rows c; _resultsets_to_close := _resultsets_to_close c;
     _query_id := _query_id c; messages := messages c;
     lastrowid := lastrowid c; _next_result_sets := _next_result_sets c;
     _unpack_int64 := _unpack_int64 c; trace := trace c |}.

Definition set_offset (v : Z) (c : Cursor) : Cursor :=
  {| connection := connection c; _policy := _policy c;
     operation := operation c; arraysize := arraysize c;
     rowcount := rowcount c; description := description c;
     _can_bindecode := _can_bindecode c; _bindecoders := _bindecoders c;
     rownumber := rownumber c; _executed := _executed c; _offset := v;
     _rows := _rows c; _resultsets_to_close := _resultsets_to_close c;
     _query_id := _query_id c; messages := messages c;
     lastrowid := lastrowid c; _next_result_sets := _next_result_sets c;
     _unpack_int64 := _unpack_int64 c; trace := trace c |}.

Definition set_rows (v : list row) (c : Cursor) : Cursor :=
  {| connection := connection c; _policy := _policy c;
     operation := operation c; arraysize := arraysize c;
     rowcount := rowcount c; description := description c;
     _can_bindecode := _can_bindecode c; _bindecoders := _bindecoders c;
     rownumber := rownumber c; _executed := _executed c;
     _offset := _offset c; _rows := v;
     _resultsets_to_close := _resultsets_to_close c;
     _query_id := _query_id c; messages := messages c;
     lastrowid := lastrowid c; _next_result_sets := _next_result_sets c;
     _unpack_int64 := _unpack_int64 c; trace := trace c |}.

Definition set_resultsets_to_close (v : list Py.pystr) (c : Cursor) : Cursor :=
  {| connection := connection c; _policy := _policy c;
     operation := operation c; arraysize := arraysize c;
     rowcount := rowcount c; description := description c;
     _can_bindecode := _can_bindecode c; _bindecoders := _bindecoders c;
     rownumber := rownumber c; _executed := _executed c;
     _offset := _offset c; _rows := _rows c; _resultsets_to_close := v;
     _query_id := _query_id c; messages := messages c;
     lastrowid := lastrowid c; _next_result_sets := _next_result_sets c;
     _unpack_int64 := _unpack_int64 c; trace := trace c |}.

Definition set_query_id (v : option Py.pystr) (c : Cursor) : Cursor :=
  {| connection := connection c; _policy := _policy c;
     operation := operation c; arraysize := arraysize c;
     rowcount := rowcount c; description := description c;
     _can_bindecode := _can_bindecode c; _bindecoders := _bindecoders c;
     rownumber := rownumber c; _executed := _executed c;
     _offset := _offset c; _rows := _rows c;
     _resultsets_to_close := _resultsets_to_close c; _query_id := v;
     messages := messages c; lastrowid := lastrowid c;
     _next_result_sets := _next_result_sets c;
     _unpack_int64 := _unpack_int64 c; trace := trace c |}.

Definition set_messages (v : list (exc_class * Py.pystr)) (c : Cursor) : Cursor :=
  {| connection := connection c; _policy := _policy c;
     operation := operation c; arraysize := arraysize c;
     rowcount := rowcount c; description := description c;
     _can_bindecode := _can_bindecode c; _bindecoders := _bindecoders c;
     rownumber := rownumber c; _executed := _executed c;
     _offset := _offset c; _rows := _rows c;
     _resultsets_to_close := _resultsets_to_close c;
     _query_id := _query_id c; messages := v; lastrowid := lastrowid c;
     _next_result_sets := _next_result_sets c;
     _unpack_int64 := _unpack_int64 c; trace := trace c |}.

Definition set_lastrowid (v : option Z) (c : Cursor) : Cursor :=
  {| connection := connection c; _policy := _policy c;
     operation := operation c; arraysize := arraysize c;
     rowcount := rowcount c; description := description c;
     _can_bindecode := _can_bindecode c; _bindecoders := _bindecoders c;
     rownumber := rownumber c; _executed := _executed c;
     _offset := _offset c; _rows := _rows c;
     _resultsets_to_close := _resultsets_to_close c;
     _query_id := _query_id c; messages := messages c; lastrowid := v;
     _next_result_sets := _next_result_sets c;
     _unpack_int64 := _unpack_int64 c; trace := trace c |}.

Definition set_next_result_sets (v : list result_set) (c : Cursor) : Cursor :=
  {| connection := connection c; _policy := _policy c;
     operation := operation c; arraysize := arraysize c;
     rowcount := rowcount c; description := description c;
     _can_bindecode := _can_bindecode c; _bindecoders := _bindecoders c;
     rownumber := rownumber c; _executed := _executed c;
     _offset := _offset c; _rows := _rows c;
     _resultsets_to_close := _resultsets_to_close c;
     _query_id := _query_id c; messages := messages c;
     lastrowid := lastrowid c; _next_result_sets := v;
     _unpack_int64 := _unpack_int64 c; trace := trace c |}.

Definition set_trace (v : list event) (c : Cursor) : Cursor :=
  {| connection := connection c; _policy := _policy c;
     operation := operation c; arraysize := arraysize c;
     rowcount := rowcount c; description := description c;
     _can_bindecode := _can_bindecode c; _bindecoders := _bindecoders c;
     rownumber := rownumber c; _executed := _executed c;
     _offset := _offset c; _rows := _rows c;
     _resultsets_to_close := _resultsets_to_close c;
     _query_id := _query_id c; messages := messages c;
     lastrowid := lastrowid c; _next_result_sets := _next_result_sets c;
     _unpack_int64 := _unpack_int64 c; trace := v |}.

(** ** Cursor methods as state transformers *)

Definition Mc (A : Type) : Type := Cursor -> outcome A * Cursor.

Definition ret {A} (a : A) : Mc A := fun c => (Ok a, c).

Definition bind {A B} (m : Mc A) (k : A -> Mc B) : Mc B :=
  fun c =>
    match m c with
    | (Ok a, c') => k a c'
    | (Raise e, c') => (Raise e, c')
    end.

Notation "x <- m ;; k" := (bind m (fun x => k))
  (at level 100, m at next level, right associativity).
Notation "m ;;; k" := (bind m (fun _ => k))
  (at level 100, right associativity).

Definition raise {A} (e : exn) : Mc A := fun c => (Raise e, c).

Definition get : Mc Cursor := fun c => (Ok c, c).

Definition modify (f : Cursor -> Cursor) : Mc unit := fun c => (Ok tt, f c).

(** A value that the interpreter may fail to produce. *)
Definition or_raise {A} (cls : exc_class) (o : option A) : Mc A :=
  match o with
  | Some a => ret a
  | None => raise (Builtin cls)
  end.

Definition lift {A} (o : outcome A) : Mc A :=
  match o with
  | Ok a => ret a
  | Raise e => raise e
  end.

(** A call on [self.connection]; the attribute access fails on [None]. *)
Definition on_connection {A} (ev : event) (f : conn -> outcome A * conn)
  : Mc A :=
  fun c =>
    match connection c with
    | None => (Raise (Builtin AttributeError), c)
    | Some k =>
        let '(r, k') := f k in
        (r, set_trace (trace c ++ [ev]) (set_connection (Some k') c))
    end.

(** A call on [self._policy]. *)
Definition on_policy {A} (ev : event) (f : policy -> A * policy) : Mc A :=
  fun c =>
    let '(a, p') := f (_policy c) in
    (Ok a, set_trace (trace c ++ [ev]) (set_policy p' c)).

(** [_exception_handler]: the error is added to the message list, then
    raised. *)
Definition _exception_handler {A} (cls : exc_class) (message : Py.pystr)
  : Mc A :=
  fun c => (Raise (Exn cls message),
            set_messages (messages c ++ [(cls, message)]) c).

(** Truth value of an [Optional[str]]. *)
Definition truthy (o : option Py.pystr) : bool :=
  match o with
  | Some (_ :: _) => true
  | _ => false
  end.

Definition _check_executed : Mc unit :=
  c <- get ;;
  if truthy (_executed c) then ret tt
  else _exception_handler ProgrammingError (Py.lit "do a execute() first").

(** The text of ['%s'] applied to an [Optional[str]]. *)
Definition fmt_opt (o : option Py.pystr) : Py.pystr :=
  match o with
  | Some s => s
  | None => Py.lit "None"
  end.

(** The loop of [_close_earlier_resultsets]. *)
Fixpoint close_each (rss : list Py.pystr) : Mc unit :=
  match rss with
  | [] => ret tt
  | rs :: rss' =>
      let command := Py.lit "Xclose " ++ rs in
      on_connection (EvCommand command) (conn_command command) ;;;
      close_each rss'
  end.

Definition _close_earlier_resultsets : Mc unit :=
  c <- get ;;
  close_each (_resultsets_to_close c) ;;;
  modify (set_resultsets_to_close []).

(** [close]: an [Error] of the flush is swallowed, anything else
    propagates before the connection is dropped. *)
Definition close : Mc unit :=
  fun c =>
    match _close_earlier_resultsets c with
    | (Raise e, c') =>
        if is_Error (exn_class e) then (Ok tt, set_connection None c')
        else (Raise e, c')
    | (Ok _, c') => (Ok tt, set_connection None c')
    end.

(** ** The text block parser, [_store_result] *)

(** The local variables of [_store_result].  The two flags record the
    aliasing the loop creates: after a query-table line of a fresh parse,
    [self._rows] and [self.description] are the very list objects stored in
    the last entry of [_next_result_sets], and stay so until rebound.  The
    flags live for one parse.  A parse that returns is followed by [nextset],
    which rebinds both attributes to an entry it removes from the queue; a
    parse that raises after a query-table line leaves the attributes shared
    with the queue, and that sharing is not carried in the cursor state. *)
Record locals := mkLocals {
  columns : Z;
  column_name : list (option Py.pystr);
  l_scale : list (option Z);
  l_display_size : list (option Z);
  l_internal_size : list (option Z);
  l_precision : list (option Z);
  l_null_ok : list (option bool);
  type_ : list (option Py.pystr);
  rows_shared : bool;
  description_shared : bool
}.

Definition with_column_name (v : list (option Py.pystr)) (L : locals) : locals :=
  {| columns := columns L; column_name := v; l_scale := l_scale L;
     l_display_size := l_display_size L;
     l_internal_size := l_internal_size L; l_precision := l_precision L;
     l_null_ok := l_null_ok L; type_ := type_ L;
     rows_shared := rows_shared L;
     description_shared := description_shared L |}.

Definition with_scale (v : list (option Z)) (L : locals) : locals :=
  {| columns := columns L; column_name := column_name L; l_scale := v;
     l_display_size := l_display_size L;
     l_internal_size := l_internal_size L; l_precision := l_precision L;
     l_null_ok := l_null_ok L; type_ := type_ L;
     rows_shared := rows_shared L;
     description_shared := description_shared L |}.

Definition with_internal_size (v : list (option Z)) (L : locals) : locals :=
  {| columns := columns L; column_name := column_name L;
     l_scale := l_scale L; l_display_size := l_display_size L;
     l_internal_size := v; l_precision := l_precision L;
     l_null_ok := l_null_ok L; type_ := type_ L;
     rows_shared := rows_shared L;
     description_shared := description_shared L |}.

Definition with_precision (v : list (option Z)) (L : locals) : locals :=
  {| columns := columns L; column_name := column_name L;
     l_scale := l_scale L; l_display_size := l_display_size L;
     l_internal_size := l_internal_size L; l_precision := v;
     l_null_ok := l_null_ok L; type_ := type_ L;
     rows_shared := rows_shared L;
     description_shared := description_shared L |}.

Definition with_type_ (v : list (option Py.pystr)) (L : locals) : locals :=
  {| columns := columns L; column_name := column_name L;
     l_scale := l_scale L; l_display_size := l_display_size L;
     l_internal_size := l_internal_size L; l_precision := l_precision L;
     l_null_ok := l_null_ok L; type_ := v; rows_shared := rows_shared L;
     description_shared := description_shared L |}.

Definition with_rows_shared (v : bool) (L : locals) : locals :=
  {| columns := columns L; column_name := column_name L;
     l_scale := l_scale L; l_display_size := l_display_size L;
     l_internal_size := l_internal_size L; l_precision := l_precision L;
     l_null_ok := l_null_ok L; type_ := type_ L; rows_shared := v;
     description_shared := description_shared L |}.

Definition with_description_shared (v : bool) (L : locals) : locals :=
  {| columns := columns L; column_name := column_name L;
     l_scale := l_scale L; l_display_size := l_display_size L;
     l_internal_size := l_internal_size L; l_precision := l_precision L;
     l_null_ok := l_null_ok L; type_ := type_ L;
     rows_shared := rows_shared L; description_shared := v |}.

(** The locals as initialised before the loop. *)
Definition locals_init : locals :=
  {| columns := 0; column_name := []; l_scale := []; l_display_size := [];
     l_internal_size := []; l_precision := []; l_null_ok := []; type_ := [];
     rows_shared := false; description_shared := false |}.

(** [[None] * columns] *)
Definition nones {A} (columns : Z) : list (option A) :=
  replicate (Z.to_nat columns) None.

(** [l[i] = v] for [i >= 0]; [None] stands for the IndexError. *)
Definition assign {A} (l : list A) (i : nat) (v : A) : option (list A) :=
  if decide (i < length l)%nat then Some (<[i := v]> l) else None.

(** The same change made through the last entry of a list. *)
Fixpoint alter_last {A} (f : A -> A) (l : list A) : list A :=
  match l with
  | [] => []
  | [x] => [f x]
  | x :: l' => x :: alter_last f l'
  end.

(** [self._rows] and [self.description] rebound or mutated in place; a list
    that is shared with the last queued result set changes there too. *)
Definition append_row (L : locals) (r : row) : Mc unit :=
  modify (fun c =>
    let rows' := _rows c ++ [r] in
    let c' := set_rows rows' c in
    if rows_shared L
    then set_next_result_sets
           (alter_last (fun '(q, n, d, _) => (q, n, d, rows'))
              (_next_result_sets c')) c'
    else c').

Definition mutate_description (L : locals) (d : list Description) : Mc unit :=
  modify (fun c =>
    let c' := set_description (Some d) c in
    if description_shared L
    then set_next_result_sets
           (alter_last (fun '(q, n, _, r) => (q, n, d, r))
              (_next_result_sets c')) c'
    else c').

(** [_parse_tuple] *)
Fixpoint convert_all (cells : list (Py.pystr * Description)) : Mc row :=
  match cells with
  | [] => ret []
  | (element, d) :: cells' =>
      v <- lift (pythonize_convert (Py.strip element) (type_code d)) ;;
      vs <- convert_all cells' ;;
      ret (CVal v :: vs)
  end.

Definition _parse_tuple (line : Py.pystr) : Mc row :=
  let elements := Py.split (Py.lit ("," ++ String (ascii_of_nat 9) "")%string)
                    (Py.slice line 1 (-1)) in
  c <- get ;;
  d <- or_raise TypeError (description c) ;;
  if decide (length elements = length d)
  then convert_all (zip elements d)
  else _exception_handler InterfaceError
         (Py.lit "length of row doesn't match header").

(** The [typesizes] field: [[[int(j) for j in i.split()] for i in values]] *)
Definition parse_typesizes (values : list Py.pystr) : option (list (list Z)) :=
  mapM (fun i => mapM Py.int (Py.words i)) values.

(** The loop over [enumerate(type_)] from index [num] on. *)
Fixpoint set_decimals (typesizes : list (list Z)) (num : nat)
    (tys : list (option Py.pystr)) (prec sc : list (option Z))
  : option (list (option Z) * list (option Z)) :=
  match tys with
  | [] => Some (prec, sc)
  | typeelem :: tys' =>
      if decide (typeelem = Some (Py.lit "decimal"))
      then
        ts ← typesizes !! num;
        p ← ts !! 0%nat;
        prec' ← assign prec num (Some p);
        s ← ts !! 1%nat;
        sc' ← assign sc num (Some s);
        set_decimals typesizes (S num) tys' prec' sc'
      else set_decimals typesizes (S num) tys' prec sc
  end.

(** The effect of one header field on the locals. *)
Definition header_field (identity : Py.pystr) (values : list Py.pystr)
    (L : locals) : Mc locals :=
  if decide (identity = Py.lit "name") then
    ret (with_column_name (Some <$> values) L)
  else if decide (identity = Py.lit "table_name") then ret L
  else if decide (identity = Py.lit "type") then
    ret (with_type_ (Some <$> values) L)
  else if decide (identity = Py.lit "length") then ret L
  else if decide (identity = Py.lit "typesizes") then
    typesizes <- or_raise ValueError (parse_typesizes values) ;;
    isz <- or_raise IndexError (mapM (fun x : list Z => x !! 0%nat) typesizes) ;;
    ps <- or_raise IndexError
            (set_decimals typesizes 0 (type_ L) (l_precision L) (l_scale L)) ;;
    ret (with_scale ps.2 (with_precision ps.1
           (with_internal_size (Some <$> isz) L)))
  else
    let msg := Py.lit "unknown header field: " ++ identity in
    modify (fun c => set_messages (messages c ++ [(Warning, msg)]) c) ;;;
    ret L.

(** [Description(column_name[i], type_[i], ...)] *)
Definition description_at (L : locals) (i : nat) : option Description :=
  n ← column_name L !! i;
  t ← type_ L !! i;
  ds ← l_display_size L !! i;
  isz ← l_internal_size L !! i;
  p ← l_precision L !! i;
  s ← l_scale L !! i;
  nk ← l_null_ok L !! i;
  Some (mkDescription n t ds isz p s nk).

(** The loop that refills the description list: the entries appended before
    the first failing index, and whether the loop ran to its end. *)
Fixpoint fill_description (L : locals) (idx : list nat)
  : list Description * bool :=
  match idx with
  | [] => ([], true)
  | i :: idx' =>
      match description_at L i with
      | None => ([], false)
      | Some d =>
          let '(ds, ok) := fill_description L idx' in (d :: ds, ok)
      end
  end.

Definition rebuild_description (L : locals) : Mc locals :=
  c <- get ;;
  let '(ds, ok) := fill_description L (seq 0 (Z.to_nat (columns L))) in
  match description c with
  | Some _ =>
      (* the list object is emptied and refilled in place *)
      mutate_description L ds ;;;
      if ok then ret L else raise (Builtin IndexError)
  | None =>
      if ok then mutate_description (with_description_shared false L) ds ;;;
                 ret (with_description_shared false L)
      else raise (Builtin IndexError)
  end.

(** The header branch once the line is split into its field name and
    values. *)
Definition header_body (identity : Py.pystr) (values : list Py.pystr)
    (L : locals) : Mc locals :=
  L1 <- header_field identity values L ;;
  L2 <- rebuild_description L1 ;;
  modify (set_offset 0) ;;;
  ret L2.

Definition header_line (line : Py.pystr) (L : locals) : Mc locals :=
  match Py.split (Py.lit "#") (Py.slice_from line 1) with
  | [data; identity] =>
      header_body (Py.strip identity)
        (Py.strip <$> Py.split (Py.lit ",") data) L
  | _ => raise (Builtin ValueError)
  end.

(** A query-table or query-prepare line. *)
Definition qtable_line (update_existing : bool) (line : Py.pystr) : Mc locals :=
  match take 4 (Py.words (Py.slice_from line 2)) with
  | [query_id; rowcount_s; columns_s; tuples_s] =>
      modify (set_query_id (Some query_id)) ;;;
      columns <- or_raise ValueError (Py.int columns_s) ;;
      tuples <- or_raise ValueError (Py.int tuples_s) ;;
      c <- get ;;
      (if tuples <? rowcount c
       then modify (set_resultsets_to_close
                      (_resultsets_to_close c ++ [query_id]))
       else ret tt) ;;;
      modify (set_description (Some [])) ;;;
      total <- or_raise ValueError (Py.int rowcount_s) ;;
      modify (set_rowcount total) ;;;
      modify (set_rows []) ;;;
      (if update_existing then ret tt
       else modify (fun c => set_next_result_sets
                      (_next_result_sets c ++ [(query_id, total, [], [])]) c)) ;;;
      modify (set_offset 0) ;;;
      (if Py.startswith line MSG_QPREPARE
       then rowid <- or_raise ValueError (Py.int query_id) ;;
            modify (set_lastrowid (Some rowid))
       else modify (set_lastrowid None)) ;;;
      ret {| columns := columns;
             column_name := nones columns;
             l_scale := nones columns;
             l_display_size := nones columns;
             l_internal_size := nones columns;
             l_precision := nones columns;
             l_null_ok := nones columns;
             type_ := nones columns;
             rows_shared := negb update_existing;
             description_shared := negb update_existing |}
  | _ => raise (Builtin ValueError)
  end.

(** The state cleared by a query-schema or query-transaction line. *)
Definition clear_result (c : Cursor) : Cursor :=
  set_rowcount (-1) (set_description None (set_rows []
    (set_lastrowid None (set_offset 0 c)))).

Definition unshared (L : locals) : locals :=
  with_description_shared false (with_rows_shared false L).

Definition qupdate_line (line : Py.pystr) (L : locals) : Mc locals :=
  match take 2 (Py.words (Py.slice_from line 2)) with
  | [affected; identity] =>
      modify (set_offset 0) ;;;
      modify (set_rows []) ;;;
      modify (set_description None) ;;;
      n <- or_raise ValueError (Py.int affected) ;;
      modify (set_rowcount n) ;;;
      rowid <- or_raise ValueError (Py.int identity) ;;
      modify (set_lastrowid (Some rowid)) ;;;
      modify (set_query_id None) ;;;
      ret (unshared L)
  | _ => raise (Builtin ValueError)
  end.

(** What one iteration of the loop over the lines does next. *)
Inductive flow :=
| Continue (L : locals)
| Return.

(** The body of the loop, one branch per kind of line, in the order of the
    source. *)
Definition store_line (update_existing : bool) (line : Py.pystr) (L : locals)
  : Mc flow :=
  let first := Py.slice_to line 1 in
  if decide (first = MSG_TUPLE) then
    r <- _parse_tuple line ;;
    append_row L r ;;;
    ret (Continue L)
  else if decide (first = MSG_HEADER) then
    L' <- header_line line L ;;
    ret (Continue L')
  else if Py.startswith line MSG_INFO then
    modify (fun c =>
      set_messages (messages c ++ [(Warning, Py.slice_from line 1)]) c) ;;;
    ret (Continue L)
  else if Py.startswith line MSG_QTABLE || Py.startswith line MSG_QPREPARE then
    L' <- qtable_line update_existing line ;;
    ret (Continue L')
  else if Py.startswith line MSG_TUPLE_NOSLICE then
    append_row L [CRaw (Py.slice_from line 1)] ;;;
    ret (Continue L)
  else if Py.startswith line MSG_QBLOCK then
    modify (set_rows []) ;;;
    ret (Continue (with_rows_shared false L))
  else if Py.startswith line MSG_QSCHEMA then
    modify clear_result ;;;
    ret (Continue (unshared L))
  else if Py.startswith line MSG_QUPDATE then
    L' <- qupdate_line line L ;;
    ret (Continue L')
  else if Py.startswith line MSG_QTRANS then
    modify clear_result ;;;
    ret (Continue (unshared L))
  else if decide (line = MSG_PROMPT) then
    ret Return
  else if Py.startswith line MSG_ERROR then
    _exception_handler ProgrammingError (Py.slice_from line 1)
  else
    ret (Continue L).

(** The loop over the lines; the result tells whether it returned at a
    prompt line ([true]) or ran out of lines ([false]). *)
Fixpoint store_lines (update_existing : bool) (lines : list Py.pystr)
    (L : locals) : Mc bool :=
  match lines with
  | [] => ret false
  | line :: lines' =>
      f <- store_line update_existing line L ;;
      match f with
      | Return => ret true
      | Continue L' => store_lines update_existing lines' L'
      end
  end.

Definition unknown_state (block : Py.pystr) : Py.pystr :=
  Py.lit "Unknown state, " ++ block.

(** [_store_result(block, update_existing=...)]; a block that is [None] or
    empty is the empty text. *)
Definition _store_result (block : Py.pystr) (update_existing : bool)
  : Mc unit :=
  (if update_existing then ret tt else modify (set_next_result_sets [])) ;;;
  (if decide (length MSG_TUPLE = 1%nat) then ret tt
   else raise (Builtin AssertionError)) ;;;
  (if decide (length MSG_HEADER = 1%nat) then ret tt
   else raise (Builtin AssertionError)) ;;;
  returned <- store_lines update_existing (Py.split [10] block) locals_init ;;
  if returned : bool then ret tt
  else _exception_handler InterfaceError (unknown_state block).

(** ** The binary block decoder, [_store_binary_result] *)

(** [list(zip( *cols ))]: one row per round in which every column still
    yields an element; the first exhausted column ends it. *)
Fixpoint zip_rounds {A} (fuel : nat) (cols : list (list A)) : list (list A) :=
  match fuel with
  | O => []
  | S fuel' =>
      match mapM head cols with
      | Some r => r :: zip_rounds fuel' (tail <$> cols)
      | None => []
      end
  end.

Definition zip_star {A} (cols : list (list A)) : list (list A) :=
  match cols with
  | [] => []
  | col :: _ => zip_rounds (length col) cols
  end.

(** The loop over the columns, from column [i] on. *)
Fixpoint decode_columns (block : Py.bytes) (toc_pos : Z) (i : nat)
    (decoders : list decoder) : Mc (list (list value)) :=
  match decoders with
  | [] => ret []
  | dec :: decoders' =>
      c <- get ;;
      let start_pos := toc_pos + 16 * Z.of_nat i in
      let length_pos := start_pos + 8 in
      start <- or_raise StructError
                 (Py.unpack_int64 (_unpack_int64 c) block start_pos) ;;
      len <- or_raise StructError
               (Py.unpack_int64 (_unpack_int64 c) block length_pos) ;;
      let slice := Py.slice block start (start + len) in
      k <- or_raise AttributeError (connection c) ;;
      col <- lift (decoder_decode dec (conn_server_endian k) slice) ;;
      cols <- decode_columns block toc_pos (S i) decoders' ;;
      ret (col :: cols)
  end.

Definition _store_binary_result (block : Py.bytes) : Mc unit :=
  c <- get ;;
  decoders <- or_raise AssertionError (_bindecoders c) ;;
  let len := Z.of_nat (length block) in
  (if len <? 8
   then _exception_handler InterfaceError (Py.lit "binary response too short")
   else ret tt) ;;;
  toc_pos <- or_raise StructError
               (Py.unpack_int64 (_unpack_int64 c) block (len - 8)) ;;
  if toc_pos <? 0 then
    let bmsg := Py.slice block toc_pos (-8) in
    let bmsg := Py.before_first x00 bmsg in
    match Py.decode_utf8 bmsg with
    | None => _exception_handler InterfaceError
                (Py.lit "invalid utf-8 in error message")
    | Some msg => _exception_handler ProgrammingError msg
    end
  else
    cols <- decode_columns block toc_pos 0 decoders ;;
    modify (set_rows (map (map CVal) (zip_star cols))).

(** ** The window cache and the fetch operations *)

Definition _check_bindecode_possible : Mc unit :=
  modify (set_can_bindecode (Some false)) ;;;
  c <- get ;;
  k <- or_raise AttributeError (connection c) ;;
  if negb (conn_use_binary k) then ret tt
  else
    d <- or_raise TypeError (description c) ;;
    match mapM (get_decoder d) (seq 0 (length d)) with
    | None => ret tt
    | Some decoders =>
        (* if we get here, all columns have a decoder *)
        modify (set_can_bindecode (Some true)) ;;;
        modify (set_bindecoders (Some decoders))
    end.

Definition export_command (verb : string) (c : Cursor) (rows_to_fetch : Z)
  : Py.pystr :=
  Py.lit verb ++ Py.lit " " ++ fmt_opt (_query_id c) ++ Py.lit " "
  ++ Py.str_of_int (rownumber c) ++ Py.lit " " ++ Py.str_of_int rows_to_fetch.

(** [_populate_cache].  [del self._rows[:]] empties the list in place; the
    cursor state holds the rows by value, so only [_rows] is emptied here
    (see the note at [locals]). *)
Definition _populate_cache (already_used requested_end : Z) : Mc unit :=
  modify (set_rows []) ;;;
  modify (fun c => set_offset (rownumber c) c) ;;;
  c <- get ;;
  rows_to_fetch <-
    on_policy (EvBatchSize already_used (rownumber c) requested_end (rowcount c))
      (policy_batch_size already_used (rownumber c) requested_end (rowcount c)) ;;
  (match _can_bindecode c with
   | None => _check_bindecode_possible
   | Some _ => ret tt
   end) ;;;
  c <- get ;;
  match _can_bindecode c with
  | Some true =>
      let command := export_command "Xexportbin" c rows_to_fetch in
      binary_block <-
        on_connection (EvBinaryCommand command) (conn_binary_command command) ;;
      _store_binary_result binary_block
  | _ =>
      let command := export_command "Xexport" c rows_to_fetch in
      block <- on_connection (EvCommand command) (conn_command command) ;;
      _store_result block true
  end.

(** The check shared by the fetch methods that a result set is there. *)
Definition check_resultset : Mc unit :=
  c <- get ;;
  match _query_id c with
  | None => _exception_handler ProgrammingError
              (Py.lit "query didn't result in a resultset")
  | Some _ => ret tt
  end.

Definition cache_end (c : Cursor) : Z := _offset c + Z.of_nat (length (_rows c)).

(** The last three lines of [fetchone]. *)
Definition take_row : Mc (option row) :=
  c <- get ;;
  result <- or_raise IndexError (Py.index (_rows c) (rownumber c - _offset c)) ;;
  modify (set_rownumber (rownumber c + 1)) ;;;
  ret (Some result).

(** [fetchone]; the result [None] is Python's [None]. *)
Definition fetchone : Mc (option row) :=
  _check_executed ;;;
  check_resultset ;;;
  c <- get ;;
  if rownumber c >=? cache_end c then
    if rownumber c >=? rowcount c then ret None
    else _populate_cache 0 (rownumber c + 1) ;;; take_row
  else take_row.

Definition fetchmany (size : option Z) : Mc (list row) :=
  _check_executed ;;;
  check_resultset ;;;
  c <- get ;;
  let size := match size with None => arraysize c | Some n => n end in
  let requested_end := Z.min (rownumber c + size) (rowcount c) in
  if requested_end <=? cache_end c then
    let result := Py.slice (_rows c) (rownumber c - _offset c)
                    (requested_end - _offset c) in
    modify (set_rownumber requested_end) ;;;
    ret result
  else
    let result := Py.slice (_rows c) (rownumber c - _offset c)
                    (cache_end c - _offset c) in
    modify (set_rownumber (cache_end c)) ;;;
    _populate_cache (Z.of_nat (length result)) requested_end ;;;
    c' <- get ;;
    let result := result ++ Py.slice (_rows c') (rownumber c' - _offset c')
                              (requested_end - _offset c') in
    modify (set_rownumber requested_end) ;;;
    ret result.

Definition fetchall : Mc (list row) :=
  c <- get ;;
  fetchmany (Some (rowcount c)).

(** [nextset]: [None] when no result set is queued, [True] otherwise. *)
Definition nextset : Mc (option bool) :=
  c <- get ;;
  match _next_result_sets c with
  | [] => ret None
  | (q, n, d, r) :: rest =>
      modify (fun c => set_rows r (set_description (Some d)
                (set_rowcount n (set_query_id (Some q) c)))) ;;;
      modify (set_next_result_sets rest) ;;;
      on_policy EvNewQuery policy_new_query ;;;
      modify (set_offset 0) ;;;
      modify (set_rownumber 0) ;;;
      modify (set_can_bindecode None) ;;;
      modify (set_bindecoders None) ;;;
      ret (Some true)
  end.

Definition relative : Py.pystr := Py.lit "relative".
Definition absolute : Py.pystr := Py.lit "absolute".

Definition in_window (c : Cursor) (value : Z) : bool :=
  (_offset c <=? value) && (value <? cache_end c).

Definition scroll (value : Z) (mode : Py.pystr) : Mc unit :=
  _check_executed ;;;
  (if decide (mode = relative) then ret tt
   else if decide (mode = absolute) then ret tt
   else _exception_handler ProgrammingError
          (Py.lit "unknown mode '" ++ mode ++ Py.lit "'")) ;;;
  c <- get ;;
  let value := if decide (mode = relative) then value + rownumber c else value in
  if in_window c value then modify (set_rownumber value)
  else
    (if value >? rowcount c
     then _exception_handler IndexError
            (Py.lit "value beyond length of resultset")
     else ret tt) ;;;
    modify (set_rownumber value) ;;;
    modify (set_offset value) ;;;
    modify (set_rows []) ;;;
    on_policy EvScroll (fun p => (tt, policy_scroll p)).

(** ** [execute] *)

Definition execute (operation : Py.pystr) (params : option parameters)
  : Mc (option Z) :=
  c <- get ;;
  (match connection c with
   | None => _exception_handler ProgrammingError (Py.lit "cursor is closed")
   | Some _ => ret tt
   end) ;;;
  modify (set_messages []) ;;;
  _close_earlier_resultsets ;;;
  desired_replysize <- on_policy EvNewQuery policy_new_query ;;
  c <- get ;;
  k <- or_raise AttributeError (connection c) ;;
  (if decide (conn_current_replysize k = desired_replysize) then ret tt
   else on_connection (EvChangeReplysize desired_replysize)
          (conn_change_replysize desired_replysize)) ;;;
  modify (set_operation operation) ;;;
  query <- match bind_parameters operation params with
           | Ok q => ret q
           | Raise (Exn cls msg) => _exception_handler cls msg
           | Raise e => raise e
           end ;;
  block <- on_connection (EvExecute query) (conn_execute query) ;;
  _store_result block false ;;;
  nextset ;;;
  modify (set_executed (Some operation)) ;;;
  c <- get ;;
  ret (if rowcount c >=? 0 then Some (rowcount c) else None).

(** The state built by [__init__] for a connection [k], given the clone of
    the connection's policy and the array size it decides. *)
Definition init (k : conn) (p : policy) (size : Z) : Cursor :=
  {| connection := Some k; _policy := p; operation := []; arraysize := size;
     rowcount := -1; description := None; _can_bindecode := None;
     _bindecoders := None; rownumber := -1; _executed := None; _offset := 0;
     _rows := []; _resultsets_to_close := []; _query_id := None;
     messages := []; lastrowid := None; _next_result_sets := [];
     _unpack_int64 := conn_server_endian k; trace := [] |}.

(** [executemany] *)
Fixpoint executemany_loop (operation : Py.pystr)
    (seq_of_parameters : list parameters) (count : Z) : Mc Z :=
  match seq_of_parameters with
  | [] => ret count
  | p :: ps =>
      r <- execute operation (Some p) ;;
      n <- or_raise TypeError r ;;
      executemany_loop operation ps (count + n)
  end.

Definition executemany (operation : Py.pystr)
    (seq_of_parameters : list parameters) : Mc Z :=
  count <- executemany_loop operation seq_of_parameters 0 ;;
  modify (set_rowcount count) ;;;
  ret count.

(** ** Iteration, the with-statement and [used_binary_protocol] *)

(** What a step of the iterator protocol gives: a row, or the StopIteration
    that ends the iteration. *)
Inductive step :=
| Yield (r : row)
| StopIteration.

(** [next] and [__next__]: a row that is [None] or falsy, that is, an
    empty tuple, stops the iteration. *)
Definition next : Mc step :=
  r <- fetchone ;;
  match r with
  | None => ret StopIteration
  | Some [] => ret StopIteration
  | Some (x :: xs) => ret (Yield (x :: xs))
  end.

(** [__exit__]: the cursor is closed, an [Error] of the close is swallowed,
    and the result [False] lets an exception of the with-body propagate. *)
Definition exit_ : Mc bool :=
  fun c =>
    match close c with
    | (Ok _, c') => (Ok false, c')
    | (Raise e, c') =>
        if is_Error (exn_class e) then (Ok false, c') else (Raise e, c')
    end.

(** [used_binary_protocol]: [True] as opposed to [False] or [None]. *)
Definition used_binary_protocol (c : Cursor) : bool :=
  match _can_bindecode c with
  | Some true => true
  | _ => false
  end.

End Cursor.

Arguments Cursor {T}.
Arguments cell {T}.
Arguments row {T}.
Arguments Mc {T} A.

(** ** Concrete collaborators

    The sentinels with the values the MAPI protocol gives them, and a
    scripted transport: enough of a server to run the methods on concrete
    blocks. *)

Module Sample.

Definition mapi : Mapi :=
  {| MSG_PROMPT := Py.lit "";
     MSG_INFO := Py.lit "#";
     MSG_ERROR := Py.lit "!";
     MSG_QTABLE := Py.lit "&1";
     MSG_QUPDATE := Py.lit "&2";
     MSG_QSCHEMA := Py.lit "&3";
     MSG_QTRANS := Py.lit "&4";
     MSG_QPREPARE := Py.lit "&5";
     MSG_QBLOCK := Py.lit "&6";
     MSG_HEADER := Py.lit "%";
     MSG_TUPLE := Py.lit "[";
     MSG_TUPLE_NOSLICE := Py.lit "=" |}.

(** A connection that answers from a script: the replies still to be given,
    in order. *)
Record script := mkScript {
  text_replies : list Py.pystr;
  binary_replies : list Py.bytes;
  server_endian : Py.endian;
  binary_allowed : bool;
  current_replysize : Z
}.

Definition next_text (k : script) : outcome Py.pystr * script :=
  match text_replies k with
  | [] => (Raise (Builtin OtherError), k)
  | r :: rs =>
      (Ok r, mkScript rs (binary_replies k) (server_endian k)
               (binary_allowed k) (current_replysize k))
  end.

Definition next_binary (k : script) : outcome Py.bytes * script :=
  match binary_replies k with
  | [] => (Raise (Builtin OtherError), k)
  | r :: rs =>
      (Ok r, mkScript (text_replies k) rs (server_endian k)
               (binary_allowed k) (current_replysize k))
  end.

(** Cells are integers; a binary column holds one value per byte. *)
Definition types : Types :=
  {| conn := script; policy := unit; value := Z; decoder := unit;
     parameters := unit |}.

Definition collab : @Collab types :=
  @Build_Collab types
    (* conn_execute *) (fun _ => next_text)
    (* conn_command *) (fun _ => next_text)
    (* conn_binary_command *) (fun _ => next_binary)
    (* conn_current_replysize *) current_replysize
    (* conn_change_replysize *)
    (fun n k =>
       (Ok tt, mkScript (text_replies k) (binary_replies k) (server_endian k)
                 (binary_allowed k) n))
    (* conn_use_binary *) binary_allowed
    (* conn_server_endian *) server_endian
    (* policy_new_query *) (fun p => (100, p))
    (* policy_batch_size *)
    (fun _ position requested_end _ p =>
       (Z.max (requested_end - position) 100, p))
    (* policy_scroll *) (fun p => p)
    (* get_decoder *) (fun _ _ => Some tt)
    (* decoder_decode *) (fun _ _ slice => Ok (map Py.byte_val slice))
    (* pythonize_convert *)
    (fun data _ =>
       match Py.int data with
       | Some n => Ok n
       | None => Raise (Builtin ValueError)
       end)
    (* bind_parameters *) (fun operation _ => Ok operation).

(** A cursor on a scripted connection, as [execute] leaves it for a result
    set of [total] rows of which [rows] arrived with the reply. *)
Definition cursor (k : script) (total : Z) (rows : list (list Z))
  : @Cursor types :=
  @mkCursor types
    (Some k) tt (Py.lit "select") 100 total
    (Some [mkDescription (Some (Py.lit "a")) (Some (Py.lit "int"))
             None (Some 32) None None None])
    None None 0 (Some (Py.lit "select")) 0
    (map (map (@CVal types)) rows)
    [] (Some (Py.lit "7")) [] None [] (server_endian k) [].

Definition quiet : script := mkScript [] [] Py.Little false 100.

(** A result set of 10 rows whose first three are in the window. *)
Definition small : @Cursor types := cursor quiet 10 [[1]; [2]; [3]].

(** [Sample.small] after [fetchmany(-1)]: the position is before the
    window. *)
Definition rewound : @Cursor types := @set_rownumber types (-1) small.

(** [Sample.small] after [close()]. *)
Definition closed : @Cursor types := @set_connection types None small.


Definition newline : string := String (ascii_of_nat 10) "".

Definition tail_reply : Py.pystr :=
  Py.lit ("[ 3 ]" ++ newline ++ "[ 4 ]" ++ newline ++ "[ 5 ]" ++ newline)%string.

Definition paging : @Cursor types :=
  cursor (mkScript [tail_reply] [] Py.Little false 100) 5 [[1]; [2]].

(** Binary blocks. *)
Definition byte_of (n : Z) : byte :=
  default x00 (Byte.of_N (Z.to_N (n mod 256))).

(** The 8 bytes of [n] as a little-endian signed integer. *)
Definition le64 (n : Z) : Py.bytes :=
  map (fun i => byte_of ((n mod 2 ^ 64) / 2 ^ (8 * Z.of_nat i))) (seq 0 8).

(** Two columns, of two values and of one, a table of contents at offset 3
    and the trailer that points at it. *)
Definition uneven_block : Py.bytes :=
  [byte_of 1; byte_of 2; byte_of 3]
  ++ le64 0 ++ le64 2 ++ le64 2 ++ le64 1
  ++ le64 3.

(** An embedded error message, "err" and a NUL, 12 bytes before the end. *)
Definition error_block : Py.bytes :=
  [byte_of 101; byte_of 114; byte_of 114; x00] ++ le64 (-12).

(** The same with a byte that is not UTF-8. *)
Definition garbled_block : Py.bytes :=
  [byte_of 255; byte_of 114; byte_of 114; x00] ++ le64 (-12).

(** A cursor for which binary decoding of two columns is negotiated. *)
Definition binary : @Cursor types :=
  @set_bindecoders types (Some [tt; tt])
    (@set_can_bindecode types (Some true) small).

(** The locals after a query-table line for two columns and the [name] and
    [type] headers of a decimal and an integer column. *)
Definition two_columns : locals :=
  {| columns := 2;
     column_name := [Some (Py.lit "price"); Some (Py.lit "qty")];
     l_scale := [None; None];
     l_display_size := [None; None];
     l_internal_size := [None; None];
     l_precision := [None; None];
     l_null_ok := [None; None];
     type_ := [Some (Py.lit "decimal"); Some (Py.lit "int")];
     rows_shared := false;
     description_shared := false |}.

(** A whole reply to [execute]: one result set of two columns, a decimal
    and an integer one, with one row.  The description carries precision 10
    and scale 2 for the decimal column only, and the queued result set
    shares the description and the rows. *)
Definition tab : string := String (ascii_of_nat 9) "".

Definition decimal_reply : Py.pystr :=
  Py.lit ("&1 7 1 2 1" ++ newline
          ++ "% sys.t," ++ tab ++ "sys.t # table_name" ++ newline
          ++ "% price," ++ tab ++ "qty # name" ++ newline
          ++ "% decimal," ++ tab ++ "int # type" ++ newline
          ++ "% 10 2," ++ tab ++ "32 0 # typesizes" ++ newline
          ++ "[ 15," ++ tab ++ "2 ]" ++ newline)%string.

Definition decimal_description : list Description :=
  [mkDescription (Some (Py.lit "price")) (Some (Py.lit "decimal"))
     None (Some 10) (Some 10) (Some 2) None;
   mkDescription (Some (Py.lit "qty")) (Some (Py.lit "int"))
     None (Some 32) None None None].

(** [Sample.small] with two more result sets queued. *)
Definition queued : @Cursor types :=
  @set_next_result_sets types
    [(Py.lit "8", 1, [], [[@CVal types 4]]); (Py.lit "9", 0, [], [])] small.

(** A cursor on a connection whose policy allows the binary protocol. *)
Definition negotiable : @Cursor types :=
  cursor (mkScript [] [] Py.Little true 100) 10 [[1]; [2]; [3]].

(** A new cursor on a connection that will answer [Sample.decimal_reply]. *)
Definition fresh : @Cursor types :=
  @init types collab (mkScript [decimal_reply] [] Py.Little false 100) tt 100.


End Sample.

(** * The vocabulary of the properties *)

Section Vocabulary.
Context {M : Mapi} {T : Types} {C : Collab}.

(** An [execute] has been done: [_check_executed] passes. *)
Definition executed (c : Cursor) : Prop := truthy (_executed c) = true.

(** The state "executed, result set active, with a window at [_offset]
    covering rows of the result set": the fetch methods pass their two
    checks, and the window lies inside the result set. *)
Definition result_set_active (c : Cursor) : Prop :=
  executed c /\ _query_id c <> None
  /\ 0 <= _offset c /\ cache_end c <= rowcount c.

Definition valid_mode (mode : Py.pystr) : Prop :=
  mode = relative \/ mode = absolute.

(** The position a [scroll(value, mode)] asks for. *)
Definition scroll_target (c : Cursor) (value : Z) (mode : Py.pystr) : Z :=
  if decide (mode = relative) then value + rownumber c else value.

(** The last 8 bytes of a block read as a signed integer in byte order
    [e]. *)
Definition trailer (e : Py.endian) (block : Py.bytes) : Z :=
  let raw := drop (length block - 8)%nat block in
  Py.to_signed64
    (Py.le_unsigned match e with Py.Little => raw | Py.Big => reverse raw end).

(** The bytes of the message a negative trailer [p] points at: from [p]
    bytes before the end of the block (from its start, if the block is
    shorter) up to the trailer, cut at the first NUL. *)
Definition embedded_message (block : Py.bytes) (p : Z) : Py.bytes :=
  let len := Z.of_nat (length block) in
  Py.before_first x00
    (drop (Z.to_nat (Z.max (len + p) 0)) (take (length block - 8)%nat block)).

(** The fields that the fetch methods and [scroll] read. *)
Definition same_result (c c' : Cursor) : Prop :=
  _executed c' = _executed c /\ _query_id c' = _query_id c
  /\ rowcount c' = rowcount c /\ rownumber c' = rownumber c
  /\ _offset c' = _offset c /\ _rows c' = _rows c
  /\ messages c' = messages c.

(** A line equal to the prompt sentinel reaches the prompt branch: none of
    the branches tried before it takes the line. *)
Definition prompt_unshadowed : bool :=
  negb (bool_decide (Py.slice_to MSG_PROMPT 1 = MSG_TUPLE))
  && negb (bool_decide (Py.slice_to MSG_PROMPT 1 = MSG_HEADER))
  && negb (Py.startswith MSG_PROMPT MSG_INFO)
  && negb (Py.startswith MSG_PROMPT MSG_QTABLE)
  && negb (Py.startswith MSG_PROMPT MSG_QPREPARE)
  && negb (Py.startswith MSG_PROMPT MSG_TUPLE_NOSLICE)
  && negb (Py.startswith MSG_PROMPT MSG_QBLOCK)
  && negb (Py.startswith MSG_PROMPT MSG_QSCHEMA)
  && negb (Py.startswith MSG_PROMPT MSG_QUPDATE)
  && negb (Py.startswith MSG_PROMPT MSG_QTRANS).

(** A computation of the loop body that cannot end the loop. *)
Definition continues (m : Mc flow) : Prop :=
  forall c c', m c <> (Ok Return, c').

(** The state in which the loop of [_store_result] starts. *)
Definition parse_start (ue : bool) (c : Cursor) : Cursor :=
  if ue then c else set_next_result_sets [] c.

Definition decimal : option Py.pystr := Some (Py.lit "decimal").

(** The locals after a query-table line for [n] columns, followed by
    header fields (such as [name] and [type]) of [n] values each: the
    arrays that only [typesizes] writes are still as allocated. *)
Definition allocated (n : nat) (L : locals) : Prop :=
  columns L = Z.of_nat n
  /\ length (column_name L) = n /\ length (type_ L) = n
  /\ l_display_size L = replicate n None
  /\ l_internal_size L = replicate n None
  /\ l_precision L = replicate n None
  /\ l_scale L = replicate n None
  /\ l_null_ok L = replicate n None.

(** What parsing a reply leaves alone: the position, the transport, the
    policy and the trace; [_offset] is kept or reset to 0. *)
Definition parse_frame (c c' : Cursor) : Prop :=
  rownumber c' = rownumber c /\ trace c' = trace c
  /\ connection c' = connection c /\ _policy c' = _policy c
  /\ _executed c' = _executed c
  /\ (_offset c' = _offset c \/ _offset c' = 0).

Definition is_export (ev : event) : bool :=
  match ev with
  | EvCommand _ | EvBinaryCommand _ => true
  | _ => false
  end.






Definition total (sizes : list Z) : Z := foldr Z.add 0 sizes.

(** A client that calls [nextset] [k] times and keeps the results. *)
Fixpoint nextset_times (k : nat) : Mc (list (option bool)) :=
  match k with
  | O => ret []
  | S k' =>
      bind nextset (fun r =>
      bind (nextset_times k') (fun rs =>
      ret (r :: rs)))
  end.

(** A client that calls [fetchone] [k] times and keeps the rows, stopping
    at the first [None]. *)
Fixpoint fetchone_times (k : nat) : Mc (list row) :=
  match k with
  | O => ret []
  | S k' =>
      bind fetchone (fun r =>
      match r with
      | None => ret []
      | Some x => bind (fetchone_times k') (fun xs => ret (x :: xs))
      end)
  end.

(** The policy after [k] calls of [new_query]. *)
Fixpoint new_queries (k : nat) (p : policy) : policy :=
  match k with
  | O => p
  | S k' => new_queries k' (policy_new_query p).2
  end.

(** The commands that close the result sets [rss], in order. *)
Definition close_events (rss : list Py.pystr) : list event :=
  (fun rs => EvCommand (Py.lit "Xclose " ++ rs)) <$> rss.

(** Every row has at least one cell, in the window and in the result sets
    that are queued. *)
Definition rows_nonempty (c : Cursor) : Prop :=
  Forall (fun r : row => r <> []) (_rows c)
  /\ Forall (fun rs : result_set => Forall (fun r : row => r <> []) rs.2)
       (_next_result_sets c).

Definition keeps_rows_nonempty (c c' : Cursor) : Prop :=
  rows_nonempty c -> rows_nonempty c'.

(** The calls that page through the active result set, and the state a
    client is left with after a sequence of them, caught exceptions
    included. *)
Inductive fetch_call :=
| Fetchone
| Fetchmany (size : option Z)
| Fetchall
| Scroll (value : Z) (mode : Py.pystr).

Definition run_call (f : fetch_call) (c : Cursor) : Cursor :=
  match f with
  | Fetchone => (fetchone c).2
  | Fetchmany size => (fetchmany size c).2
  | Fetchall => (fetchall c).2
  | Scroll value mode => (scroll value mode c).2
  end.

Fixpoint run_calls (fs : list fetch_call) (c : Cursor) : Cursor :=
  match fs with
  | [] => c
  | f :: fs' => run_calls fs' (run_call f c)
  end.

(** The entry of the table of contents for column [i]: the slice of the
    block that [dec] decodes to [col]. *)
Definition column_decoded (e : Py.endian) (k : conn) (block : Py.bytes)
    (toc_pos : Z) (i : nat) (dec : decoder) (col : list value) : Prop :=
  exists start len,
    Py.unpack_int64 e block (toc_pos + 16 * Z.of_nat i) = Some start
    /\ Py.unpack_int64 e block (toc_pos + 16 * Z.of_nat i + 8) = Some len
    /\ decoder_decode dec (conn_server_endian k)
         (Py.slice block start (start + len)) = Ok col.

(** The texts of the cells of a tuple line: what is between its first and
    its last character, split at each comma followed by a tab. *)
Definition tuple_elements (line : Py.pystr) : list Py.pystr :=
  Py.split [44; 9] (Py.slice line 1 (-1)).

(** A computation that, when it returns, returns a value with property
    [Q]. *)
Definition returns {A} (Q : A -> Prop) (m : Mc A) : Prop :=
  forall c a c', m c = (Ok a, c') -> Q a.

(** What no parser and no refill changes. *)
Definition settings_frame (c c' : Cursor) : Prop :=
  operation c' = operation c /\ arraysize c' = arraysize c
  /\ _unpack_int64 c' = _unpack_int64 c
  /\ _can_bindecode c' = _can_bindecode c
  /\ _bindecoders c' = _bindecoders c.

(** A computation whose raises relate the state before to the state after,
    and one whose returns satisfy a condition on result and state. *)
Definition on_raise {A} (R : Cursor -> Cursor -> Prop) (m : Mc A) : Prop :=
  forall c e c', m c = (Raise e, c') -> R c c'.

Definition ensures {A} (Q : A -> Cursor -> Prop) (m : Mc A) : Prop :=
  forall c a c', m c = (Ok a, c') -> Q a c'.

(** ** The lines of a reply

    What makes the loop of [_store_result] take a line in a given branch,
    stated on the text of the line and the sentinels. *)

(** A header line [h data # ident] whose field name is [field] and whose
    values, the stripped texts between the commas of [data], are
    [values]. *)
Definition header_line_of (field : Py.pystr) (values : list Py.pystr)
    (line : Py.pystr) : Prop :=
  exists h data ident,
    line = h :: data ++ 35 :: ident
    /\ MSG_HEADER = [h] /\ MSG_TUPLE <> [h]
    /\ (35 ∉ data) /\ (35 ∉ ident)
    /\ Py.strip ident = field
    /\ Py.strip <$> Py.split (Py.lit ",") data = values.

(** A query-table (or query-prepare) line for [n] columns: it reaches that
    branch, and its first four words are a query id and three integers, the
    third of which is [n]. *)
Definition query_table_line (n : nat) (line : Py.pystr) : Prop :=
  Py.slice_to line 1 <> MSG_TUPLE /\ Py.slice_to line 1 <> MSG_HEADER
  /\ Py.startswith line MSG_INFO = false
  /\ Py.startswith line MSG_QTABLE || Py.startswith line MSG_QPREPARE = true
  /\ exists query_id rowcount_s columns_s tuples_s,
       take 4 (Py.words (Py.slice_from line 2))
       = [query_id; rowcount_s; columns_s; tuples_s]
       /\ Py.int columns_s = Some (Z.of_nat n)
       /\ is_Some (Py.int tuples_s) /\ is_Some (Py.int rowcount_s)
       /\ (Py.startswith line MSG_QPREPARE = true -> is_Some (Py.int query_id)).

(** A header line other than [type] and [typesizes] that a server sends
    for a result set of [n] columns. *)
Definition plain_header (n : nat) (line : Py.pystr) : Prop :=
  (exists values,
      header_line_of (Py.lit "name") values line /\ length values = n)
  \/ (exists values, header_line_of (Py.lit "table_name") values line)
  \/ (exists values, header_line_of (Py.lit "length") values line).

(** A tuple line for the row [r] under the type codes [codes] of the
    columns: it has one cell text per column, and [pythonize.convert] turns
    the stripped text of each cell into the cell of [r]. *)
Definition tuple_line_of (codes : list (option Py.pystr)) (r : row)
    (line : Py.pystr) : Prop :=
  Py.slice_to line 1 = MSG_TUPLE
  /\ length (tuple_elements line) = length codes
  /\ Forall2 (fun cell '(element, code) =>
                exists v, cell = CVal v
                          /\ pythonize_convert (Py.strip element) code = Ok v)
       r (zip (tuple_elements line) codes).


(** The window after the rows [rs] were appended, one [append] each, by a
    loop with locals [L]. *)
Definition rows_appended (L : locals) (rs : list row) (c : Cursor) : Cursor :=
  foldl (fun c r => (append_row L r c).2) c rs.

(** ** The collaborators of a refill

    What the transport and the batching policy do for a cursor that pages
    through the rows [data] of a result set, stated on their replies. *)










End Vocabulary.

(** * Properties *)

Section Properties.
Context {M : Mapi} {T : Types} {C : Collab}.

(** ** The checks at the head of the methods *)

Lemma in_window_spec (c : Cursor) (v : Z) :
  in_window c v = true <-> _offset c <= v < cache_end c.
Proof. unfold in_window. rewrite andb_true_iff. lia. Qed.

Lemma in_window_false (c : Cursor) (v : Z) :
  in_window c v = false <-> ~ (_offset c <= v < cache_end c).
Proof. rewrite <- in_window_spec. destruct (in_window c v); intuition congruence. Qed.

Lemma check_executed_ok (c : Cursor) :
  executed c -> _check_executed c = (Ok tt, c).
Proof. unfold executed, _check_executed, bind, get. intros ->. reflexivity. Qed.

Lemma scroll_mode_ok (mode : Py.pystr) (c : Cursor) :
  valid_mode mode ->
  (if decide (mode = relative) then ret tt
   else if decide (mode = absolute) then ret tt
   else _exception_handler ProgrammingError
          (Py.lit "unknown mode '" ++ mode ++ Py.lit "'")) c = (Ok tt, c).
Proof.
  intros [-> | ->]; repeat case_decide; try reflexivity; congruence.
Qed.

(** The part of [scroll] after its two checks. *)
Lemma scroll_unfold (value : Z) (mode : Py.pystr) (c : Cursor) :
  executed c -> valid_mode mode ->
  let target := scroll_target c value mode in
  scroll value mode c =
    if in_window c target then (Ok tt, set_rownumber target c)
    else if target >? rowcount c
         then _exception_handler IndexError
                (Py.lit "value beyond length of resultset") c
         else (Ok tt,
               set_trace (trace c ++ [EvScroll])
                 (set_policy (policy_scroll (_policy c))
                    (set_rows [] (set_offset target (set_rownumber target c))))).
Proof.
  intros He Hm. unfold scroll, bind at 1. rewrite (check_executed_ok c He).
  unfold bind at 1. rewrite (scroll_mode_ok mode c Hm).
  unfold bind at 1, get. fold (scroll_target c value mode). cbv zeta.
  destruct (in_window c _); [reflexivity|].
  unfold bind at 1. destruct (_ >? _); reflexivity.
Qed.

(** ** Slices *)

Lemma clamp_nonneg (len i : Z) : 0 <= i -> Py.clamp len i = Z.min i len.
Proof. unfold Py.clamp. intros. destruct (Z.ltb_spec i 0); [lia | reflexivity]. Qed.

Lemma slice_nonneg {A} (l : list A) (a b : Z) :
  0 <= a -> 0 <= b ->
  Py.slice l a b = take (Z.to_nat (b - a)) (drop (Z.to_nat a) l).
Proof.
  intros Ha Hb. unfold Py.slice. rewrite !clamp_nonneg by lia.
  destruct (Z.le_gt_cases a (Z.of_nat (length l))) as [Hle | Hgt].
  - rewrite (Z.min_l a) by lia.
    destruct (Z.le_gt_cases b (Z.of_nat (length l))).
    + rewrite Z.min_l by lia. reflexivity.
    + rewrite Z.min_r by lia.
      rewrite !take_ge; [reflexivity | rewrite length_drop; lia ..].
  - rewrite !drop_ge by lia. rewrite !take_nil. reflexivity.
Qed.

Lemma slice_empty {A} (l : list A) (a b : Z) :
  0 <= b <= a -> Py.slice l a b = [].
Proof.
  intros H. rewrite slice_nonneg by lia.
  replace (Z.to_nat (b - a)) with 0%nat by lia. reflexivity.
Qed.

Lemma index_nonneg {A} (l : list A) (i : Z) (x : A) :
  Py.index l i = Some x -> 0 <= i -> l !! Z.to_nat i = Some x.
Proof.
  unfold Py.index. intros H Hi.
  destruct (Z.ltb_spec i 0); [lia|].
  destruct (_ && _); [assumption | discriminate].
Qed.

Lemma index_in_range {A} (l : list A) (i : Z) :
  0 <= i < Z.of_nat (length l) -> Py.index l i = l !! Z.to_nat i.
Proof.
  unfold Py.index. intros H.
  destruct (Z.ltb_spec i 0); [lia|].
  destruct (Z.leb_spec 0 i); [|lia].
  destruct (Z.ltb_spec i (Z.of_nat (length l))); [reflexivity | lia].
Qed.

(** ** [scroll] *)

(** C6. A scroll (valid mode, after an execute) to a target inside the
    window [_offset, _offset + len(_rows)) changes [rownumber] only: the
    state left is the old one with [rownumber] set, so the offset, the row
    buffer, the connection, the policy and the trace of collaborator calls
    are the old ones.  A scroll to a target outside the window and not
    beyond [rowcount] clears the row buffer, sets [_offset] and [rownumber]
    to the target, and makes one call, the policy's [scroll()]: the
    connection is not used. *)
Theorem scroll_inside_moves_pointer_outside_relocates
    (c : Cursor) (value : Z) (mode : Py.pystr) :
  executed c -> valid_mode mode ->
  let target := scroll_target c value mode in
  (_offset c <= target < _offset c + Z.of_nat (length (_rows c)) ->
     scroll value mode c = (Ok tt, set_rownumber target c)
     /\ _offset (set_rownumber target c) = _offset c
     /\ _rows (set_rownumber target c) = _rows c
     /\ trace (set_rownumber target c) = trace c
     /\ connection (set_rownumber target c) = connection c
     /\ _policy (set_rownumber target c) = _policy c)
  /\ (~ (_offset c <= target < _offset c + Z.of_nat (length (_rows c))) ->
      target <= rowcount c ->
      exists c',
        scroll value mode c = (Ok tt, c')
        /\ _rows c' = [] /\ _offset c' = target /\ rownumber c' = target
        /\ trace c' = trace c ++ [EvScroll]
        /\ _policy c' = policy_scroll (_policy c)
        /\ connection c' = connection c
        /\ messages c' = messages c).
Proof.
  intros He Hm target. pose proof (scroll_unfold value mode c He Hm) as Hs.
  fold target in Hs. cbv zeta in Hs. split.
  - intros Hin. apply in_window_spec in Hin. rewrite Hin in Hs.
    repeat split; assumption.
  - intros Hout Hbound. apply in_window_false in Hout. rewrite Hout in Hs.
    destruct (Z.gtb_spec target (rowcount c)); [lia|].
    eexists. split; [exact Hs|]. repeat split.
Qed.

(** C7, as the code has it.  [scroll] looks at the window before it looks
    at [rowcount].  After an execute and with a valid mode, a target beyond
    [rowcount] that is outside the window raises IndexError, which is not
    ProgrammingError nor any subclass of the driver's [Error]; the error is
    in the message list of the state it leaves, and nothing else changed.
    A target beyond [rowcount] that is inside the window is accepted: the
    call returns and only moves [rownumber]. *)
Theorem scroll_beyond_rowcount_raises_IndexError
    (c : Cursor) (value : Z) (mode : Py.pystr) :
  executed c -> valid_mode mode ->
  let target := scroll_target c value mode in
  target > rowcount c ->
  let msg := Py.lit "value beyond length of resultset" in
  (~ (_offset c <= target < cache_end c) ->
     scroll value mode c =
       (Raise (Exn IndexError msg),
        set_messages (messages c ++ [(IndexError, msg)]) c))
  /\ (_offset c <= target < cache_end c ->
      scroll value mode c = (Ok tt, set_rownumber target c))
  /\ IndexError <> ProgrammingError
  /\ is_Error IndexError = false.
Proof.
  intros He Hm target Hbeyond msg.
  rewrite (scroll_unfold value mode c He Hm). cbv zeta. fold target.
  split; [|split; [|split; [discriminate | reflexivity]]].
  - intros Hout. apply in_window_false in Hout. rewrite Hout.
    destruct (Z.gtb_spec target (rowcount c)); [reflexivity | lia].
  - intros Hin. apply in_window_spec in Hin. rewrite Hin. reflexivity.
Qed.

(** ** [fetchmany] with a size that is not positive *)

Lemma check_resultset_ok (c : Cursor) :
  _query_id c <> None -> check_resultset c = (Ok tt, c).
Proof.
  unfold check_resultset, bind, get. destruct (_query_id c); [reflexivity | congruence].
Qed.

(** C10. On an active result set with [rownumber] inside the window,
    [fetchmany(size)] with [size <= 0] and [_offset <= rownumber + size]
    raises nothing and returns the empty list; the state it leaves is the
    old one with [rownumber] set to [min(rownumber + size, rowcount)], which
    is [rownumber + size]: for a negative size the position moves back, and
    no collaborator is called. *)
Theorem fetchmany_nonpositive_size_moves_back (c : Cursor) (size : Z) :
  result_set_active c ->
  _offset c <= rownumber c < cache_end c ->
  size <= 0 ->
  _offset c <= rownumber c + size ->
  let c' := set_rownumber (Z.min (rownumber c + size) (rowcount c)) c in
  fetchmany (Some size) c = (Ok [], c')
  /\ rownumber c' = rownumber c + size
  /\ trace c' = trace c
  /\ connection c' = connection c.
Proof.
  intros (He & Hq & Hoff & Hwin) Hin Hsize Hlow c'.
  assert (Z.min (rownumber c + size) (rowcount c) = rownumber c + size) as Hmin
    by lia.
  split; [|subst c'; simpl; auto].
  unfold fetchmany, bind at 1. rewrite (check_executed_ok c He).
  unfold bind at 1. rewrite (check_resultset_ok c Hq).
  unfold bind at 1, get.
  destruct (Z.leb_spec (Z.min (rownumber c + size) (rowcount c)) (cache_end c));
    [|lia].
  unfold bind, modify, ret. rewrite slice_empty by lia. reflexivity.
Qed.

(** ** The binary block decoder *)

Lemma unpack_trailer (e : Py.endian) (block : Py.bytes) :
  8 <= Z.of_nat (length block) ->
  Py.unpack_int64 e block (Z.of_nat (length block) - 8) = Some (trailer e block).
Proof.
  intros Hlen. unfold Py.unpack_int64, trailer.
  destruct (Z.ltb_spec (Z.of_nat (length block) - 8) 0); [lia|].
  destruct (Z.ltb_spec (Z.of_nat (length block) - 8) 0); [lia|].
  destruct (Z.ltb_spec
              (Z.of_nat (length block) - (Z.of_nat (length block) - 8)) 8);
    [lia|].
  simpl. replace (Z.to_nat (Z.of_nat (length block) - 8))
    with (length block - 8)%nat by lia.
  rewrite take_ge by (rewrite length_drop; lia). reflexivity.
Qed.

Lemma slice_message (block : Py.bytes) (p : Z) :
  8 <= Z.of_nat (length block) -> p < 0 ->
  Py.before_first x00 (Py.slice block p (-8)) = embedded_message block p.
Proof.
  intros Hlen Hp. unfold embedded_message, Py.slice, Py.clamp. f_equal.
  destruct (Z.ltb_spec p 0); [|lia].
  destruct (Z.ltb_spec (-8) 0); [|lia].
  rewrite (Z.max_l (-8 + _)) by lia.
  set (a := Z.to_nat (Z.max (p + Z.of_nat (length block)) 0)).
  replace (Z.to_nat (Z.max (Z.of_nat (length block) + p) 0)) with a by lia.
  replace (Z.to_nat (-8 + Z.of_nat (length block)
                     - Z.max (p + Z.of_nat (length block)) 0))
    with (length block - 8 - a)%nat by lia.
  destruct (decide (a <= length block - 8)%nat) as [Hle | Hgt].
  - rewrite take_drop_commute. f_equal. f_equal. lia.
  - replace (length block - 8 - a)%nat with 0%nat by lia.
    rewrite (drop_ge (take _ _)); [reflexivity|].
    rewrite length_take. lia.
Qed.

(** C3. With the decoders negotiated, a block of fewer than 8 bytes fails at
    once with the interface error "binary response too short".  A block
    whose trailing 8-byte signed integer (in the cursor's byte order) is
    negative fails with a ProgrammingError -- the class this driver raises
    for an error reported by the server -- whose message is the text of the
    embedded message, or with an interface error when the embedded bytes
    are not UTF-8.  Each error is also in the message list. *)
Theorem binary_short_block_and_embedded_error
    (c : Cursor) (block : Py.bytes) (decoders : list decoder) :
  _bindecoders c = Some decoders ->
  let len := Z.of_nat (length block) in
  let failure cls msg : outcome unit * Cursor :=
    (Raise (Exn cls msg), set_messages (messages c ++ [(cls, msg)]) c) in
  (len < 8 ->
     _store_binary_result block c
     = failure InterfaceError (Py.lit "binary response too short"))
  /\ (8 <= len -> trailer (_unpack_int64 c) block < 0 ->
      let bmsg := embedded_message block (trailer (_unpack_int64 c) block) in
      (forall msg, Py.decode_utf8 bmsg = Some msg ->
         _store_binary_result block c = failure ProgrammingError msg)
      /\ (Py.decode_utf8 bmsg = None ->
          _store_binary_result block c
          = failure InterfaceError (Py.lit "invalid utf-8 in error message"))).
Proof.
  intros Hdec len failure. split.
  - intros Hshort. unfold _store_binary_result, bind at 1, get. rewrite Hdec.
    unfold bind at 1, or_raise, ret. unfold bind at 1. fold len.
    destruct (Z.ltb_spec len 8); [reflexivity | lia].
  - intros Hlen Hneg bmsg.
    assert (_store_binary_result block c
            = match Py.decode_utf8 bmsg with
              | None => failure InterfaceError
                          (Py.lit "invalid utf-8 in error message")
              | Some msg => failure ProgrammingError msg
              end) as Hrun.
    { unfold _store_binary_result, bind at 1, get. rewrite Hdec.
      unfold bind at 1, or_raise, ret. unfold bind at 1. fold len.
      destruct (Z.ltb_spec len 8); [lia|].
      unfold bind at 1. subst len. rewrite unpack_trailer by lia.
      destruct (Z.ltb_spec (trailer (_unpack_int64 c) block) 0); [|lia].
      rewrite slice_message by lia. fold bmsg.
      destruct (Py.decode_utf8 bmsg); reflexivity. }
    split.
    + intros msg Hmsg. rewrite Hrun, Hmsg. reflexivity.
    + intros Hbad. rewrite Hrun, Hbad. reflexivity.
Qed.

(** *** Transposition *)

Lemma mapM_compose {A B D} (f : B -> option D) (g : A -> B) (l : list A) :
  mapM f (g <$> l) = mapM (fun x => f (g x)) l.
Proof.
  induction l as [|x l IH]; [reflexivity|].
  cbn. destruct (f (g x)); [|reflexivity]. cbn. rewrite IH. reflexivity.
Qed.

(** Row [i] of the transposition exists as long as every column has an
    element [i] (and the first column decides how many rounds there are). *)
Lemma zip_rounds_lookup {A} (fuel : nat) (cols : list (list A)) (i : nat) :
  zip_rounds fuel cols !! i =
    if decide (i < fuel)%nat then mapM (fun col => col !! i) cols else None.
Proof.
  revert cols i. induction fuel as [|fuel IH]; intros cols i.
  - cbn. destruct (decide _); [lia | reflexivity].
  - cbn [zip_rounds]. destruct (mapM head cols) as [r|] eqn:Hr.
    + destruct i as [|i].
      * cbn. destruct (decide _); [|lia]. rewrite <- Hr.
        apply mapM_ext. intros col. apply head_lookup.
      * cbn [lookup list_lookup]. change (zip_rounds fuel (tail <$> cols) !! i
          = if decide (S i < S fuel)%nat
            then mapM (fun col => col !! S i) cols else None).
        rewrite IH, mapM_compose.
        destruct (decide (i < fuel)%nat), (decide (S i < S fuel)%nat);
          try lia; [|reflexivity].
        apply mapM_ext. intros col. apply lookup_tail.
    + cbn. destruct (decide _); [|reflexivity]. symmetry.
      apply mapM_None. apply mapM_None in Hr.
      rewrite Exists_exists in *. destruct Hr as (col & Hin & Hhead).
      exists col. split; [assumption|].
      destruct col; [reflexivity | discriminate].
Qed.

Lemma zip_star_lookup {A} (col : list A) (cols : list (list A)) (i : nat) :
  zip_star (col :: cols) !! i = mapM (fun col => col !! i) (col :: cols).
Proof.
  unfold zip_star. rewrite zip_rounds_lookup.
  destruct (decide _) as [|Hge]; [reflexivity|].
  cbn. rewrite (lookup_ge_None_2 col i) by lia. reflexivity.
Qed.

(** No row beyond the end of any column. *)
Lemma zip_star_length_le {A} (cols : list (list A)) (col : list A) :
  col ∈ cols -> (length (zip_star cols) <= length col)%nat.
Proof.
  intros Hin. destruct cols as [|col0 cols]; [cbn; lia|].
  destruct (decide (length (zip_star (col0 :: cols)) <= length col)%nat)
    as [|Hgt]; [assumption | exfalso].
  destruct (lookup_lt_is_Some_2 (zip_star (col0 :: cols)) (length col))
    as [r Hr]; [lia|].
  rewrite zip_star_lookup in Hr. apply mapM_Some_1 in Hr.
  apply list_elem_of_lookup in Hin as [j Hj].
  destruct (Forall2_lookup_l _ _ _ _ _ Hr Hj) as (x & _ & Hx).
  apply lookup_lt_Some in Hx. lia.
Qed.

(** The rows stop with the shortest column. *)
Lemma zip_star_length_shortest {A} (cols : list (list A)) :
  cols <> [] ->
  exists col, col ∈ cols /\ length (zip_star cols) = length col.
Proof.
  intros Hne. destruct cols as [|col0 cols]; [congruence|].
  pose proof (lookup_ge_None_2 (zip_star (col0 :: cols))
                (length (zip_star (col0 :: cols))) (le_n _)) as Hnone.
  rewrite zip_star_lookup in Hnone. apply mapM_None_1 in Hnone.
  apply Exists_exists in Hnone as (col & Hin & Hcol).
  exists col. split; [assumption|].
  apply lookup_ge_None_1 in Hcol.
  pose proof (zip_star_length_le (col0 :: cols) col Hin). lia.
Qed.

(** Row [i] holds element [i] of every column, in column order. *)
Lemma zip_star_row {A} (cols : list (list A)) (i : nat) (r : list A) :
  zip_star cols !! i = Some r ->
  Forall2 (fun col x => col !! i = Some x) cols r.
Proof.
  destruct cols as [|col0 cols]; [discriminate|].
  rewrite zip_star_lookup. apply mapM_Some_1.
Qed.

(** The column loop reads the cursor and leaves it as it is. *)
Lemma decode_columns_state (block : Py.bytes) (toc_pos : Z) (i : nat)
    (decoders : list decoder) (c c' : Cursor) (r : outcome (list (list value))) :
  decode_columns block toc_pos i decoders c = (r, c') -> c' = c.
Proof.
  revert i r c'. induction decoders as [|dec decoders IH]; intros i r c'.
  - cbn. unfold ret. congruence.
  - cbn [decode_columns]. unfold bind at 1, get.
    unfold bind at 1, or_raise.
    destruct (Py.unpack_int64 _ _ _); [|unfold raise; congruence].
    unfold ret at 1. unfold bind at 1.
    destruct (Py.unpack_int64 _ _ _); [|unfold raise; congruence].
    unfold ret at 1. unfold bind at 1.
    destruct (connection c); [|unfold raise; congruence].
    unfold ret at 1. unfold bind at 1, lift.
    destruct (decoder_decode _ _ _); [|unfold raise; congruence].
    unfold ret at 1. unfold bind at 1.
    destruct (decode_columns block toc_pos (S i) decoders c) as [[cols|e] c1]
      eqn:Hrec.
    + apply IH in Hrec. unfold ret. congruence.
    + apply IH in Hrec. congruence.
Qed.

(** C1, as the code has it.  On a block of at least 8 bytes whose trailer is
    not negative and whose columns all decode, [_store_binary_result] raises
    nothing: it stores the transposition of the columns, which has no more
    rows than any column and as many as the shortest one -- where the
    columns differ in length the longer ones are cut, without an error --
    and whose row [i] holds element [i] of each column. *)
Theorem binary_rows_stop_at_shortest_column
    (c : Cursor) (block : Py.bytes) (decoders : list decoder)
    (cols : list (list value)) (c1 : Cursor) :
  _bindecoders c = Some decoders ->
  8 <= Z.of_nat (length block) ->
  0 <= trailer (_unpack_int64 c) block ->
  decode_columns block (trailer (_unpack_int64 c) block) 0 decoders c
    = (Ok cols, c1) ->
  _store_binary_result block c
    = (Ok tt, set_rows (map (map CVal) (zip_star cols)) c)
  /\ (forall col, col ∈ cols -> (length (zip_star cols) <= length col)%nat)
  /\ (cols <> [] ->
      exists col, col ∈ cols /\ length (zip_star cols) = length col)
  /\ (forall i r, zip_star cols !! i = Some r ->
        Forall2 (fun col x => col !! i = Some x) cols r).
Proof.
  intros Hdec Hlen Htoc Hcols.
  pose proof (decode_columns_state _ _ _ _ _ _ _ Hcols) as ->.
  split; [|split; [|split]].
  - unfold _store_binary_result, bind at 1, get. rewrite Hdec.
    unfold bind at 1, or_raise, ret. unfold bind at 1.
    destruct (Z.ltb_spec (Z.of_nat (length block)) 8); [lia|].
    unfold bind at 1. rewrite unpack_trailer by lia.
    destruct (Z.ltb_spec (trailer (_unpack_int64 c) block) 0); [lia|].
    unfold bind. rewrite Hcols. reflexivity.
  - intros col. apply zip_star_length_le.
  - apply zip_star_length_shortest.
  - apply zip_star_row.
Qed.

(** ** [close] *)

Lemma close_each_same_result (rss : list Py.pystr) (c c' : Cursor)
    (r : outcome unit) :
  close_each rss c = (r, c') -> same_result c c'.
Proof.
  revert c. induction rss as [|rs rss IH]; intros c.
  - cbn. unfold ret. intros [= _ <-]. repeat split.
  - cbn [close_each]. unfold bind, on_connection.
    destruct (connection c) as [k|]; [|intros [= _ <-]; repeat split].
    destruct (conn_command _ k) as [[block|e] k'].
    + intros Hrec. apply IH in Hrec. exact Hrec.
    + intros [= _ <-]. repeat split.
Qed.

Lemma close_same_result (c c' : Cursor) (r : outcome unit) :
  close c = (r, c') -> same_result c c'.
Proof.
  unfold close, _close_earlier_resultsets, bind, get.
  destruct (close_each (_resultsets_to_close c) c) as [[[]|e] c1] eqn:Hflush;
    apply close_each_same_result in Hflush.
  - unfold modify. intros [= _ <-]. exact Hflush.
  - destruct (is_Error _); intros [= _ <-]; exact Hflush.
Qed.

(** [close] drops the connection whenever it returns. *)
Lemma close_severs_connection (c c' : Cursor) :
  close c = (Ok tt, c') -> connection c' = None.
Proof.
  unfold close.
  destruct (_close_earlier_resultsets c) as [[[]|e] c1].
  - intros [= <-]. reflexivity.
  - destruct (is_Error _); [|discriminate]. intros [= <-]. reflexivity.
Qed.

(** [execute] on a closed cursor raises the programming error "cursor is
    closed" and logs it. *)
Lemma execute_closed_raises (c : Cursor) (operation : Py.pystr)
    (params : option parameters) :
  connection c = None ->
  execute operation params c =
    (Raise (Exn ProgrammingError (Py.lit "cursor is closed")),
     set_messages (messages c ++ [(ProgrammingError, Py.lit "cursor is closed")]) c).
Proof.
  intros Hc. unfold execute, bind at 1, get. unfold bind at 1. rewrite Hc.
  reflexivity.
Qed.

(** [fetchone] with [rownumber] inside the window does not look at the
    connection. *)
Lemma fetchone_in_window (c : Cursor) :
  executed c -> _query_id c <> None ->
  _offset c <= rownumber c < cache_end c ->
  exists r, _rows c !! Z.to_nat (rownumber c - _offset c) = Some r
    /\ fetchone c = (Ok (Some r), set_rownumber (rownumber c + 1) c).
Proof.
  intros He Hq Hin.
  destruct (lookup_lt_is_Some_2 (_rows c) (Z.to_nat (rownumber c - _offset c)))
    as [r Hr]; [unfold cache_end in Hin; lia|].
  exists r. split; [assumption|].
  unfold fetchone, bind at 1. rewrite (check_executed_ok c He).
  unfold bind at 1. rewrite (check_resultset_ok c Hq).
  unfold bind at 1, get.
  destruct (Z.geb_spec (rownumber c) (cache_end c)); [lia|].
  unfold take_row, bind at 1, get. unfold bind at 1.
  rewrite index_in_range by (unfold cache_end in Hin; lia).
  rewrite Hr. reflexivity.
Qed.

(** After a [close] that returned, [fetchone] still returns the cached row
    at [rownumber]: the cursor is not unusable. *)
Lemma fetchone_after_close_returns_cached_row (c c' : Cursor) :
  executed c -> _query_id c <> None ->
  _offset c <= rownumber c < cache_end c ->
  close c = (Ok tt, c') ->
  connection c' = None
  /\ exists r, _rows c !! Z.to_nat (rownumber c - _offset c) = Some r
       /\ fetchone c' = (Ok (Some r), set_rownumber (rownumber c + 1) c').
Proof.
  intros He Hq Hin Hclose.
  split; [exact (close_severs_connection c c' Hclose)|].
  destruct (close_same_result c c' _ Hclose)
    as (Hex & Hqid & _ & Hrn & Hoff & Hrows & _).
  destruct (fetchone_in_window c') as (r & Hr & Hf).
  - unfold executed. rewrite Hex. exact He.
  - rewrite Hqid. exact Hq.
  - unfold cache_end. rewrite Hrn, Hoff, Hrows. exact Hin.
  - exists r. rewrite Hrn, Hoff, Hrows in Hr. rewrite Hrn in Hf. auto.
Qed.

(** ** The text block parser *)

Lemma continues_ret (L : locals) : continues (ret (Continue L)).
Proof. intros c c'. unfold ret. congruence. Qed.

Lemma continues_bind {A} (m : Mc A) (k : A -> Mc flow) :
  (forall a, continues (k a)) -> continues (bind m k).
Proof.
  intros Hk c c'. unfold bind. destruct (m c) as [[a|e] c1].
  - apply Hk.
  - congruence.
Qed.

Lemma continues_handler (cls : exc_class) (msg : Py.pystr) :
  continues (_exception_handler cls msg).
Proof. intros c c'. unfold _exception_handler. congruence. Qed.

Ltac continues :=
  repeat first
    [ apply continues_ret
    | apply continues_handler
    | apply continues_bind; intros; cbv beta ].

(** Only a line equal to the prompt sentinel ends the loop. *)
Lemma store_line_return (ue : bool) (line : Py.pystr) (L : locals)
    (c c' : Cursor) :
  store_line ue line L c = (Ok Return, c') -> line = MSG_PROMPT /\ c' = c.
Proof.
  unfold store_line.
  repeat match goal with
         | |- context [if ?b then _ else _] => destruct b
         end;
    try (intros H; exfalso; revert H;
         match goal with
         | |- ?m c = _ -> False =>
             assert (continues m) as Hc by continues; exact (Hc c c')
         end).
  unfold ret. intros [= <-]. auto.
Qed.

Lemma prompt_line_returns (ue : bool) (L : locals) (c : Cursor) :
  prompt_unshadowed = true -> store_line ue MSG_PROMPT L c = (Ok Return, c).
Proof.
  unfold prompt_unshadowed. rewrite !andb_true_iff, !negb_true_iff.
  rewrite !bool_decide_eq_false.
  intros (((((((((H1 & H2) & H3) & H4) & H5) & H6) & H7) & H8) & H9) & H10).
  unfold store_line. rewrite !decide_False by assumption.
  rewrite H3, H4, H5, H6, H7, H8, H9, H10. cbn.
  rewrite decide_True by reflexivity. reflexivity.
Qed.

(** Without a prompt line the loop does not return. *)
Lemma store_lines_no_prompt (ue : bool) (lines : list Py.pystr) (L : locals)
    (c c' : Cursor) :
  MSG_PROMPT ∉ lines -> store_lines ue lines L c <> (Ok true, c').
Proof.
  revert L c. induction lines as [|line lines IH]; intros L c Hno.
  - cbn. unfold ret. congruence.
  - cbn [store_lines]. unfold bind.
    destruct (store_line ue line L c) as [[[L'|]|e] c1] eqn:Hline.
    + apply IH. intros Hin. apply Hno. right. exact Hin.
    + apply store_line_return in Hline as [-> _]. exfalso. apply Hno. left.
    + congruence.
Qed.

(** The loop returns at a prompt line if the lines before it raise
    nothing. *)
Lemma store_lines_prompt (ue : bool) (pre post : list Py.pystr) (L : locals)
    (c c' : Cursor) (b : bool) :
  prompt_unshadowed = true ->
  store_lines ue pre L c = (Ok b, c') ->
  store_lines ue (pre ++ MSG_PROMPT :: post) L c = (Ok true, c').
Proof.
  intros Hp. revert L c. induction pre as [|line pre IH]; intros L c.
  - cbn [store_lines app]. unfold ret at 1. intros [= _ <-].
    unfold bind. rewrite (prompt_line_returns ue L c Hp). reflexivity.
  - cbn [store_lines app]. unfold bind.
    destruct (store_line ue line L c) as [[[L'|]|e] c1].
    + apply IH.
    + unfold ret. intros [= _ <-]. reflexivity.
    + discriminate.
Qed.

Lemma store_result_unfold (block : Py.pystr) (ue : bool) (c : Cursor) :
  length MSG_TUPLE = 1%nat -> length MSG_HEADER = 1%nat ->
  _store_result block ue c =
    match store_lines ue (Py.split [10] block) locals_init (parse_start ue c) with
    | (Ok true, c') => (Ok tt, c')
    | (Ok false, c') => _exception_handler InterfaceError (unknown_state block) c'
    | (Raise e, c') => (Raise e, c')
    end.
Proof.
  intros Ht Hh. unfold _store_result, parse_start.
  rewrite !decide_True by assumption.
  destruct ue; unfold bind, modify, ret;
    destruct (store_lines _ _ _ _) as [[[]|e] c']; reflexivity.
Qed.

(** C2, as the code has it.  With one-character tuple and header sentinels:
    a block without a prompt line always ends in a raise, and when no line
    raised it is the interface error "Unknown state, " followed by the
    block, logged in the message list; a block with a prompt line, none of
    whose earlier lines raises, is parsed successfully up to that line.
    (A line that raises -- an error line, a malformed header, tuple or query
    line -- ends the parse with its own error, prompt or not.) *)
Theorem store_result_prompt_or_unknown_state
    (block : Py.pystr) (ue : bool) (c : Cursor) :
  length MSG_TUPLE = 1%nat -> length MSG_HEADER = 1%nat ->
  let lines := Py.split [10] block in
  (MSG_PROMPT ∉ lines ->
     (exists e c', _store_result block ue c = (Raise e, c'))
     /\ (forall c',
           store_lines ue lines locals_init (parse_start ue c) = (Ok false, c') ->
           _store_result block ue c
           = (Raise (Exn InterfaceError (unknown_state block)),
              set_messages
                (messages c' ++ [(InterfaceError, unknown_state block)]) c')))
  /\ (prompt_unshadowed = true ->
      forall pre post b c',
        lines = pre ++ MSG_PROMPT :: post ->
        store_lines ue pre locals_init (parse_start ue c) = (Ok b, c') ->
        _store_result block ue c = (Ok tt, c')).
Proof.
  intros Ht Hh lines. rewrite (store_result_unfold block ue c Ht Hh).
  fold lines. split.
  - intros Hno. split.
    + destruct (store_lines ue lines locals_init (parse_start ue c))
        as [[[]|e] c'] eqn:Hrun.
      * exfalso. exact (store_lines_no_prompt _ _ _ _ _ Hno Hrun).
      * unfold _exception_handler. eauto.
      * eauto.
    + intros c' ->. reflexivity.
  - intros Hp pre post b c' Hlines Hpre. rewrite Hlines.
    rewrite (store_lines_prompt ue pre post _ _ c' b Hp Hpre). reflexivity.
Qed.

(** *** The [typesizes] header field *)

Lemma parse_typesizes_lookup (values : list Py.pystr) (ts : list (list Z))
    (i : nat) (v : Py.pystr) :
  parse_typesizes values = Some ts -> values !! i = Some v ->
  exists t, ts !! i = Some t /\ mapM Py.int (Py.words v) = Some t.
Proof.
  unfold parse_typesizes. intros Hts Hv. apply mapM_Some_1 in Hts.
  destruct (Forall2_lookup_l _ _ _ _ _ Hts Hv) as (t & Ht & Hp). eauto.
Qed.

Lemma parse_typesizes_length (values : list Py.pystr) (ts : list (list Z)) :
  parse_typesizes values = Some ts -> length ts = length values.
Proof.
  unfold parse_typesizes. intros Hts. apply mapM_Some_1 in Hts.
  symmetry. exact (Forall2_length _ _ _ Hts).
Qed.

Lemma assign_Some {A} (l : list A) (i : nat) (v : A) :
  (i < length l)%nat -> assign l i v = Some (<[i := v]> l).
Proof. intros H. unfold assign. rewrite decide_True by assumption. reflexivity. Qed.

(** What the loop over [enumerate(type_)] leaves in [precision] and
    [scale]: position [num + j] is written when type [j] is decimal, and
    only then. *)
Lemma set_decimals_spec (ts : list (list Z)) (tys : list (option Py.pystr)) :
  forall (num : nat) (prec sc : list (option Z)),
    (num + length tys <= length prec)%nat ->
    (num + length tys <= length sc)%nat ->
    (forall j, tys !! j = Some decimal ->
       exists p s tl, ts !! (num + j)%nat = Some (p :: s :: tl)) ->
    exists prec' sc',
      set_decimals ts num tys prec sc = Some (prec', sc')
      /\ length prec' = length prec /\ length sc' = length sc
      /\ (forall i, (i < num)%nat \/ (num + length tys <= i)%nat ->
            prec' !! i = prec !! i /\ sc' !! i = sc !! i)
      /\ (forall j t, tys !! j = Some t -> t <> decimal ->
            prec' !! (num + j)%nat = prec !! (num + j)%nat
            /\ sc' !! (num + j)%nat = sc !! (num + j)%nat)
      /\ (forall j p s tl, tys !! j = Some decimal ->
            ts !! (num + j)%nat = Some (p :: s :: tl) ->
            prec' !! (num + j)%nat = Some (Some p)
            /\ sc' !! (num + j)%nat = Some (Some s)).
Proof.
  unfold decimal.
  induction tys as [|t tys IH]; intros num prec sc Hp Hs Hdec.
  - exists prec, sc. cbn. repeat split; intros; discriminate.
  - cbn [length] in Hp, Hs. cbn [set_decimals].
    destruct (decide (t = Some (Py.lit "decimal"))) as [->|Hne].
    + destruct (Hdec 0%nat eq_refl) as (p & s & tl & Hts).
      rewrite Nat.add_0_r in Hts. rewrite Hts. cbn.
      rewrite assign_Some by lia. cbn. rewrite assign_Some by lia. cbn.
      destruct (IH (S num) (<[num := Some p]> prec) (<[num := Some s]> sc))
        as (prec' & sc' & Hrun & Hlp & Hls & Hout & Hother & Hset).
      * rewrite length_insert. lia.
      * rewrite length_insert. lia.
      * intros j Hj. destruct (Hdec (S j) Hj) as (p' & s' & tl' & H').
        exists p', s', tl'. rewrite <- H'. f_equal. lia.
      * exists prec', sc'. rewrite Hrun, Hlp, Hls, !length_insert.
        split; [reflexivity|]. split; [reflexivity|]. split; [reflexivity|].
        split; [|split].
        -- intros i Hi. destruct (Hout i) as [Hop Hos]; [cbn in Hi; lia|].
           rewrite Hop, Hos.
           rewrite !list_lookup_insert_ne by (cbn in Hi; lia). auto.
        -- intros [|j] t' Hj Ht'; [cbn in Hj; congruence|].
           cbn in Hj. replace (num + S j)%nat with (S num + j)%nat by lia.
           destruct (Hother j t' Hj Ht') as [Hop Hos]. rewrite Hop, Hos.
           rewrite !list_lookup_insert_ne by lia. auto.
        -- intros [|j] p' s' tl' Hj Hts'.
           ++ rewrite Nat.add_0_r in *. rewrite Hts in Hts'.
              injection Hts' as <- <- <-.
              destruct (Hout num) as [Hop Hos]; [lia|]. rewrite Hop, Hos.
              rewrite !list_lookup_insert_eq by lia. auto.
           ++ cbn in Hj. replace (num + S j)%nat with (S num + j)%nat in * by lia.
              exact (Hset j p' s' tl' Hj Hts').
    + destruct (IH (S num) prec sc) as
        (prec' & sc' & Hrun & Hlp & Hls & Hout & Hother & Hset); [lia | lia | |].
      * intros j Hj. destruct (Hdec (S j) Hj) as (p' & s' & tl' & H').
        exists p', s', tl'. rewrite <- H'. f_equal. lia.
      * exists prec', sc'. rewrite Hrun.
        split; [reflexivity|]. split; [assumption|]. split; [assumption|].
        split; [|split].
        -- intros i Hi. apply Hout. cbn in Hi. lia.
        -- intros [|j] t' Hj Ht'.
           ++ rewrite Nat.add_0_r. apply Hout. lia.
           ++ cbn in Hj. replace (num + S j)%nat with (S num + j)%nat by lia.
              exact (Hother j t' Hj Ht').
        -- intros [|j] p' s' tl' Hj Hts';
             [change (Some t = Some (Some (Py.lit "decimal"))) in Hj; congruence|].
           cbn in Hj. replace (num + S j)%nat with (S num + j)%nat in * by lia.
           exact (Hset j p' s' tl' Hj Hts').
Qed.

Lemma fill_description_ok (L : locals) (idx : list nat) :
  (forall i, i ∈ idx -> is_Some (description_at L i)) ->
  exists ds, fill_description L idx = (ds, true)
    /\ Forall2 (fun i d => description_at L i = Some d) idx ds.
Proof.
  induction idx as [|i idx IH]; intros Hall.
  - exists []. split; [reflexivity | constructor].
  - destruct (Hall i) as [d Hd]; [left|].
    destruct IH as (ds & Hfill & Hds).
    { intros j Hj. apply Hall. right. exact Hj. }
    exists (d :: ds). cbn [fill_description]. rewrite Hd, Hfill.
    split; [reflexivity | constructor; assumption].
Qed.

(** The description list after a rebuild that runs to its end. *)
Lemma rebuild_description_ok (L : locals) (c : Cursor) (ds : list Description) :
  fill_description L (seq 0 (Z.to_nat (columns L))) = (ds, true) ->
  exists L' c',
    rebuild_description L c = (Ok L', c')
    /\ description c' = Some ds
    /\ rownumber c' = rownumber c /\ _rows c' = _rows c
    /\ messages c' = messages c.
Proof.
  intros Hfill. unfold rebuild_description, bind at 1, get. rewrite Hfill.
  destruct (description c) as [d0|] eqn:Hd.
  - exists L. unfold bind, mutate_description, modify, ret.
    eexists. split; [reflexivity|].
    destruct (description_shared L); repeat split.
  - exists (with_description_shared false L).
    unfold bind, mutate_description, modify, ret.
    eexists. split; [reflexivity|]. repeat split.
Qed.

Lemma header_field_typesizes (values : list Py.pystr) (L : locals) (c : Cursor)
    (ts : list (list Z)) (isz : list Z) (prec sc : list (option Z)) :
  parse_typesizes values = Some ts ->
  mapM (fun x : list Z => x !! 0%nat) ts = Some isz ->
  set_decimals ts 0 (type_ L) (l_precision L) (l_scale L) = Some (prec, sc) ->
  header_field (Py.lit "typesizes") values L c
  = (Ok (with_scale sc (with_precision prec
           (with_internal_size (Some <$> isz) L))), c).
Proof.
  intros Hts Hisz Hdec. unfold header_field.
  do 4 (destruct (decide _) as [Heq|_]; [vm_compute in Heq; discriminate|]).
  destruct (decide _) as [_|Hne]; [|congruence].
  unfold bind, or_raise, ret. rewrite Hts, Hisz, Hdec. reflexivity.
Qed.

Lemma description_at_Some (L : locals) (i : nat) (d : Description) :
  description_at L i = Some d ->
  column_name L !! i = Some (name d) /\ type_ L !! i = Some (type_code d)
  /\ l_display_size L !! i = Some (display_size d)
  /\ l_internal_size L !! i = Some (internal_size d)
  /\ l_precision L !! i = Some (precision d)
  /\ l_scale L !! i = Some (scale d)
  /\ l_null_ok L !! i = Some (null_ok d).
Proof.
  unfold description_at.
  destruct (column_name L !! i), (type_ L !! i), (l_display_size L !! i),
    (l_internal_size L !! i), (l_precision L !! i), (l_scale L !! i),
    (l_null_ok L !! i); cbn; try discriminate.
  intros [= <-]. cbn. repeat split.
Qed.

Lemma description_at_is_Some (L : locals) (i n : nat) :
  (i < n)%nat ->
  length (column_name L) = n -> length (type_ L) = n ->
  length (l_display_size L) = n -> length (l_internal_size L) = n ->
  length (l_precision L) = n -> length (l_scale L) = n ->
  length (l_null_ok L) = n ->
  is_Some (description_at L i).
Proof.
  intros Hi H1 H2 H3 H4 H5 H6 H7. unfold description_at.
  destruct (lookup_lt_is_Some_2 (column_name L) i) as [? ->]; [lia|].
  destruct (lookup_lt_is_Some_2 (type_ L) i) as [? ->]; [lia|].
  destruct (lookup_lt_is_Some_2 (l_display_size L) i) as [? ->]; [lia|].
  destruct (lookup_lt_is_Some_2 (l_internal_size L) i) as [? ->]; [lia|].
  destruct (lookup_lt_is_Some_2 (l_precision L) i) as [? ->]; [lia|].
  destruct (lookup_lt_is_Some_2 (l_scale L) i) as [? ->]; [lia|].
  destruct (lookup_lt_is_Some_2 (l_null_ok L) i) as [? ->]; [lia|].
  cbn. eauto.
Qed.

(** The header branch for [typesizes], on locals allocated for [n] columns:
    entry [i] of the description takes its internal size from the first
    integer of value [i]; its precision and scale are the two integers when
    type [i] is decimal, and stay unset otherwise. *)
Lemma typesizes_header_description (n : nat) (L : locals) (c : Cursor)
    (values : list Py.pystr) (ts : list (list Z)) :
  allocated n L -> length values = n ->
  parse_typesizes values = Some ts ->
  (forall j t, ts !! j = Some t -> t <> []) ->
  (forall j, type_ L !! j = Some decimal ->
     exists p s tl, ts !! j = Some (p :: s :: tl)) ->
  exists L' c' ds,
    header_body (Py.lit "typesizes") values L c = (Ok L', c')
    /\ description c' = Some ds /\ length ds = n
    /\ forall i d, ds !! i = Some d ->
         type_ L !! i = Some (type_code d)
         /\ exists p tl, ts !! i = Some (p :: tl)
              /\ internal_size d = Some p
              /\ (type_code d = decimal ->
                  exists s tl', tl = s :: tl'
                    /\ precision d = Some p /\ scale d = Some s)
              /\ (type_code d <> decimal ->
                  precision d = None /\ scale d = None).
Proof.
  intros (Hcol & Hname & Hty & Hds & His & Hpr & Hsc & Hnk) Hlen Hts Hne Hdec.
  pose proof (parse_typesizes_length _ _ Hts) as Hlts.
  destruct (mapM_is_Some_2 (fun x : list Z => x !! 0%nat) ts) as [isz Hisz].
  { apply Forall_forall. intros t Ht. apply list_elem_of_lookup in Ht as [j Hj].
    specialize (Hne j t Hj). destruct t; [congruence | cbn; eauto]. }
  pose proof (mapM_Some_1 _ _ _ Hisz) as Hisz2.
  destruct (set_decimals_spec ts (type_ L) 0 (l_precision L) (l_scale L))
    as (prec & sc & Hrun & Hlp & Hls & _ & Hother & Hset).
  { rewrite Hpr, length_replicate. lia. }
  { rewrite Hsc, length_replicate. lia. }
  { exact Hdec. }
  set (L1 := with_scale sc (with_precision prec
               (with_internal_size (Some <$> isz) L))).
  destruct (fill_description_ok L1 (seq 0 (Z.to_nat (columns L1))))
    as (ds & Hfill & Hall).
  { intros i Hi. apply elem_of_seq in Hi. cbn in Hi. rewrite Hcol in Hi.
    apply (description_at_is_Some L1 i n); cbn; try assumption; try lia.
    - rewrite Hds. apply length_replicate.
    - rewrite length_fmap, <- (Forall2_length _ _ _ Hisz2). lia.
    - rewrite Hlp, Hpr. apply length_replicate.
    - rewrite Hls, Hsc. apply length_replicate.
    - rewrite Hnk. apply length_replicate. }
  destruct (rebuild_description_ok L1 c ds Hfill)
    as (L2 & c2 & Hreb & Hdesc & _).
  exists L2, (set_offset 0 c2), ds. split; [|split; [|split]].
  - unfold header_body, bind at 1.
    rewrite (header_field_typesizes values L c ts isz prec sc Hts Hisz Hrun).
    fold L1. unfold bind at 1. rewrite Hreb. reflexivity.
  - exact Hdesc.
  - rewrite <- (Forall2_length _ _ _ Hall), length_seq. cbn. lia.
  - intros i d Hd.
    destruct (Forall2_lookup_r _ _ _ _ _ Hall Hd) as (j & Hj & Hat).
    apply lookup_seq in Hj as [-> Hi]. cbn in Hat.
    apply description_at_Some in Hat
      as (_ & Htc & _ & Hsize & Hprec & Hscale & _).
    cbn in Htc, Hsize, Hprec, Hscale. split; [exact Htc|].
    rewrite list_lookup_fmap in Hsize.
    destruct (isz !! i) as [p|] eqn:Hp; [|discriminate].
    destruct (Forall2_lookup_r _ _ _ _ _ Hisz2 Hp) as (t & Ht & Ht0).
    destruct t as [|p' tl]; [discriminate|]. cbn in Ht0. injection Ht0 as ->.
    exists p, tl. split; [exact Ht|]. split; [cbn in Hsize; congruence|].
    split.
    + intros Hdecimal. rewrite Hdecimal in Htc.
      destruct (Hdec i Htc) as (p2 & s & tl' & Ht2).
      rewrite Ht in Ht2. injection Ht2 as -> ->.
      destruct (Hset i p2 s tl' Htc Ht) as [Hp2 Hs2]. cbn in Hp2, Hs2.
      exists s, tl'. split; [reflexivity|]. split; congruence.
    + intros Hnot. destruct (Hother i (type_code d) Htc Hnot) as [Hp2 Hs2].
      cbn in Hp2, Hs2. rewrite Hpr in Hp2. rewrite Hsc in Hs2.
      rewrite lookup_replicate_2 in Hp2, Hs2 by (cbn in Hi; lia).
      split; congruence.
Qed.

Lemma startswith_nil {A} `{EqDecision A} (s : list A) :
  Py.startswith s [] = true.
Proof. destruct s; reflexivity. Qed.

(** The pieces of a text around the one occurrence of a one-character
    separator. *)
Lemma split_aux_no_separator {A} `{EqDecision A} (x : A) (b cur : list A) :
  x ∉ b -> Py.split_aux [x] 0 cur b = [reverse cur ++ b].
Proof.
  revert cur. induction b as [|y b IH]; intros cur Hno.
  - cbn. rewrite app_nil_r. reflexivity.
  - cbn. destruct (decide (y = x)) as [->|Hne].
    + exfalso. apply Hno. left.
    + rewrite IH by (intros Hin; apply Hno; right; exact Hin).
      rewrite reverse_cons, <- app_assoc. reflexivity.
Qed.

Lemma split_once {A} `{EqDecision A} (x : A) (a b : list A) :
  x ∉ a -> x ∉ b -> Py.split [x] (a ++ x :: b) = [a; b].
Proof.
  intros Ha Hb. unfold Py.split.
  enough (forall cur, Py.split_aux [x] 0 cur (a ++ x :: b)
                      = [reverse cur ++ a; b]) as Hgen by apply (Hgen []).
  induction a as [|y a IH]; intros cur.
  - cbn. rewrite decide_True by reflexivity. rewrite startswith_nil.
    cbn. rewrite (split_aux_no_separator x b [] Hb), app_nil_r. reflexivity.
  - cbn. destruct (decide (y = x)) as [->|Hne].
    + exfalso. apply Ha. left.
    + rewrite IH by (intros Hin; apply Ha; right; exact Hin).
      rewrite reverse_cons, <- app_assoc. reflexivity.
Qed.

(** The header branch on a line made of the header sentinel [h], the values
    and, after the one "#", the field name. *)
Lemma header_line_split (h : Z) (data ident : Py.pystr) (L : locals) :
  35 ∉ data -> 35 ∉ ident ->
  header_line (h :: data ++ 35 :: ident) L
  = header_body (Py.strip ident) (Py.strip <$> Py.split (Py.lit ",") data) L.
Proof.
  intros Hd Hi. unfold header_line.
  assert (Py.slice_from (h :: data ++ 35 :: ident) 1 = data ++ 35 :: ident)
    as ->.
  { unfold Py.slice_from, Py.clamp. cbn [length].
    destruct (Z.ltb_spec 1 0); [lia|].
    rewrite Z.min_l by lia. reflexivity. }
  change (Py.lit "#") with [35]. rewrite (split_once 35 data ident Hd Hi).
  reflexivity.
Qed.

(** ** The lines of a reply through the loop *)

Lemma slice_to_head (h : Z) (s : Py.pystr) : Py.slice_to (h :: s) 1 = [h].
Proof.
  unfold Py.slice_to, Py.clamp. cbn [length].
  destruct (Z.ltb_spec 1 0); [lia|]. rewrite Z.min_l by lia. reflexivity.
Qed.

Lemma store_line_header (ue : bool) (field : Py.pystr)
    (values : list Py.pystr) (line : Py.pystr) (L : locals) :
  header_line_of field values line ->
  store_line ue line L
  = bind (header_body field values L) (fun L' => ret (Continue L')).
Proof.
  intros (h & data & ident & -> & Hh & Ht & Hd & Hi & <- & <-).
  unfold store_line. cbv zeta. rewrite slice_to_head.
  rewrite decide_False by congruence. rewrite decide_True by congruence.
  rewrite (header_line_split h data ident L Hd Hi). reflexivity.
Qed.

Lemma store_line_qtable (ue : bool) (n : nat) (line : Py.pystr) (L : locals) :
  query_table_line n line ->
  store_line ue line L
  = bind (qtable_line ue line) (fun L' => ret (Continue L')).
Proof.
  intros (Ht & Hh & Hi & Hq & _). unfold store_line. cbv zeta.
  rewrite !decide_False by assumption. rewrite Hi, Hq. reflexivity.
Qed.

(** The query-table line allocates the arrays of the locals and empties
    the description. *)
Lemma qtable_line_allocates (ue : bool) (n : nat) (line : Py.pystr)
    (c : Cursor) :
  query_table_line n line ->
  exists L c',
    qtable_line ue line c = (Ok L, c')
    /\ allocated n L /\ type_ L = replicate n None
    /\ description c' = Some [].
Proof.
  intros (_ & _ & _ & _ & q & rs & cs & ts & Hwords & Hcols & [t Ht] & [r Hr]
          & Hprep).
  unfold qtable_line. rewrite Hwords.
  unfold bind, modify, or_raise, ret, get. cbv beta.
  rewrite Hcols, Ht. cbv beta iota.
  assert (forall A (b : bool) (x y : Mc A) (k : Cursor),
             (if b then x else y) k = if b then x k else y k) as Hif
    by (intros A [] x y k; reflexivity).
  rewrite !Hif. cbv beta.
  destruct (Py.startswith line MSG_QPREPARE) eqn:Hp.
  - destruct (Hprep eq_refl) as [rowid Hrowid]. rewrite Hr, Hrowid.
    destruct (t <? _), ue; cbv beta iota; (eexists; eexists;
      split; [reflexivity|]); unfold allocated, nones; cbn;
      rewrite Nat2Z.id, !length_replicate; repeat split.
  - rewrite Hr.
    destruct (t <? _), ue; cbv beta iota; (eexists; eexists;
      split; [reflexivity|]); unfold allocated, nones; cbn;
      rewrite Nat2Z.id, !length_replicate; repeat split.
Qed.

(** The rebuild of the description on locals whose arrays all have [n]
    entries. *)
Lemma rebuild_description_allocated (n : nat) (L : locals) (c : Cursor) :
  columns L = Z.of_nat n ->
  length (column_name L) = n -> length (type_ L) = n ->
  length (l_display_size L) = n -> length (l_internal_size L) = n ->
  length (l_precision L) = n -> length (l_scale L) = n ->
  length (l_null_ok L) = n ->
  exists L' c' ds,
    rebuild_description L c = (Ok L', c')
    /\ (L' = L \/ L' = with_description_shared false L)
    /\ description c' = Some ds.
Proof.
  intros Hcol H1 H2 H3 H4 H5 H6 H7.
  destruct (fill_description_ok L (seq 0 (Z.to_nat (columns L))))
    as (ds & Hfill & _).
  { intros i Hi. apply elem_of_seq in Hi. rewrite Hcol, Nat2Z.id in Hi.
    apply (description_at_is_Some L i n); [lia | assumption ..]. }
  unfold rebuild_description, bind at 1, get. rewrite Hfill.
  destruct (description c) as [d0|].
  - exists L. unfold bind, mutate_description, modify, ret.
    eexists. exists ds. split; [reflexivity|]. split; [left; reflexivity|].
    destruct (description_shared L); reflexivity.
  - exists (with_description_shared false L).
    unfold bind, mutate_description, modify, ret.
    eexists. exists ds. split; [reflexivity|]. split; [right; reflexivity|].
    reflexivity.
Qed.

(** A header field that sets the names or the types of [n] columns, or
    nothing, on allocated locals. *)
Lemma header_body_allocated (n : nat) (field : Py.pystr)
    (values : list Py.pystr) (L L1 : locals) (c : Cursor) :
  allocated n L ->
  header_field field values L = ret L1 ->
  (L1 = L \/ (L1 = with_column_name (Some <$> values) L /\ length values = n)
   \/ (L1 = with_type_ (Some <$> values) L /\ length values = n)) ->
  exists L' c',
    header_body field values L c = (Ok L', c')
    /\ allocated n L'
    /\ type_ L' = type_ L1
    /\ is_Some (description c').
Proof.
  intros (Hcol & Hname & Hty & Hds & His & Hpr & Hsc & Hnk) Hfield HL1.
  assert (columns L1 = Z.of_nat n /\ length (column_name L1) = n
          /\ length (type_ L1) = n
          /\ l_display_size L1 = replicate n None
          /\ l_internal_size L1 = replicate n None
          /\ l_precision L1 = replicate n None
          /\ l_scale L1 = replicate n None
          /\ l_null_ok L1 = replicate n None) as HL1'.
  { destruct HL1 as [-> | [[-> Hlen] | [-> Hlen]]]; cbn;
      rewrite ?length_fmap; repeat split; assumption. }
  destruct HL1' as (Hcol1 & Hname1 & Hty1 & Hds1 & His1 & Hpr1 & Hsc1 & Hnk1).
  destruct (rebuild_description_allocated n L1 (ret L1 c).2)
    as (L' & c' & ds & Hrun & HL' & Hdesc);
    rewrite ?Hds1, ?His1, ?Hpr1, ?Hsc1, ?Hnk1, ?length_replicate;
    try assumption; try reflexivity.
  unfold header_body, bind at 1. rewrite Hfield. unfold ret at 1.
  unfold bind at 1. cbn [snd ret] in Hrun. rewrite Hrun.
  unfold bind, modify, ret. eexists. eexists. split; [reflexivity|].
  split; [|split].
  - destruct HL' as [-> | ->]; unfold allocated; cbn; repeat split; assumption.
  - destruct HL' as [-> | ->]; reflexivity.
  - cbn. rewrite Hdesc. eauto.
Qed.

Lemma header_body_plain (n : nat) (line : Py.pystr) (L : locals) (c : Cursor) :
  allocated n L -> plain_header n line ->
  forall ue, exists L' c',
    store_line ue line L c = (Ok (Continue L'), c')
    /\ allocated n L' /\ type_ L' = type_ L.
Proof.
  intros Hal Hplain ue.
  destruct Hplain as [(values & Hline & Hlen) | [(values & Hline)
                                               | (values & Hline)]];
    rewrite (store_line_header ue _ values line L Hline); unfold bind at 1.
  - destruct (header_body_allocated n (Py.lit "name") values L
                (with_column_name (Some <$> values) L) c Hal)
      as (L' & c' & -> & Hal' & Hty' & _);
      [reflexivity | right; left; split; [reflexivity | exact Hlen] |].
    exists L', c'. split; [reflexivity|]. split; assumption.
  - destruct (header_body_allocated n (Py.lit "table_name") values L L c Hal)
      as (L' & c' & -> & Hal' & Hty' & _);
      [reflexivity | left; reflexivity |].
    exists L', c'. split; [reflexivity|]. split; assumption.
  - destruct (header_body_allocated n (Py.lit "length") values L L c Hal)
      as (L' & c' & -> & Hal' & Hty' & _);
      [reflexivity | left; reflexivity |].
    exists L', c'. split; [reflexivity|]. split; assumption.
Qed.

Lemma store_lines_plain_headers (ue : bool) (n : nat)
    (hs tail : list Py.pystr) :
  Forall (plain_header n) hs ->
  forall L c, allocated n L ->
    exists L' c',
      store_lines ue (hs ++ tail) L c = store_lines ue tail L' c'
      /\ allocated n L' /\ type_ L' = type_ L.
Proof.
  induction 1 as [|line hs Hline Hhs IH]; intros L c Hal.
  - exists L, c. auto.
  - destruct (header_body_plain n line L c Hal Hline ue)
      as (L1 & c1 & Hrun & Hal1 & Hty1).
    destruct (IH L1 c1 Hal1) as (L' & c' & Hrest & Hal' & Hty').
    exists L', c'. split; [|split; [exact Hal' | congruence]].
    cbn [app store_lines]. unfold bind at 1. rewrite Hrun. exact Hrest.
Qed.

(** The [type] header of [n] values. *)
Lemma store_line_type_header (ue : bool) (n : nat) (line : Py.pystr)
    (types : list Py.pystr) (L : locals) (c : Cursor) :
  allocated n L -> header_line_of (Py.lit "type") types line ->
  length types = n ->
  exists L' c',
    store_line ue line L c = (Ok (Continue L'), c')
    /\ allocated n L' /\ type_ L' = Some <$> types.
Proof.
  intros Hal Hline Hlen.
  rewrite (store_line_header ue _ types line L Hline). unfold bind at 1.
  destruct (header_body_allocated n (Py.lit "type") types L
              (with_type_ (Some <$> types) L) c Hal)
    as (L' & c' & -> & Hal' & Hty' & _);
    [reflexivity | right; right; split; [reflexivity | exact Hlen] |].
  exists L', c'. split; [reflexivity|]. split; assumption.
Qed.


(** A tuple line whose cells convert is parsed to its row, and the row is
    appended to the window. *)
Lemma convert_all_zip (elements : list Py.pystr) :
  forall (d : list Description) (r : row) (c : Cursor),
    Forall2 (fun cell '(element, code) =>
               exists v, cell = CVal v
                         /\ pythonize_convert (Py.strip element) code = Ok v)
      r (zip elements (type_code <$> d)) ->
    convert_all (zip elements d) c = (Ok r, c).
Proof.
  induction elements as [|e elements IH]; intros [|x d] r c Hr;
    cbn in Hr; inversion Hr; subst; try reflexivity.
  match goal with
  | H : exists v, _ /\ _ |- _ => destruct H as (v & -> & Hv)
  end.
  cbn [zip zip_with convert_all]. unfold bind at 1, lift. rewrite Hv.
  unfold ret at 1. unfold bind.
  match goal with
  | H : Forall2 _ ?l (zip elements _) |- _ => rewrite (IH d l c H)
  end.
  reflexivity.
Qed.

Lemma parse_tuple_line (codes : list (option Py.pystr)) (r : row)
    (line : Py.pystr) (d : list Description) (c : Cursor) :
  tuple_line_of codes r line -> description c = Some d ->
  type_code <$> d = codes ->
  _parse_tuple line c = (Ok r, c).
Proof.
  intros (_ & Hlen & Hcells) Hd <-. unfold _parse_tuple.
  change (Py.split _ (Py.slice line 1 (-1))) with (tuple_elements line).
  cbv zeta. unfold bind, get. rewrite Hd. unfold or_raise, ret.
  rewrite length_fmap in Hlen. rewrite decide_True by exact Hlen.
  apply convert_all_zip. exact Hcells.
Qed.

Lemma rows_appended_description (L : locals) (rs : list row) :
  forall c, description (rows_appended L rs c) = description c.
Proof.
  unfold rows_appended. induction rs as [|r rs IH]; intros c; [reflexivity|].
  cbn [foldl]. rewrite IH. unfold append_row, modify. cbn.
  destruct (rows_shared L); reflexivity.
Qed.

Lemma store_lines_tuples (ue : bool) (codes : list (option Py.pystr))
    (d : list Description) (L : locals) (tail : list Py.pystr)
    (rs : list row) (tuples : list Py.pystr) :
  Forall2 (tuple_line_of codes) rs tuples -> type_code <$> d = codes ->
  forall c, description c = Some d ->
    store_lines ue (tuples ++ tail) L c
    = store_lines ue tail L (rows_appended L rs c).
Proof.
  intros Hrows Hcodes. induction Hrows as [|r line rs tuples Hline Hrows IH];
    intros c Hd; [reflexivity|].
  cbn [app store_lines]. unfold bind at 1.
  assert (store_line ue line L c = (Ok (Continue L), (append_row L r c).2))
    as ->.
  { unfold store_line. cbv zeta.
    rewrite decide_True by (destruct Hline as [Hfirst _]; exact Hfirst).
    unfold bind at 1. rewrite (parse_tuple_line codes r line d c Hline Hd Hcodes).
    reflexivity. }
  rewrite IH; [reflexivity|].
  rewrite <- Hd. apply (rows_appended_description L [r] c).
Qed.

Lemma store_lines_at_prompt (ue : bool) (rest : list Py.pystr) (L : locals)
    (c : Cursor) :
  prompt_unshadowed = true ->
  store_lines ue (MSG_PROMPT :: rest) L c = (Ok true, c).
Proof.
  intros Hp. cbn [store_lines]. unfold bind.
  rewrite (prompt_line_returns ue L c Hp). reflexivity.
Qed.


(** C8.  A reply is parsed by [_store_result]: a query-table line for [n]
    columns, header lines among which a [type] header with the type tags
    [types], then a [typesizes] header with the values [values], the tuple
    lines and the prompt.  The parse returns, and the description it leaves
    has one entry per column, with the type tag of the column as its type
    code.  For a column whose [typesizes] value is "10 2": the internal size
    is 10, and when its type tag is decimal the precision is 10 and the
    scale is 2.  For every column whose type tag is not decimal, precision
    and scale stay unset, and the internal size is the first integer of its
    value. *)
Theorem typesizes_decimal_precision_scale
    (block : Py.pystr) (ue : bool) (c : Cursor) (n : nat)
    (qline type_line sizes_line : Py.pystr)
    (before between tuples rest : list Py.pystr)
    (types values : list Py.pystr) (ts : list (list Z)) (rows : list row) :
  prompt_unshadowed = true -> length MSG_TUPLE = 1%nat ->
  Py.split [10] block
  = qline :: before ++ type_line :: between ++ sizes_line
      :: tuples ++ MSG_PROMPT :: rest ->
  query_table_line n qline ->
  Forall (plain_header n) before -> Forall (plain_header n) between ->
  header_line_of (Py.lit "type") types type_line -> length types = n ->
  header_line_of (Py.lit "typesizes") values sizes_line ->
  length values = n ->
  parse_typesizes values = Some ts ->
  (forall j t, ts !! j = Some t -> t <> []) ->
  (forall j, types !! j = Some (Py.lit "decimal") ->
     exists p s tl, ts !! j = Some (p :: s :: tl)) ->
  Forall2 (tuple_line_of (Some <$> types)) rows tuples ->
  exists c' ds,
    _store_result block ue c = (Ok tt, c')
    /\ description c' = Some ds /\ length ds = n
    /\ (forall i d, ds !! i = Some d ->
          exists ty, types !! i = Some ty /\ type_code d = Some ty)
    /\ (forall i d, ds !! i = Some d ->
          values !! i = Some (Py.lit "10 2") ->
          internal_size d = Some 10
          /\ (type_code d = decimal ->
              precision d = Some 10 /\ scale d = Some 2))
    /\ (forall i d, ds !! i = Some d -> type_code d <> decimal ->
          precision d = None /\ scale d = None
          /\ exists p tl, ts !! i = Some (p :: tl) /\ internal_size d = Some p).
Proof.
  intros Hprompt Htuple Hsplit Hq Hbefore Hbetween Htype Hlt Hsizes Hlv Hts
    Hne Hdec Hrows.
  assert (length MSG_HEADER = 1%nat) as Hheader.
  { destruct Htype as (h & _ & _ & _ & -> & _). reflexivity. }
  rewrite (store_result_unfold block ue c Htuple Hheader), Hsplit.
  (* the query-table line *)
  cbn [store_lines]. unfold bind at 1.
  rewrite (store_line_qtable ue n qline locals_init Hq). unfold bind at 1.
  destruct (qtable_line_allocates ue n qline (parse_start ue c) Hq)
    as (L0 & c0 & -> & Hal0 & _ & _).
  unfold ret at 1.
  (* the headers up to the types *)
  destruct (store_lines_plain_headers ue n before
              (type_line :: between ++ sizes_line
                 :: tuples ++ MSG_PROMPT :: rest) Hbefore L0 c0 Hal0)
    as (L1 & c1 & -> & Hal1 & _).
  cbn [store_lines]. unfold bind at 1.
  destruct (store_line_type_header ue n type_line types L1 c1 Hal1 Htype Hlt)
    as (L2 & c2 & -> & Hal2 & Hty2).
  destruct (store_lines_plain_headers ue n between
              (sizes_line :: tuples ++ MSG_PROMPT :: rest) Hbetween L2 c2 Hal2)
    as (L3 & c3 & -> & Hal3 & Hty3).
  rewrite Hty2 in Hty3.
  (* the typesizes header *)
  cbn [store_lines]. unfold bind at 1.
  rewrite (store_line_header ue _ values sizes_line L3 Hsizes).
  unfold bind at 1.
  destruct (typesizes_header_description n L3 c3 values ts Hal3 Hlv Hts Hne)
    as (L4 & c4 & ds & -> & Hdesc & Hlds & Hall).
  { intros j Hj. apply Hdec. rewrite Hty3, list_lookup_fmap in Hj.
    unfold decimal in Hj.
    destruct (types !! j); [injection Hj as ->; reflexivity | discriminate Hj]. }
  unfold ret at 1.
  assert (forall i d, ds !! i = Some d ->
            exists ty, types !! i = Some ty /\ type_code d = Some ty) as Hcode.
  { intros i d Hd. destruct (Hall i d Hd) as [Hti _].
    rewrite Hty3, list_lookup_fmap in Hti.
    destruct (types !! i) as [ty|]; [|discriminate Hti].
    exists ty. split; [reflexivity|]. cbn in Hti. congruence. }
  assert (type_code <$> ds = Some <$> types) as Hcodes.
  { apply list_eq. intros i. rewrite !list_lookup_fmap.
    destruct (ds !! i) as [d|] eqn:Hd.
    - destruct (Hcode i d Hd) as (ty & Hty & Hcd). rewrite Hty. cbn.
      rewrite Hcd. reflexivity.
    - apply lookup_ge_None in Hd.
      rewrite (proj2 (lookup_ge_None types i)) by lia. reflexivity. }
  (* the tuple lines and the prompt *)
  rewrite (store_lines_tuples ue (Some <$> types) ds L4
             (MSG_PROMPT :: rest) rows tuples Hrows Hcodes c4 Hdesc).
  rewrite (store_lines_at_prompt ue rest L4 _ Hprompt).
  exists (rows_appended L4 rows c4), ds.
  split; [reflexivity|].
  split; [rewrite rows_appended_description; exact Hdesc|].
  split; [exact Hlds|]. split; [exact Hcode|]. split.
  - intros i d Hd Hval.
    destruct (Hall i d Hd) as (_ & p & tl & Ht & Hsize & Hdecimal & _).
    destruct (parse_typesizes_lookup values ts i _ Hts Hval)
      as (t & Ht' & Hparse).
    vm_compute in Hparse. rewrite Ht in Ht'.
    assert (p = 10 /\ tl = [2]) as [-> ->] by (split; congruence).
    split; [exact Hsize|]. intros Hty.
    destruct (Hdecimal Hty) as (s & tl' & Htl & Hp & Hs).
    injection Htl as <- _. auto.
  - intros i d Hd Hty.
    destruct (Hall i d Hd) as (_ & p & tl & Ht & Hsize & _ & Hnot).
    destruct (Hnot Hty) as [Hp Hs]. eauto 10.
Qed.

(** ** Frame reasoning for the parser and the refill *)

Section Preserve.
Variable R : Cursor -> Cursor -> Prop.
Hypothesis R_refl : forall c, R c c.
Hypothesis R_trans : forall c1 c2 c3, R c1 c2 -> R c2 c3 -> R c1 c3.

(** Every run of [m] relates the state it starts in to the one it
    leaves. *)
Definition preserves {A} (m : Mc A) : Prop :=
  forall c r c', m c = (r, c') -> R c c'.

Lemma preserves_ret {A} (a : A) : preserves (ret a).
Proof. intros c r c' [= _ <-]. apply R_refl. Qed.

Lemma preserves_raise {A} (e : exn) : preserves (@raise _ A e).
Proof. intros c r c' [= _ <-]. apply R_refl. Qed.

Lemma preserves_get : preserves get.
Proof. intros c r c' [= _ <-]. apply R_refl. Qed.

Lemma preserves_or_raise {A} (cls : exc_class) (o : option A) :
  preserves (or_raise cls o).
Proof. destruct o; [apply preserves_ret | apply preserves_raise]. Qed.

Lemma preserves_lift {A} (o : outcome A) : preserves (lift o).
Proof. destruct o; [apply preserves_ret | apply preserves_raise]. Qed.

Lemma preserves_modify (f : Cursor -> Cursor) :
  (forall c, R c (f c)) -> preserves (modify f).
Proof. intros Hf c r c' [= _ <-]. apply Hf. Qed.

Lemma preserves_bind {A B} (m : Mc A) (k : A -> Mc B) :
  preserves m -> (forall a, preserves (k a)) -> preserves (bind m k).
Proof.
  intros Hm Hk c r c'. unfold bind.
  destruct (m c) as [[a|e] c1] eqn:Hmc.
  - intros Hka. exact (R_trans _ _ _ (Hm _ _ _ Hmc) (Hk a _ _ _ Hka)).
  - intros [= _ <-]. exact (Hm _ _ _ Hmc).
Qed.

Lemma preserves_handler {A} (cls : exc_class) (msg : Py.pystr) :
  (forall c ms, R c (set_messages ms c)) ->
  preserves (@_exception_handler _ A cls msg).
Proof. intros Hf c r c' [= _ <-]. apply Hf. Qed.

Lemma preserves_on_connection {A} (ev : event)
    (f : conn -> outcome A * conn) :
  (forall c k t, R c (set_trace t (set_connection k c))) ->
  preserves (on_connection ev f).
Proof.
  intros Hf c r c'. unfold on_connection.
  destruct (connection c) as [k|]; [|intros [= _ <-]; apply R_refl].
  destruct (f k) as [o k']. intros [= _ <-]. apply Hf.
Qed.

Lemma preserves_on_policy {A} (ev : event) (f : policy -> A * policy) :
  (forall c p t, R c (set_trace t (set_policy p c))) ->
  preserves (on_policy ev f).
Proof.
  intros Hf c r c'. unfold on_policy.
  destruct (f (_policy c)) as [a p']. intros [= _ <-]. apply Hf.
Qed.
End Preserve.

(** One step of a frame proof: split the computation at its outermost
    construct; a state change is checked by computing the relation. *)
Ltac frame_step :=
  first
    [ apply preserves_ret; assumption
    | apply preserves_raise; assumption
    | apply preserves_get; assumption
    | apply preserves_or_raise; assumption
    | apply preserves_lift; assumption
    | apply preserves_handler; intros; hnf; cbn; solve [auto 12]
    | apply preserves_modify; intros; hnf; cbn;
      repeat match goal with |- context [if ?b then _ else _] => destruct b end;
      cbn; solve [auto 12]
    | apply preserves_bind; [assumption | | intros; cbv beta]
    | match goal with
      | |- preserves _ (if ?b then _ else _) => destruct b
      | |- preserves _ (match ?x with _ => _ end) => destruct x
      | |- preserves _ (let '(_, _) := ?x in _) => destruct x
      end ].

Ltac frame := repeat frame_step.

Lemma parse_frame_refl (c : Cursor) : parse_frame c c.
Proof. unfold parse_frame. auto 10. Qed.

Lemma parse_frame_trans (c1 c2 c3 : Cursor) :
  parse_frame c1 c2 -> parse_frame c2 c3 -> parse_frame c1 c3.
Proof.
  unfold parse_frame.
  intros (H1 & H2 & H3 & H4 & H5 & H6) (G1 & G2 & G3 & G4 & G5 & G6).
  repeat split; try congruence. destruct G6; [destruct H6|]; [left | right ..];
    congruence.
Qed.

Create HintDb frame.
#[local] Hint Resolve parse_frame_refl parse_frame_trans : frame.

Ltac parse_frame :=
  pose proof parse_frame_refl; pose proof parse_frame_trans;
  repeat first [ frame_step | solve [auto with frame] ].

Lemma convert_all_frame (cells : list (Py.pystr * Description)) :
  preserves parse_frame (convert_all cells).
Proof.
  induction cells as [|[element d] cells IH]; cbn [convert_all]; parse_frame.
Qed.
#[local] Hint Resolve convert_all_frame : frame.

Lemma parse_tuple_frame (line : Py.pystr) :
  preserves parse_frame (_parse_tuple line).
Proof. unfold _parse_tuple. parse_frame. Qed.

Lemma append_row_frame (L : locals) (r : row) :
  preserves parse_frame (append_row L r).
Proof. unfold append_row. parse_frame. Qed.

Lemma mutate_description_frame (L : locals) (d : list Description) :
  preserves parse_frame (mutate_description L d).
Proof. unfold mutate_description. parse_frame. Qed.
#[local] Hint Resolve parse_tuple_frame append_row_frame
  mutate_description_frame : frame.

Lemma header_field_frame (identity : Py.pystr) (values : list Py.pystr)
    (L : locals) :
  preserves parse_frame (header_field identity values L).
Proof. unfold header_field. parse_frame. Qed.

Lemma rebuild_description_frame (L : locals) :
  preserves parse_frame (rebuild_description L).
Proof. unfold rebuild_description. parse_frame. Qed.
#[local] Hint Resolve header_field_frame rebuild_description_frame : frame.

Lemma header_line_frame (line : Py.pystr) (L : locals) :
  preserves parse_frame (header_line line L).
Proof. unfold header_line, header_body. parse_frame. Qed.

Lemma qtable_line_frame (ue : bool) (line : Py.pystr) :
  preserves parse_frame (qtable_line ue line).
Proof. unfold qtable_line. parse_frame. Qed.

Lemma qupdate_line_frame (line : Py.pystr) (L : locals) :
  preserves parse_frame (qupdate_line line L).
Proof. unfold qupdate_line. parse_frame. Qed.
#[local] Hint Resolve header_line_frame qtable_line_frame
  qupdate_line_frame : frame.

Lemma store_line_frame (ue : bool) (line : Py.pystr) (L : locals) :
  preserves parse_frame (store_line ue line L).
Proof. unfold store_line, clear_result. parse_frame. Qed.
#[local] Hint Resolve store_line_frame : frame.

Lemma store_lines_frame (ue : bool) (lines : list Py.pystr) (L : locals) :
  preserves parse_frame (store_lines ue lines L).
Proof.
  revert L. induction lines as [|line lines IH]; intros L;
    cbn [store_lines]; parse_frame.
Qed.
#[local] Hint Resolve store_lines_frame : frame.

Lemma store_result_frame (block : Py.pystr) (ue : bool) :
  preserves parse_frame (_store_result block ue).
Proof. unfold _store_result. parse_frame. Qed.

Lemma decode_columns_frame (block : Py.bytes) (toc_pos : Z) (i : nat)
    (decoders : list decoder) :
  preserves parse_frame (decode_columns block toc_pos i decoders).
Proof.
  revert i. induction decoders as [|dec decoders IH]; intros i;
    cbn [decode_columns]; parse_frame.
Qed.
#[local] Hint Resolve decode_columns_frame : frame.

Lemma store_binary_result_frame (block : Py.bytes) :
  preserves parse_frame (_store_binary_result block).
Proof. unfold _store_binary_result. parse_frame. Qed.

Lemma check_bindecode_possible_frame :
  preserves parse_frame _check_bindecode_possible.
Proof. unfold _check_bindecode_possible. parse_frame. Qed.

(** ** The refill *)

(** A refill keeps [rownumber], leaves [_offset] at [rownumber] or at 0,
    and, when it returns, has asked the policy once (for the given target)
    and the transport once. *)
Lemma populate_cache_effect (already_used requested_end : Z) (c c1 : Cursor)
    (r : outcome unit) :
  _populate_cache already_used requested_end c = (r, c1) ->
  rownumber c1 = rownumber c
  /\ _executed c1 = _executed c
  /\ (_offset c1 = rownumber c \/ _offset c1 = 0)
  /\ (r = Ok tt ->
      exists ev,
        is_export ev = true
        /\ trace c1 = trace c
             ++ [EvBatchSize already_used (rownumber c) requested_end (rowcount c);
                 ev]).
Proof.
  unfold _populate_cache. unfold bind at 1, modify at 1.
  unfold bind at 1, modify at 1. unfold bind at 1, get at 1.
  set (ca := set_offset _ (set_rows [] c)).
  unfold bind at 1, on_policy.
  destruct (policy_batch_size _ _ _ _ _) as [n p'].
  set (cb := set_trace _ (set_policy p' ca)).
  unfold bind at 1.
  destruct ((match _can_bindecode ca with
             | Some _ => ret tt
             | None => _check_bindecode_possible
             end) cb) as [[[]|e] cc] eqn:Hcheck.
  2: { intros [= <- <-].
       assert (parse_frame cb cc) as (H1 & _ & _ & _ & H5 & H6).
       { destruct (_can_bindecode ca).
         - injection Hcheck as _ <-. apply parse_frame_refl.
         - exact (check_bindecode_possible_frame _ _ _ Hcheck). }
       rewrite H1, H5. cbn. repeat split; [tauto | discriminate]. }
  assert (parse_frame cb cc) as (H1 & H2 & _ & _ & H5 & H6).
  { destruct (_can_bindecode ca).
    - injection Hcheck as <-. apply parse_frame_refl.
    - exact (check_bindecode_possible_frame _ _ _ Hcheck). }
  cbn in H1, H2, H5, H6.
  unfold bind at 1, get at 1.
  destruct (_can_bindecode cc) as [[|]|].
  - unfold bind at 1, on_connection.
    destruct (connection cc) as [k|].
    2: { intros [= <- <-]. rewrite H1, H5. repeat split; [tauto | discriminate]. }
    destruct (conn_binary_command _ k) as [[block|e] k'].
    2: { intros [= <- <-]. cbn. rewrite H1, H5.
         repeat split; [tauto | discriminate]. }
    intros Hstore. apply store_binary_result_frame in Hstore
      as (G1 & G2 & _ & _ & G5 & G6).
    cbn -[export_command] in G1, G2, G5, G6.
    split; [congruence|]. split; [congruence|].
    split; [destruct G6 as [G6|G6]; rewrite G6; tauto|].
    intros _. eexists. split; [|rewrite G2, H2, <- app_assoc; reflexivity].
    reflexivity.
  - unfold bind at 1, on_connection.
    destruct (connection cc) as [k|].
    2: { intros [= <- <-]. rewrite H1, H5. repeat split; [tauto | discriminate]. }
    destruct (conn_command _ k) as [[block|e] k'].
    2: { intros [= <- <-]. cbn. rewrite H1, H5.
         repeat split; [tauto | discriminate]. }
    intros Hstore. apply store_result_frame in Hstore
      as (G1 & G2 & _ & _ & G5 & G6).
    cbn -[export_command] in G1, G2, G5, G6.
    split; [congruence|]. split; [congruence|].
    split; [destruct G6 as [G6|G6]; rewrite G6; tauto|].
    intros _. eexists. split; [|rewrite G2, H2, <- app_assoc; reflexivity].
    reflexivity.
  - unfold bind at 1, on_connection.
    destruct (connection cc) as [k|].
    2: { intros [= <- <-]. rewrite H1, H5. repeat split; [tauto | discriminate]. }
    destruct (conn_command _ k) as [[block|e] k'].
    2: { intros [= <- <-]. cbn. rewrite H1, H5.
         repeat split; [tauto | discriminate]. }
    intros Hstore. apply store_result_frame in Hstore
      as (G1 & G2 & _ & _ & G5 & G6).
    cbn -[export_command] in G1, G2, G5, G6.
    split; [congruence|]. split; [congruence|].
    split; [destruct G6 as [G6|G6]; rewrite G6; tauto|].
    intros _. eexists. split; [|rewrite G2, H2, <- app_assoc; reflexivity].
    reflexivity.
Qed.

(** ** [fetchone] *)

Lemma take_row_in_window (c : Cursor) :
  _offset c <= rownumber c < cache_end c ->
  exists r, _rows c !! Z.to_nat (rownumber c - _offset c) = Some r
    /\ take_row c = (Ok (Some r), set_rownumber (rownumber c + 1) c).
Proof.
  intros Hin. unfold cache_end in Hin.
  destruct (lookup_lt_is_Some_2 (_rows c) (Z.to_nat (rownumber c - _offset c)))
    as [r Hr]; [lia|].
  exists r. split; [assumption|].
  unfold take_row, bind at 1, get. unfold bind at 1.
  rewrite index_in_range by lia. rewrite Hr. reflexivity.
Qed.

Lemma take_row_result (c c' : Cursor) (r : row) :
  _offset c <= rownumber c ->
  take_row c = (Ok (Some r), c') ->
  c' = set_rownumber (rownumber c + 1) c
  /\ rownumber c < cache_end c
  /\ _rows c !! Z.to_nat (rownumber c - _offset c) = Some r.
Proof.
  intros Hlow. unfold take_row, bind at 1, get. unfold bind at 1, or_raise.
  destruct (Py.index (_rows c) (rownumber c - _offset c)) as [r'|] eqn:Hidx;
    [|discriminate].
  unfold ret at 1, bind, modify, ret. intros [= <- <-].
  apply index_nonneg in Hidx; [|lia].
  split; [reflexivity|]. split; [|assumption].
  apply lookup_lt_Some in Hidx. unfold cache_end. lia.
Qed.

Lemma fetchone_unfold (c : Cursor) :
  executed c -> _query_id c <> None ->
  fetchone c =
    if rownumber c >=? cache_end c then
      if rownumber c >=? rowcount c then (Ok None, c)
      else bind (_populate_cache 0 (rownumber c + 1)) (fun _ => take_row) c
    else take_row c.
Proof.
  intros He Hq. unfold fetchone, bind at 1. rewrite (check_executed_ok c He).
  unfold bind at 1. rewrite (check_resultset_ok c Hq).
  unfold bind at 1, get.
  destruct (_ >=? _); [|reflexivity]. destruct (_ >=? _); reflexivity.
Qed.

Lemma populate_keeps_position (c c1 : Cursor) (used target : Z)
    (r : outcome unit) :
  0 <= _offset c -> cache_end c <= rownumber c ->
  _populate_cache used target c = (r, c1) ->
  rownumber c1 = rownumber c /\ _offset c1 <= rownumber c.
Proof.
  intros Hoff Hge Hrun.
  destruct (populate_cache_effect _ _ _ _ _ Hrun) as (H1 & _ & H3 & _).
  split; [assumption|]. unfold cache_end in Hge. lia.
Qed.

(** C4, as the code has it.  On an active result set (window inside the
    result set):
    - with [rownumber >= rowcount], [fetchone] returns None and changes
      nothing;
    - with [rownumber] inside the window it returns the row at
      [rownumber - _offset] and advances [rownumber], without a refill;
    - with [rownumber] at or past the end of the window it runs exactly one
      refill, with no row used yet and target [rownumber + 1], then takes
      the row; a refill that returns has asked the policy once and the
      transport once, keeps [rownumber] and leaves [_offset <= rownumber],
      and when it delivered the row, [fetchone] returns it;
    - whenever [rownumber] is not below the window and a row is returned,
      it is the row at the old [rownumber], and
      [_offset <= rownumber - 1 < _offset + len(_rows)] holds afterwards. *)
Theorem fetchone_window_or_single_refill (c : Cursor) :
  result_set_active c ->
  (rowcount c <= rownumber c -> fetchone c = (Ok None, c))
  /\ (_offset c <= rownumber c < cache_end c ->
      exists r, _rows c !! Z.to_nat (rownumber c - _offset c) = Some r
        /\ fetchone c = (Ok (Some r), set_rownumber (rownumber c + 1) c))
  /\ (cache_end c <= rownumber c < rowcount c ->
      fetchone c
      = bind (_populate_cache 0 (rownumber c + 1)) (fun _ => take_row) c
      /\ forall c1,
           _populate_cache 0 (rownumber c + 1) c = (Ok tt, c1) ->
           (exists ev,
              is_export ev = true
              /\ trace c1 = trace c
                   ++ [EvBatchSize 0 (rownumber c) (rownumber c + 1) (rowcount c);
                       ev])
           /\ rownumber c1 = rownumber c
           /\ _offset c1 <= rownumber c
           /\ (rownumber c < cache_end c1 ->
               exists r,
                 _rows c1 !! Z.to_nat (rownumber c - _offset c1) = Some r
                 /\ fetchone c
                    = (Ok (Some r), set_rownumber (rownumber c + 1) c1)))
  /\ (_offset c <= rownumber c ->
      forall r c',
        fetchone c = (Ok (Some r), c') ->
        rownumber c' = rownumber c + 1
        /\ _offset c' <= rownumber c' - 1 < cache_end c'
        /\ _rows c' !! Z.to_nat (rownumber c' - 1 - _offset c') = Some r).
Proof.
  intros (He & Hq & Hoff & Hwin).
  pose proof (fetchone_unfold c He Hq) as Hf.
  split; [|split; [|split]].
  - intros Hend. rewrite Hf.
    destruct (Z.geb_spec (rownumber c) (cache_end c)); [|lia].
    destruct (Z.geb_spec (rownumber c) (rowcount c)); [reflexivity | lia].
  - intros Hin. rewrite Hf.
    destruct (Z.geb_spec (rownumber c) (cache_end c)); [lia|].
    apply take_row_in_window. exact Hin.
  - intros Hpast.
    assert (fetchone c
            = bind (_populate_cache 0 (rownumber c + 1)) (fun _ => take_row) c)
      as Hf'.
    { rewrite Hf.
      destruct (Z.geb_spec (rownumber c) (cache_end c)); [|lia].
      destruct (Z.geb_spec (rownumber c) (rowcount c)); [lia | reflexivity]. }
    split; [exact Hf'|]. intros c1 Hrun.
    destruct (populate_cache_effect _ _ _ _ _ Hrun) as (_ & _ & _ & Htrace).
    destruct (populate_keeps_position c c1 _ _ _ Hoff (proj1 Hpast) Hrun)
      as [Hrn Hlow].
    split; [apply Htrace; reflexivity|]. split; [exact Hrn|].
    split; [exact Hlow|]. intros Hgot.
    destruct (take_row_in_window c1) as (r & Hr & Htake); [lia|].
    exists r. rewrite Hrn in Hr, Htake. split; [exact Hr|].
    rewrite Hf'. unfold bind. rewrite Hrun. exact Htake.
  - intros Hlow r c'. rewrite Hf.
    destruct (Z.geb_spec (rownumber c) (cache_end c)) as [Hge|Hlt].
    + destruct (Z.geb_spec (rownumber c) (rowcount c)); [discriminate|].
      unfold bind.
      destruct (_populate_cache 0 (rownumber c + 1) c) as [[[]|e] c1] eqn:Hrun;
        [|discriminate].
      destruct (populate_keeps_position c c1 _ _ _ Hoff Hge Hrun) as [Hrn Hlow1]. intros Htake.
      apply take_row_result in Htake as (-> & Hlt1 & Hr); [|lia].
      cbn. unfold cache_end in *. cbn. rewrite Hrn in *.
      replace (rownumber c + 1 - 1) with (rownumber c) by lia.
      repeat split; try lia. exact Hr.
    + intros Htake. apply take_row_result in Htake as (-> & Hlt1 & Hr); [|lia].
      cbn. unfold cache_end in *. cbn.
      replace (rownumber c + 1 - 1) with (rownumber c) by lia.
      repeat split; try lia. exact Hr.
Qed.

(** ** [fetchmany] in chunks against [fetchall] *)


Lemma fetchmany_unfold (c : Cursor) (size : Z) :
  executed c -> _query_id c <> None ->
  let requested_end := Z.min (rownumber c + size) (rowcount c) in
  fetchmany (Some size) c =
    if requested_end <=? cache_end c then
      (Ok (Py.slice (_rows c) (rownumber c - _offset c)
             (requested_end - _offset c)),
       set_rownumber requested_end c)
    else
      let result := Py.slice (_rows c) (rownumber c - _offset c)
                      (cache_end c - _offset c) in
      match _populate_cache (Z.of_nat (length result)) requested_end
              (set_rownumber (cache_end c) c) with
      | (Ok _, c') =>
          (Ok (result ++ Py.slice (_rows c') (rownumber c' - _offset c')
                           (requested_end - _offset c')),
           set_rownumber requested_end c')
      | (Raise e, c') => (Raise e, c')
      end.
Proof.
  intros He Hq requested_end. unfold fetchmany, bind at 1.
  rewrite (check_executed_ok c He). unfold bind at 1.
  rewrite (check_resultset_ok c Hq). unfold bind at 1, get at 1.
  fold requested_end. destruct (_ <=? _); [reflexivity|].
  unfold bind at 1, modify at 1. unfold bind at 1.
  destruct (_populate_cache _ _ _) as [[[]|e] c']; reflexivity.
Qed.




(** * Further properties of the cursor *)

(** ** Misuse of the fetch methods and of [scroll] *)

(** X1. Before any [execute] -- [_executed] is [None] or the empty text --
    [fetchone], [fetchmany], [fetchall] and [scroll] all fail in the same
    way: the programming error "do a execute() first" is logged and raised,
    and nothing else of the cursor changes. *)
Theorem fetch_and_scroll_need_execute
    (c : Cursor) (size : option Z) (value : Z) (mode : Py.pystr) :
  truthy (_executed c) = false ->
  let failure (A : Type) : outcome A * Cursor :=
    (Raise (Exn ProgrammingError (Py.lit "do a execute() first")),
     set_messages
       (messages c ++ [(ProgrammingError, Py.lit "do a execute() first")]) c) in
  fetchone c = failure (option row)
  /\ fetchmany size c = failure (list row)
  /\ fetchall c = failure (list row)
  /\ scroll value mode c = failure unit.
Proof.
  intros Hno failure.
  assert (_check_executed c
          = (Raise (Exn ProgrammingError (Py.lit "do a execute() first")),
             set_messages
               (messages c
                ++ [(ProgrammingError, Py.lit "do a execute() first")]) c))
    as Hcheck.
  { unfold _check_executed, bind, get. rewrite Hno. reflexivity. }
  repeat split.
  - unfold fetchone, bind at 1. rewrite Hcheck. reflexivity.
  - unfold fetchmany, bind at 1. rewrite Hcheck. reflexivity.
  - unfold fetchall, bind at 1, get. unfold fetchmany, bind at 1.
    rewrite Hcheck. reflexivity.
  - unfold scroll, bind at 1. rewrite Hcheck. reflexivity.
Qed.

(** X2. After an [execute] that left no result set ([_query_id] is [None],
    as after an update), the three fetch methods fail with the programming
    error "query didn't result in a resultset", logged and raised, and
    nothing else changes. *)
Theorem fetch_needs_result_set (c : Cursor) (size : option Z) :
  executed c -> _query_id c = None ->
  let failure (A : Type) : outcome A * Cursor :=
    (Raise (Exn ProgrammingError (Py.lit "query didn't result in a resultset")),
     set_messages
       (messages c
        ++ [(ProgrammingError, Py.lit "query didn't result in a resultset")])
       c) in
  fetchone c = failure (option row)
  /\ fetchmany size c = failure (list row)
  /\ fetchall c = failure (list row).
Proof.
  intros He Hq failure.
  assert (check_resultset c
          = (Raise (Exn ProgrammingError
                      (Py.lit "query didn't result in a resultset")),
             set_messages
               (messages c
                ++ [(ProgrammingError,
                     Py.lit "query didn't result in a resultset")]) c))
    as Hcheck.
  { unfold check_resultset, bind, get. rewrite Hq. reflexivity. }
  repeat split.
  - unfold fetchone, bind at 1. rewrite (check_executed_ok c He).
    unfold bind at 1. rewrite Hcheck. reflexivity.
  - unfold fetchmany, bind at 1. rewrite (check_executed_ok c He).
    unfold bind at 1. rewrite Hcheck. reflexivity.
  - unfold fetchall, bind at 1, get. unfold fetchmany, bind at 1.
    rewrite (check_executed_ok c He).
    unfold bind at 1. rewrite Hcheck. reflexivity.
Qed.

(** X3. [scroll] with a mode that is neither 'relative' nor 'absolute'
    fails with the programming error "unknown mode '<mode>'", logged and
    raised, whatever the value; the position and the window are not
    touched. *)
Theorem scroll_unknown_mode (c : Cursor) (value : Z) (mode : Py.pystr) :
  executed c -> mode <> relative -> mode <> absolute ->
  let msg := Py.lit "unknown mode '" ++ mode ++ Py.lit "'" in
  scroll value mode c
  = (Raise (Exn ProgrammingError msg),
     set_messages (messages c ++ [(ProgrammingError, msg)]) c).
Proof.
  intros He Hr Ha msg. unfold scroll, bind at 1.
  rewrite (check_executed_ok c He). unfold bind at 1.
  rewrite !decide_False by assumption. reflexivity.
Qed.

(** ** Fetching from the window *)

(** X4. A [fetchmany(size)], [size >= 0], whose requested end
    [min(rownumber + size, rowcount)] is covered by the window, with
    neither [rownumber] nor [rowcount] below the window, is served from the
    window alone: it
    returns the rows from [rownumber] up to the requested end, moves
    [rownumber] there, and calls no collaborator.  At the end of the result
    set ([rownumber = rowcount]) it returns the empty list. *)
Theorem fetchmany_served_from_window (c : Cursor) (size : Z) :
  executed c -> _query_id c <> None ->
  0 <= size -> _offset c <= rownumber c -> _offset c <= rowcount c ->
  let requested_end := Z.min (rownumber c + size) (rowcount c) in
  requested_end <= cache_end c ->
  fetchmany (Some size) c
  = (Ok (take (Z.to_nat (requested_end - rownumber c))
           (drop (Z.to_nat (rownumber c - _offset c)) (_rows c))),
     set_rownumber requested_end c)
  /\ (rowcount c <= rownumber c -> fetchmany (Some size) c
                                   = (Ok [], set_rownumber (rowcount c) c)).
Proof.
  intros He Hq Hsize Hlow Hlow' requested_end Hcov.
  pose proof (fetchmany_unfold c size He Hq) as Hf. cbv zeta in Hf.
  fold requested_end in Hf.
  destruct (Z.leb_spec requested_end (cache_end c)); [|lia].
  destruct (Z.le_gt_cases (rownumber c) requested_end) as [Hle|Hgt].
  - split.
    + rewrite Hf. rewrite slice_nonneg by lia. do 3 f_equal. lia.
    + intros Hend. rewrite Hf.
      assert (requested_end = rowcount c) as -> by lia.
      rewrite slice_empty by lia. reflexivity.
  - split.
    + rewrite Hf. rewrite slice_nonneg by lia.
      replace (Z.to_nat (requested_end - _offset c - (rownumber c - _offset c)))
        with 0%nat by lia.
      replace (Z.to_nat (requested_end - rownumber c)) with 0%nat by lia.
      reflexivity.
    + intros Hend. rewrite Hf.
      assert (requested_end = rowcount c) as -> by lia.
      rewrite slice_nonneg by lia.
      replace (Z.to_nat (rowcount c - _offset c - (rownumber c - _offset c)))
        with 0%nat by lia.
      reflexivity.
Qed.

Lemma set_rownumber_same (c : Cursor) : set_rownumber (rownumber c) c = c.
Proof. destruct c. reflexivity. Qed.

(** X5. [k] calls of [fetchone] that stay inside the window and the result
    set return the same rows, and leave the same cursor, as one
    [fetchmany(k)]: the [k] rows of the window from [rownumber] on. *)
Theorem fetchone_repeated_equals_fetchmany (k : nat) (c : Cursor) :
  executed c -> _query_id c <> None ->
  _offset c <= rownumber c ->
  rownumber c + Z.of_nat k <= cache_end c ->
  rownumber c + Z.of_nat k <= rowcount c ->
  fetchone_times k c = fetchmany (Some (Z.of_nat k)) c
  /\ fetchone_times k c
     = (Ok (take k (drop (Z.to_nat (rownumber c - _offset c)) (_rows c))),
        set_rownumber (rownumber c + Z.of_nat k) c).
Proof.
  intros He Hq Hlow Hcov Hcount.
  assert (fetchone_times k c
          = (Ok (take k (drop (Z.to_nat (rownumber c - _offset c)) (_rows c))),
             set_rownumber (rownumber c + Z.of_nat k) c)) as Hones.
  { clear Hcount. revert c He Hq Hlow Hcov.
    induction k as [|k IH]; intros c He Hq Hlow Hcov.
    - cbn [fetchone_times take]. unfold ret.
      replace (rownumber c + Z.of_nat 0) with (rownumber c) by lia.
      rewrite set_rownumber_same. reflexivity.
    - cbn [fetchone_times]. unfold bind at 1.
      destruct (fetchone_in_window c He Hq) as (r & Hr & Hf); [lia|].
      rewrite Hf. unfold bind.
      rewrite (IH (set_rownumber (rownumber c + 1) c)); try assumption.
      + unfold ret. cbn [rownumber _offset _rows set_rownumber].
        rewrite (drop_S _ _ _ Hr). cbn [take].
        replace (Z.to_nat (rownumber c + 1 - _offset c))
          with (S (Z.to_nat (rownumber c - _offset c))) by lia.
        f_equal. unfold set_rownumber. cbn. f_equal. lia.
      + cbn. lia.
      + unfold cache_end in *. cbn. lia. }
  split; [|exact Hones]. rewrite Hones.
  pose proof (fetchmany_unfold c (Z.of_nat k) He Hq) as Hf. cbv zeta in Hf.
  rewrite Hf, Z.min_l by lia.
  destruct (Z.leb_spec (rownumber c + Z.of_nat k) (cache_end c)); [|lia].
  rewrite slice_nonneg by lia. do 3 f_equal; lia.
Qed.

(** X6. A [scroll] to a target inside the window followed by [fetchone]
    returns the row at the target and leaves [rownumber] just after it,
    with no collaborator call.  A [scroll] to a target outside the window
    and below [rowcount] followed by [fetchone] makes [fetchone] start a
    refill at the target: the window was dropped, not kept. *)
Theorem scroll_then_fetchone (c : Cursor) (value : Z) (mode : Py.pystr) :
  executed c -> _query_id c <> None -> valid_mode mode ->
  let target := scroll_target c value mode in
  (_offset c <= target < cache_end c ->
     exists r,
       _rows c !! Z.to_nat (target - _offset c) = Some r
       /\ bind (scroll value mode) (fun _ => fetchone) c
          = (Ok (Some r), set_rownumber (target + 1) c))
  /\ (~ (_offset c <= target < cache_end c) -> target < rowcount c ->
      bind (scroll value mode) (fun _ => fetchone) c
      = bind (_populate_cache 0 (target + 1)) (fun _ => take_row)
          (set_trace (trace c ++ [EvScroll])
             (set_policy (policy_scroll (_policy c))
                (set_rows [] (set_offset target (set_rownumber target c)))))).
Proof.
  intros He Hq Hm target.
  pose proof (scroll_unfold value mode c He Hm) as Hs. fold target in Hs.
  cbv zeta in Hs. split.
  - intros Hin. unfold bind at 1. rewrite Hs.
    rewrite (proj2 (in_window_spec c target) Hin).
    destruct (fetchone_in_window (set_rownumber target c) He Hq)
      as (r & Hr & Hf); [exact Hin|].
    exists r. split; [exact Hr|]. rewrite Hf. reflexivity.
  - intros Hout Hbelow.
    rewrite (proj2 (in_window_false c target) Hout) in Hs.
    destruct (Z.gtb_spec target (rowcount c)); [lia|].
    set (c2 := set_trace _ _) in *.
    unfold bind at 1. rewrite Hs.
    rewrite (fetchone_unfold c2 He Hq).
    assert (cache_end c2 = target) as -> by (unfold cache_end; cbn; lia).
    change (rownumber c2) with target. change (rowcount c2) with (rowcount c).
    destruct (Z.geb_spec target target); [|lia].
    destruct (Z.geb_spec target (rowcount c)); [lia|]. reflexivity.
Qed.

(** ** [nextset] *)

Lemma nextset_head (c : Cursor) (q : Py.pystr) (n : Z)
    (d : list Description) (r : list row) (rest : list result_set) :
  _next_result_sets c = (q, n, d, r) :: rest ->
  exists c',
    nextset c = (Ok (Some true), c')
    /\ _query_id c' = Some q /\ rowcount c' = n /\ description c' = Some d
    /\ _rows c' = r /\ _next_result_sets c' = rest
    /\ _offset c' = 0 /\ rownumber c' = 0
    /\ _can_bindecode c' = None /\ _bindecoders c' = None
    /\ _policy c' = (policy_new_query (_policy c)).2
    /\ trace c' = trace c ++ [EvNewQuery]
    /\ connection c' = connection c /\ _executed c' = _executed c
    /\ messages c' = messages c.
Proof.
  intros Hq. unfold nextset, bind at 1, get. rewrite Hq.
  unfold bind at 1, modify at 1. unfold bind at 1, modify at 1.
  unfold bind at 1, on_policy.
  cbn [_policy set_next_result_sets set_rows set_description set_rowcount
       set_query_id].
  destruct (policy_new_query (_policy c)) as [size p'].
  eexists. split; [reflexivity|]. cbn. repeat split.
Qed.

(** X7. The queued result sets are activated in arrival order.  If entry
    [k] of the queue is [(q, n, d, r)], then [k + 1] calls of [nextset] all
    return [True] and leave that entry active -- its query id, row count,
    description and rows -- with the earlier entries gone, the position and
    the offset at 0, the binary negotiation forgotten, and one [new_query]
    notification to the policy per call; the connection is not used.  On an
    empty queue [nextset] returns [None] and changes nothing. *)
Theorem nextset_activates_in_order (k : nat) (c : Cursor)
    (q : Py.pystr) (n : Z) (d : list Description) (r : list row) :
  _next_result_sets c !! k = Some (q, n, d, r) ->
  exists c',
    nextset_times (S k) c = (Ok (replicate (S k) (Some true)), c')
    /\ _query_id c' = Some q /\ rowcount c' = n /\ description c' = Some d
    /\ _rows c' = r
    /\ _next_result_sets c' = drop (S k) (_next_result_sets c)
    /\ _offset c' = 0 /\ rownumber c' = 0
    /\ _can_bindecode c' = None /\ _bindecoders c' = None
    /\ _policy c' = new_queries (S k) (_policy c)
    /\ trace c' = trace c ++ replicate (S k) EvNewQuery
    /\ connection c' = connection c
    /\ (_next_result_sets c' = [] -> nextset c' = (Ok None, c')).
Proof.
  revert c. induction k as [|k IH]; intros c Hk.
  - destruct (_next_result_sets c) as [|[[[q0 n0] d0] r0] rest] eqn:Hqueue;
      [discriminate|].
    injection Hk as -> -> -> ->.
    destruct (nextset_head c q n d r rest Hqueue)
      as (c' & Hrun & H1 & H2 & H3 & H4 & H5 & H6 & H7 & H8 & H9 & H10 & H11
          & H12 & _).
    exists c'. cbn [nextset_times]. unfold bind at 1. rewrite Hrun.
    unfold bind, ret. cbn [replicate drop new_queries].
    repeat split; try assumption.
    intros Hempty. unfold nextset, bind, get. rewrite Hempty. reflexivity.
  - destruct (_next_result_sets c) as [|[[[q0 n0] d0] r0] rest] eqn:Hqueue;
      [discriminate|].
    cbn [lookup list_lookup] in Hk.
    destruct (nextset_head c q0 n0 d0 r0 rest Hqueue)
      as (c1 & Hrun & _ & _ & _ & _ & Hrest & _ & _ & _ & _ & Hpol & Htr
          & Hconn & _).
    rewrite <- Hrest in Hk.
    destruct (IH c1 Hk)
      as (c' & Hruns & H1 & H2 & H3 & H4 & H5 & H6 & H7 & H8 & H9 & H10 & H11
          & H12 & H13).
    exists c'. cbn [nextset_times]. unfold bind at 1. rewrite Hrun.
    cbn [nextset_times] in Hruns. unfold bind at 1. rewrite Hruns.
    unfold ret. split; [reflexivity|].
    split; [exact H1|]. split; [exact H2|]. split; [exact H3|].
    split; [exact H4|]. split; [rewrite H5, Hrest; reflexivity|].
    split; [exact H6|]. split; [exact H7|]. split; [exact H8|].
    split; [exact H9|]. split; [rewrite H10, Hpol; reflexivity|].
    split; [rewrite H11, Htr, <- app_assoc; reflexivity|].
    split; [congruence | exact H13].
Qed.

(** ** Closing result sets and the cursor *)

Lemma close_each_trace (rss : list Py.pystr) (c : Cursor) :
  _resultsets_to_close (close_each rss c).2 = _resultsets_to_close c
  /\ match close_each rss c with
     | (Ok _, c') => trace c' = trace c ++ close_events rss
     | (Raise _, c') =>
         exists n, trace c' = trace c ++ take n (close_events rss)
     end.
Proof.
  revert c. induction rss as [|rs rss IH]; intros c.
  - cbn. rewrite app_nil_r. auto.
  - cbn [close_each]. unfold bind, on_connection.
    destruct (connection c) as [k|].
    2: { cbn. split; [reflexivity|]. exists 0%nat. rewrite app_nil_r.
         reflexivity. }
    destruct (conn_command _ k) as [[reply|e] k'].
    + set (c1 := set_trace _ _). destruct (IH c1) as [Hlist Htrace].
      split; [exact Hlist|].
      destruct (close_each rss c1) as [[[]|e] c'].
      * rewrite Htrace. unfold c1. cbn. rewrite <- app_assoc. reflexivity.
      * destruct Htrace as [n Hn]. exists (S n). rewrite Hn. unfold c1. cbn.
        rewrite <- app_assoc. reflexivity.
    + cbn. split; [reflexivity|]. exists 1%nat. reflexivity.
Qed.

(** X8. [_close_earlier_resultsets] sends one "Xclose <id>" per recorded
    id, in order.  When every command is answered the list is emptied; when
    one fails (or the cursor has no connection) the exception propagates,
    only the commands up to the failing one were sent, and the list is left
    whole, so that every id is tried again at the next flush. *)
Theorem close_earlier_resultsets_sends_each_id (c : Cursor) :
  match _close_earlier_resultsets c with
  | (Ok _, c') =>
      _resultsets_to_close c' = []
      /\ trace c' = trace c ++ close_events (_resultsets_to_close c)
  | (Raise _, c') =>
      _resultsets_to_close c' = _resultsets_to_close c
      /\ exists n,
           trace c' = trace c ++ take n (close_events (_resultsets_to_close c))
  end.
Proof.
  unfold _close_earlier_resultsets, bind, get.
  destruct (close_each_trace (_resultsets_to_close c) c) as [Hlist Htrace].
  destruct (close_each (_resultsets_to_close c) c) as [[[]|e] c'].
  - unfold modify. cbn. auto.
  - cbn in Hlist. auto.
Qed.

Lemma close_earlier_resultsets_keeps_list_on_raise (c : Cursor) :
  match _close_earlier_resultsets c with
  | (Ok _, _) => True
  | (Raise _, c') => _resultsets_to_close c' = _resultsets_to_close c
  end.
Proof.
  unfold _close_earlier_resultsets, bind, get.
  destruct (close_each_trace (_resultsets_to_close c) c) as [Hlist _].
  destruct (close_each (_resultsets_to_close c) c) as [[[]|e] c'].
  - exact I.
  - exact Hlist.
Qed.

(** X9. [close] never raises an [Error]: it either returns, and then the
    connection is [None] and the rows, the position and the messages are
    as before, or it lets through an exception that is not an [Error], and
    then the ids still to be closed are all kept.  With nothing to close it
    always returns, also on a cursor that is already closed.  [__exit__]
    therefore swallows nothing: it returns [False] when [close] returns and
    raises what [close] raises. *)
Theorem close_returns_or_raises_non_Error (c : Cursor) :
  match close c with
  | (Ok _, c') =>
      connection c' = None /\ same_result c c'
      /\ exit_ c = (Ok false, c')
  | (Raise e, c') =>
      is_Error (exn_class e) = false
      /\ _resultsets_to_close c' = _resultsets_to_close c
      /\ exit_ c = (Raise e, c')
  end
  /\ (_resultsets_to_close c = [] ->
      close c = (Ok tt, set_connection None (set_resultsets_to_close [] c))).
Proof.
  split.
  - pose proof (close_same_result c) as Hsame.
    pose proof (close_earlier_resultsets_keeps_list_on_raise c) as Hflush.
    unfold exit_. unfold close in *.
    destruct (_close_earlier_resultsets c) as [[[]|e] c1].
    + split; [reflexivity|]. split; [exact (Hsame _ _ eq_refl)|]. reflexivity.
    + destruct (is_Error (exn_class e)) eqn:Herr.
      * split; [reflexivity|]. split; [exact (Hsame _ _ eq_refl)|].
        reflexivity.
      * rewrite Herr. split; [reflexivity|]. split; [exact Hflush|].
        reflexivity.
  - intros Hempty. unfold close, _close_earlier_resultsets, bind, get.
    rewrite Hempty. reflexivity.
Qed.

(** ** [_parse_tuple] *)

Lemma split_aux_nonempty {A} `{EqDecision A} (sep : list A) (s : list A) :
  forall skip cur, Py.split_aux sep skip cur s <> [].
Proof.
  induction s as [|x s IH]; intros skip cur; cbn [Py.split_aux];
    [discriminate|].
  destruct skip; [|apply IH].
  destruct (Py.startswith (x :: s) sep); [discriminate | apply IH].
Qed.

Lemma convert_all_cells (cells : list (Py.pystr * Description)) (c c' : Cursor)
    (r : row) :
  convert_all cells c = (Ok r, c') ->
  c' = c
  /\ Forall2 (fun cell '(element, d) =>
                exists v, cell = CVal v
                          /\ pythonize_convert (Py.strip element) (type_code d)
                             = Ok v) r cells.
Proof.
  revert r c'. induction cells as [|[element d] cells IH]; intros r c'.
  - cbn. unfold ret. intros [= <- <-]. split; [reflexivity | constructor].
  - cbn [convert_all]. unfold bind at 1, lift.
    destruct (pythonize_convert _ _) as [v|e] eqn:Hv; [|discriminate].
    unfold ret at 1. unfold bind at 1.
    destruct (convert_all cells c) as [[vs|e] c1] eqn:Hrest; [|discriminate].
    destruct (IH vs c1 eq_refl) as [-> Hvs].
    unfold ret. intros [= <- <-]. split; [reflexivity|].
    constructor; [eauto | exact Hvs].
Qed.

(** X10. [_parse_tuple] on a cursor with a description of [n] columns: a
    line whose number of cells differs from [n] fails with the interface
    error "length of row doesn't match header", logged and raised; a row
    that is returned has exactly [n] cells, at least one, each the
    conversion of the stripped text of its cell under the type of its
    column, and the cursor is unchanged. *)
Theorem parse_tuple_row_has_description_arity
    (c : Cursor) (line : Py.pystr) (d : list Description) :
  description c = Some d ->
  let msg := Py.lit "length of row doesn't match header" in
  (length (tuple_elements line) <> length d ->
     _parse_tuple line c
     = (Raise (Exn InterfaceError msg),
        set_messages (messages c ++ [(InterfaceError, msg)]) c))
  /\ (forall r c',
        _parse_tuple line c = (Ok r, c') ->
        c' = c /\ length r = length d /\ r <> []
        /\ Forall2 (fun cell '(element, dsc) =>
                      exists v, cell = CVal v
                                /\ pythonize_convert (Py.strip element)
                                     (type_code dsc) = Ok v)
             r (zip (tuple_elements line) d)).
Proof.
  intros Hd msg.
  assert (_parse_tuple line c
          = if decide (length (tuple_elements line) = length d)
            then convert_all (zip (tuple_elements line) d) c
            else _exception_handler InterfaceError msg c) as Hrun.
  { unfold _parse_tuple, bind, get. rewrite Hd. unfold or_raise, ret.
    change (Py.split _ (Py.slice line 1 (-1))) with (tuple_elements line).
    destruct (decide _); reflexivity. }
  rewrite Hrun. split.
  - intros Hne. rewrite decide_False by assumption. reflexivity.
  - intros r c'.
    destruct (decide (length (tuple_elements line) = length d)) as [Heq|Hne];
      [|discriminate].
    intros Hconv. apply convert_all_cells in Hconv as [-> Hcells].
    pose proof (Forall2_length _ _ _ Hcells) as Hlen.
    rewrite length_zip, Heq, Nat.min_id in Hlen.
    split; [reflexivity|]. split; [exact Hlen|]. split; [|exact Hcells].
    intros ->. cbn in Hlen.
    pose proof (split_aux_nonempty [44; 9] (Py.slice line 1 (-1)) 0 []) as Hs.
    unfold tuple_elements, Py.split in Heq.
    destruct (Py.split_aux _ _ _ _); [congruence | cbn in Heq; lia].
Qed.

(** A bind whose continuation keeps the relation for the values that the
    first part can return. *)
Lemma preserves_bind_returns {A B} (R : Cursor -> Cursor -> Prop)
    (P : A -> Prop) (m : Mc A) (k : A -> Mc B) :
  (forall c1 c2 c3, R c1 c2 -> R c2 c3 -> R c1 c3) ->
  preserves R m -> returns P m -> (forall a, P a -> preserves R (k a)) ->
  preserves R (bind m k).
Proof.
  intros Htrans Hm Hp Hk c r c'. unfold bind.
  destruct (m c) as [[a|e] c1] eqn:Hmc.
  - intros Hka.
    exact (Htrans _ _ _ (Hm _ _ _ Hmc) (Hk a (Hp _ _ _ Hmc) _ _ _ Hka)).
  - intros [= _ <-]. exact (Hm _ _ _ Hmc).
Qed.

(** ** Rows are never empty *)

Lemma alter_last_Forall {A} (P : A -> Prop) (f : A -> A) (l : list A) :
  (forall x, P x -> P (f x)) -> Forall P l -> Forall P (alter_last f l).
Proof.
  intros Hf. induction 1 as [|x l Hx Hl IH]; [constructor|].
  cbn [alter_last]. destruct l as [|y l].
  - constructor; [apply Hf; exact Hx | constructor].
  - constructor; [exact Hx | exact IH].
Qed.

Lemma keeps_rows_nonempty_refl (c : Cursor) : keeps_rows_nonempty c c.
Proof. intros H. exact H. Qed.

Lemma keeps_rows_nonempty_trans (c1 c2 c3 : Cursor) :
  keeps_rows_nonempty c1 c2 -> keeps_rows_nonempty c2 c3 ->
  keeps_rows_nonempty c1 c3.
Proof. unfold keeps_rows_nonempty. auto. Qed.

(** A state change that leaves the rows alone, empties the window or
    queues a result set without rows. *)
Ltac rows_modify :=
  apply preserves_modify; intros ? [? ?]; split; cbn;
  repeat match goal with |- context [if ?b then _ else _] => destruct b end;
  cbn;
  first [ assumption | constructor
        | apply Forall_app; split; [assumption | repeat constructor] ].

Ltac rows_frame :=
  pose proof keeps_rows_nonempty_refl; pose proof keeps_rows_nonempty_trans;
  repeat first [ solve [auto with frame] | frame_step | rows_modify ].

Lemma parse_tuple_nonempty (line : Py.pystr) :
  returns (fun r : row => r <> []) (_parse_tuple line).
Proof.
  intros c r c'. unfold _parse_tuple.
  change (Py.split _ (Py.slice line 1 (-1))) with (tuple_elements line).
  assert (tuple_elements line <> []) as Hs
    by apply (split_aux_nonempty [44; 9] (Py.slice line 1 (-1)) 0 []).
  cbv zeta. unfold bind, get, or_raise.
  destruct (description c) as [d|]; [|intros Hx; discriminate Hx].
  unfold ret. destruct (decide _) as [Heq|Hne]; [|intros Hx; discriminate Hx].
  intros Hconv. apply convert_all_cells in Hconv as [_ Hcells].
  pose proof (Forall2_length _ _ _ Hcells) as Hlen.
  rewrite length_zip, <- Heq, Nat.min_id in Hlen.
  intros ->. destruct (tuple_elements line); [congruence | discriminate Hlen].
Qed.

Lemma convert_all_rows (cells : list (Py.pystr * Description)) :
  preserves keeps_rows_nonempty (convert_all cells).
Proof. induction cells as [|[element d] cells IH]; cbn; rows_frame. Qed.
#[local] Hint Resolve convert_all_rows : frame.

Lemma parse_tuple_rows (line : Py.pystr) :
  preserves keeps_rows_nonempty (_parse_tuple line).
Proof. unfold _parse_tuple. rows_frame. Qed.

Lemma append_row_rows (L : locals) (r : row) :
  r <> [] -> preserves keeps_rows_nonempty (append_row L r).
Proof.
  intros Hr. unfold append_row. apply preserves_modify. intros c [Hw Hq].
  assert (Forall (fun r : row => r <> []) (_rows c ++ [r])) as Hw'.
  { apply Forall_app. split; [exact Hw | repeat constructor; exact Hr]. }
  destruct (rows_shared L); split; cbn; try assumption.
  apply alter_last_Forall; [|exact Hq].
  intros [[[q n] d] rs] _. exact Hw'.
Qed.

Lemma mutate_description_rows (L : locals) (d : list Description) :
  preserves keeps_rows_nonempty (mutate_description L d).
Proof.
  unfold mutate_description. apply preserves_modify. intros c [Hw Hq].
  destruct (description_shared L); split; cbn; try assumption.
  apply alter_last_Forall; [|exact Hq].
  intros [[[q n] d0] rs] Hrs. exact Hrs.
Qed.
#[local] Hint Resolve parse_tuple_rows mutate_description_rows : frame.

Lemma header_line_rows (line : Py.pystr) (L : locals) :
  preserves keeps_rows_nonempty (header_line line L).
Proof.
  unfold header_line, header_body, header_field, rebuild_description.
  rows_frame.
Qed.

Lemma qtable_line_rows (update_existing : bool) (line : Py.pystr) :
  preserves keeps_rows_nonempty (qtable_line update_existing line).
Proof. unfold qtable_line. rows_frame. Qed.

Lemma qupdate_line_rows (line : Py.pystr) (L : locals) :
  preserves keeps_rows_nonempty (qupdate_line line L).
Proof. unfold qupdate_line. rows_frame. Qed.
#[local] Hint Resolve header_line_rows qtable_line_rows qupdate_line_rows
  : frame.

Lemma store_line_rows (update_existing : bool) (line : Py.pystr) (L : locals) :
  preserves keeps_rows_nonempty (store_line update_existing line L).
Proof.
  unfold store_line, clear_result.
  pose proof keeps_rows_nonempty_refl; pose proof keeps_rows_nonempty_trans.
  repeat match goal with
         | |- preserves _ (if ?b then _ else _) => destruct b
         end;
    try (apply (preserves_bind_returns keeps_rows_nonempty
                  (fun r : row => r <> []));
         [ assumption | apply parse_tuple_rows | apply parse_tuple_nonempty
         | intros r Hr ]);
    repeat first [ solve [auto with frame]
                 | apply append_row_rows; first [assumption | discriminate]
                 | frame_step | rows_modify ].
Qed.
#[local] Hint Resolve store_line_rows : frame.

Lemma store_lines_rows (update_existing : bool) (lines : list Py.pystr) :
  forall L, preserves keeps_rows_nonempty (store_lines update_existing lines L).
Proof.
  induction lines as [|line lines IH]; intros L; cbn [store_lines]; rows_frame.
Qed.
#[local] Hint Resolve store_lines_rows : frame.

Lemma store_result_rows (block : Py.pystr) (update_existing : bool) :
  preserves keeps_rows_nonempty (_store_result block update_existing).
Proof. unfold _store_result. rows_frame. Qed.


Lemma zip_star_rows_nonempty {A} (cols : list (list A)) :
  Forall (fun r : list A => r <> []) (zip_star cols).
Proof.
  apply Forall_lookup_2. intros i r Hr.
  destruct cols as [|col cols]; [discriminate Hr|].
  apply zip_star_row in Hr. inversion Hr. discriminate.
Qed.

Lemma on_connection_rows {A} (ev : event) (f : conn -> outcome A * conn) :
  preserves keeps_rows_nonempty (on_connection ev f).
Proof.
  apply preserves_on_connection; [apply keeps_rows_nonempty_refl|].
  intros c k t H. exact H.
Qed.

Lemma on_policy_rows {A} (ev : event) (f : policy -> A * policy) :
  preserves keeps_rows_nonempty (on_policy ev f).
Proof. apply preserves_on_policy. intros c p t H. exact H. Qed.
#[local] Hint Resolve on_connection_rows on_policy_rows : frame.

Lemma decode_columns_rows (block : Py.bytes) (toc_pos : Z) (i : nat)
    (decoders : list decoder) :
  preserves keeps_rows_nonempty (decode_columns block toc_pos i decoders).
Proof.
  intros c r c' Hrun. apply decode_columns_state in Hrun as ->.
  apply keeps_rows_nonempty_refl.
Qed.
#[local] Hint Resolve decode_columns_rows : frame.

Lemma store_binary_result_rows (block : Py.bytes) :
  preserves keeps_rows_nonempty (_store_binary_result block).
Proof.
  unfold _store_binary_result.
  pose proof keeps_rows_nonempty_refl; pose proof keeps_rows_nonempty_trans.
  repeat first
    [ solve [auto with frame] | frame_step | rows_modify
    | apply preserves_modify; intros ? [? ?]; split; cbn; [|assumption];
      apply Forall_fmap, (Forall_impl _ _ _ (zip_star_rows_nonempty _));
      intros [|x r] Hr; [congruence | discriminate] ].
Qed.

Lemma check_bindecode_possible_rows :
  preserves keeps_rows_nonempty _check_bindecode_possible.
Proof. unfold _check_bindecode_possible. rows_frame. Qed.
#[local] Hint Resolve store_result_rows store_binary_result_rows
  check_bindecode_possible_rows : frame.

Lemma populate_cache_rows (already_used requested_end : Z) :
  preserves keeps_rows_nonempty (_populate_cache already_used requested_end).
Proof. unfold _populate_cache. rows_frame. Qed.
#[local] Hint Resolve populate_cache_rows : frame.

Lemma fetchone_rows : preserves keeps_rows_nonempty fetchone.
Proof.
  unfold fetchone, _check_executed, check_resultset, take_row. rows_frame.
Qed.

Lemma fetchmany_rows (size : option Z) :
  preserves keeps_rows_nonempty (fetchmany size).
Proof. unfold fetchmany, _check_executed, check_resultset. rows_frame. Qed.

Lemma nextset_rows : preserves keeps_rows_nonempty nextset.
Proof.
  intros c r c'. unfold nextset, bind, get.
  destruct (_next_result_sets c) as [|[[[q n] d] rs] rest] eqn:Hq.
  - intros [= _ <-]. apply keeps_rows_nonempty_refl.
  - unfold modify at 1 2. unfold on_policy.
    destruct (policy_new_query _) as [a p']. cbn. intros [= _ <-].
    intros [_ Hqueue]. rewrite Hq in Hqueue. inversion Hqueue; subst.
    split; cbn; assumption.
Qed.

Lemma scroll_rows (value : Z) (mode : Py.pystr) :
  preserves keeps_rows_nonempty (scroll value mode).
Proof. unfold scroll, _check_executed. rows_frame. Qed.

Lemma close_each_rows (rss : list Py.pystr) :
  preserves keeps_rows_nonempty (close_each rss).
Proof. induction rss as [|rs rss IH]; cbn [close_each]; rows_frame. Qed.
#[local] Hint Resolve close_each_rows nextset_rows : frame.

Lemma close_earlier_resultsets_rows :
  preserves keeps_rows_nonempty _close_earlier_resultsets.
Proof. unfold _close_earlier_resultsets. rows_frame. Qed.
#[local] Hint Resolve close_earlier_resultsets_rows : frame.

Lemma close_rows : preserves keeps_rows_nonempty close.
Proof.
  intros c r c'. unfold close.
  destruct (_close_earlier_resultsets c) as [[[]|e] c1] eqn:Hrun;
    [|destruct (is_Error _)];
    intros [= _ <-]; intros Hc;
    pose proof (close_earlier_resultsets_rows _ _ _ Hrun Hc) as [? ?];
    split; cbn; assumption.
Qed.

Lemma execute_rows (operation : Py.pystr) (params : option parameters) :
  preserves keeps_rows_nonempty (execute operation params).
Proof. unfold execute. rows_frame. Qed.

(** The row that [fetchone] returns is a row of the window it leaves. *)
Lemma fetchone_row_in_window (c c' : Cursor) (r : row) :
  fetchone c = (Ok (Some r), c') -> r ∈ _rows c'.
Proof.
  assert (forall c0 c1, take_row c0 = (Ok (Some r), c1) -> r ∈ _rows c1)
    as Htake.
  { intros c0 c1. unfold take_row, bind, get, or_raise.
    destruct (Py.index _ _) as [x|] eqn:Hx; [|intros Hy; discriminate Hy].
    unfold modify, ret. intros [= <- <-]. cbn.
    unfold Py.index in Hx.
    destruct (_ && _); [|discriminate Hx].
    exact (list_elem_of_lookup_2 _ _ _ Hx). }
  unfold fetchone. unfold bind at 1.
  destruct (_check_executed c) as [[[]|e] c1]; [|intros Hx; discriminate Hx].
  unfold bind at 1.
  destruct (check_resultset c1) as [[[]|e] c2]; [|intros Hx; discriminate Hx].
  unfold bind at 1, get at 1.
  destruct (rownumber c2 >=? cache_end c2).
  - destruct (rownumber c2 >=? rowcount c2); [intros Hx; discriminate Hx|].
    unfold bind.
    destruct (_populate_cache _ _ c2) as [[[]|e] c3];
      [|intros Hx; discriminate Hx].
    apply Htake.
  - apply Htake.
Qed.

(** X12. No row is ever empty, so an iteration ends only where the rows
    end.  The parsers of both protocols build rows of at least one cell;
    hence [execute], [nextset], the fetch methods, [scroll] and [close]
    keep the property that every row of the window and of the queued
    result sets is non-empty, and on such a cursor [next] yields exactly
    the row that [fetchone] returns and raises StopIteration exactly when
    [fetchone] returns [None], with the same final state. *)
Theorem next_stops_only_at_end_of_rows (c : Cursor) :
  rows_nonempty c ->
  (forall operation params size value mode,
      rows_nonempty (execute operation params c).2
      /\ rows_nonempty (nextset c).2
      /\ rows_nonempty (fetchone c).2
      /\ rows_nonempty (fetchmany size c).2
      /\ rows_nonempty (scroll value mode c).2
      /\ rows_nonempty (close c).2)
  /\ next c = match fetchone c with
              | (Ok (Some r), c') => (Ok (Yield r), c')
              | (Ok None, c') => (Ok StopIteration, c')
              | (Raise e, c') => (Raise e, c')
              end.
Proof.
  intros Hc. split.
  - intros operation params size value mode. repeat split.
    + destruct (execute operation params c) as [r c'] eqn:Hrun.
      exact (proj1 (execute_rows _ _ _ _ _ Hrun Hc)).
    + destruct (execute operation params c) as [r c'] eqn:Hrun.
      exact (proj2 (execute_rows _ _ _ _ _ Hrun Hc)).
    + destruct (nextset c) as [r c'] eqn:Hrun.
      exact (proj1 (nextset_rows _ _ _ Hrun Hc)).
    + destruct (nextset c) as [r c'] eqn:Hrun.
      exact (proj2 (nextset_rows _ _ _ Hrun Hc)).
    + destruct (fetchone c) as [r c'] eqn:Hrun.
      exact (proj1 (fetchone_rows _ _ _ Hrun Hc)).
    + destruct (fetchone c) as [r c'] eqn:Hrun.
      exact (proj2 (fetchone_rows _ _ _ Hrun Hc)).
    + destruct (fetchmany size c) as [r c'] eqn:Hrun.
      exact (proj1 (fetchmany_rows _ _ _ _ Hrun Hc)).
    + destruct (fetchmany size c) as [r c'] eqn:Hrun.
      exact (proj2 (fetchmany_rows _ _ _ _ Hrun Hc)).
    + destruct (scroll value mode c) as [r c'] eqn:Hrun.
      exact (proj1 (scroll_rows _ _ _ _ _ Hrun Hc)).
    + destruct (scroll value mode c) as [r c'] eqn:Hrun.
      exact (proj2 (scroll_rows _ _ _ _ _ Hrun Hc)).
    + destruct (close c) as [r c'] eqn:Hrun.
      exact (proj1 (close_rows _ _ _ Hrun Hc)).
    + destruct (close c) as [r c'] eqn:Hrun.
      exact (proj2 (close_rows _ _ _ Hrun Hc)).
  - unfold next, bind.
    destruct (fetchone c) as [[[r|]|e] c'] eqn:Hrun; try reflexivity.
    pose proof (fetchone_rows _ _ _ Hrun Hc) as [Hw _].
    pose proof (fetchone_row_in_window _ _ _ Hrun) as Hin.
    rewrite Forall_forall in Hw. specialize (Hw r Hin).
    destruct r; [congruence | reflexivity].
Qed.


(** ** The table of contents of a binary block *)

Lemma decode_columns_spec (block : Py.bytes) (toc_pos : Z)
    (decoders : list decoder) (k : conn) (c : Cursor) :
  connection c = Some k ->
  forall (i : nat) (cols : list (list value)),
    decode_columns block toc_pos i decoders c = (Ok cols, c)
    <-> (length cols = length decoders
         /\ forall j dec col,
              decoders !! j = Some dec -> cols !! j = Some col ->
              column_decoded (_unpack_int64 c) k block toc_pos (i + j) dec col).
Proof.
  intros Hk. induction decoders as [|dec decoders IH]; intros i cols.
  - cbn. unfold ret. split.
    + intros [= <-]. split; [reflexivity|]. intros j dec col Hx. discriminate Hx.
    + intros [Hlen _]. destruct cols; [reflexivity | discriminate Hlen].
  - cbn [decode_columns]. unfold bind at 1, get. split.
    + unfold bind at 1, or_raise.
      destruct (Py.unpack_int64 _ block (toc_pos + 16 * Z.of_nat i))
        as [start|] eqn:Hstart; [|intros Hx; discriminate Hx].
      unfold ret at 1. unfold bind at 1.
      destruct (Py.unpack_int64 _ block (toc_pos + 16 * Z.of_nat i + 8))
        as [len|] eqn:Hlength; [|intros Hx; discriminate Hx].
      unfold ret at 1. unfold bind at 1. rewrite Hk. unfold ret at 1.
      unfold bind at 1, lift.
      destruct (decoder_decode dec _ _) as [col|e] eqn:Hcol;
        [|intros Hx; discriminate Hx].
      unfold ret at 1. unfold bind.
      destruct (decode_columns block toc_pos (S i) decoders c)
        as [[cols'|e] c1] eqn:Hrest; [|intros Hx; discriminate Hx].
      pose proof (decode_columns_state _ _ _ _ _ _ _ Hrest) as ->.
      unfold ret. intros [= <-]. apply IH in Hrest as [Hlen Hcols].
      split; [cbn; congruence|].
      intros [|j] dec' col'; cbn.
      * intros [= <-] [= <-]. rewrite Nat.add_0_r.
        exists start, len. auto.
      * intros Hd Hc. replace (i + S j)%nat with (S i + j)%nat by lia.
        apply Hcols; assumption.
    + intros [Hlen Hcols]. destruct cols as [|col cols]; [discriminate Hlen|].
      destruct (Hcols 0%nat dec col eq_refl eq_refl)
        as (start & len & Hstart & Hlength & Hcol).
      rewrite Nat.add_0_r in Hstart, Hlength.
      unfold bind at 1, or_raise. rewrite Hstart. unfold ret at 1.
      unfold bind at 1. rewrite Hlength. unfold ret at 1.
      unfold bind at 1. rewrite Hk. unfold ret at 1.
      unfold bind at 1, lift. rewrite Hcol. unfold ret at 1. unfold bind.
      assert (decode_columns block toc_pos (S i) decoders c = (Ok cols, c))
        as ->; [|reflexivity].
      apply IH. split; [cbn in Hlen; congruence|].
      intros j dec' col' Hd Hc.
      replace (S i + j)%nat with (i + S j)%nat by lia.
      apply Hcols; assumption.
Qed.

(** X13. The column loop of [_store_binary_result] on an open cursor: it
    returns the columns [cols] exactly when there is one per decoder and,
    for each [j], the two 8-byte integers at [toc_pos + 16 * j] and 8 bytes
    further, read in the cursor's byte order, are a start and a length such
    that decoder [j], given the server's byte order, decodes the slice
    [block[start : start + length]] to column [j].  The loop never changes
    the cursor. *)
Theorem decode_columns_reads_table_of_contents
    (block : Py.bytes) (toc_pos : Z) (decoders : list decoder)
    (k : conn) (c : Cursor) (cols : list (list value)) :
  connection c = Some k ->
  (decode_columns block toc_pos 0 decoders c = (Ok cols, c)
   <-> (length cols = length decoders
        /\ forall j dec col,
             decoders !! j = Some dec -> cols !! j = Some col ->
             column_decoded (_unpack_int64 c) k block toc_pos j dec col))
  /\ (forall r c', decode_columns block toc_pos 0 decoders c = (r, c') ->
        c' = c).
Proof.
  intros Hk. split.
  - exact (decode_columns_spec block toc_pos decoders k c Hk 0 cols).
  - intros r c'. apply decode_columns_state.
Qed.


(** ** The choice between the text and the binary protocol *)

Lemma mapM_seq_lookup {A} (f : nat -> option A) (n : nat) (l : list A) :
  mapM f (seq 0 n) = Some l ->
  length l = n /\ forall i, (i < n)%nat -> l !! i = f i.
Proof.
  intros Hl. pose proof (length_mapM _ _ _ Hl) as Hlen.
  rewrite length_seq in Hlen. split; [congruence|].
  intros i Hi. apply mapM_Some_1 in Hl.
  destruct (l !! i) as [x|] eqn:Hx.
  - destruct (Forall2_lookup_r _ _ _ _ _ Hl Hx) as (j & Hj & Hf).
    apply lookup_seq in Hj as [-> _]. symmetry. exact Hf.
  - apply lookup_ge_None in Hx. lia.
Qed.

Lemma mapM_seq_None {A} (f : nat -> option A) (n : nat) :
  mapM f (seq 0 n) = None -> exists i, (i < n)%nat /\ f i = None.
Proof.
  intros Hnone. apply mapM_None_1, Exists_exists in Hnone as (i & Hi & Hf).
  apply elem_of_seq in Hi. exists i. split; [lia | exact Hf].
Qed.

(** X14. [_check_bindecode_possible] on an open cursor with a description
    returns, and decides for the binary protocol exactly when the
    connection's policy allows it and every column of the description has
    a decoder; it then keeps one decoder per column, in column order.
    Otherwise the only change is that [_can_bindecode] is [False]: decoders
    kept from an earlier result set stay where they are. *)
Theorem check_bindecode_possible_needs_decoder_for_every_column
    (c : Cursor) (k : conn) (d : list Description) :
  connection c = Some k -> description c = Some d ->
  exists c',
    _check_bindecode_possible c = (Ok tt, c')
    /\ (used_binary_protocol c' = true
        <-> conn_use_binary k = true
            /\ forall i, (i < length d)%nat -> is_Some (get_decoder d i))
    /\ (used_binary_protocol c' = true ->
        exists decoders,
          c' = set_bindecoders (Some decoders) (set_can_bindecode (Some true) c)
          /\ length decoders = length d
          /\ forall i, (i < length d)%nat -> decoders !! i = get_decoder d i)
    /\ (used_binary_protocol c' = false ->
        c' = set_can_bindecode (Some false) c).
Proof.
  intros Hk Hd. unfold _check_bindecode_possible, bind, modify, get, or_raise.
  cbn [connection set_can_bindecode]. rewrite Hk. unfold ret at 1.
  destruct (conn_use_binary k) eqn:Hbin; cbn [negb].
  2: { eexists. split; [reflexivity|]. cbn. split; [split|split].
       - intros Hx; discriminate Hx.
       - intros [Hx _]; discriminate Hx.
       - intros Hx; discriminate Hx.
       - reflexivity. }
  cbn [description set_can_bindecode]. rewrite Hd. unfold ret at 1.
  destruct (mapM (get_decoder d) (seq 0 (length d))) as [decoders|] eqn:Hdec.
  - apply mapM_seq_lookup in Hdec as [Hlen Hlookup].
    eexists. split; [reflexivity|]. cbn. split; [split|split].
    + intros _. split; [reflexivity|]. intros i Hi.
      rewrite <- Hlookup by exact Hi. apply lookup_lt_is_Some. lia.
    + reflexivity.
    + intros _. exists decoders. repeat split; assumption.
    + intros Hx; discriminate Hx.
  - apply mapM_seq_None in Hdec as (i & Hi & Hnone).
    eexists. split; [reflexivity|]. cbn. split; [split|split].
    + intros Hx; discriminate Hx.
    + intros [_ Hall]. specialize (Hall i Hi). rewrite Hnone in Hall.
      destruct Hall as [x Hx]. discriminate Hx.
    + intros Hx; discriminate Hx.
    + reflexivity.
Qed.


Lemma settings_frame_refl (c : Cursor) : settings_frame c c.
Proof. unfold settings_frame. auto. Qed.

Lemma settings_frame_trans (c1 c2 c3 : Cursor) :
  settings_frame c1 c2 -> settings_frame c2 c3 -> settings_frame c1 c3.
Proof.
  unfold settings_frame.
  intros (H1 & H2 & H3 & H4 & H5) (G1 & G2 & G3 & G4 & G5).
  repeat split; congruence.
Qed.

Ltac settings :=
  pose proof settings_frame_refl; pose proof settings_frame_trans;
  repeat first
    [ solve [auto with frame] | frame_step
    | apply preserves_modify; intros; hnf; cbn;
      repeat match goal with |- context [if ?b then _ else _] => destruct b end;
      cbn; solve [auto 12] ].

Lemma convert_all_settings (cells : list (Py.pystr * Description)) :
  preserves settings_frame (convert_all cells).
Proof. induction cells as [|[element d] cells IH]; cbn; settings. Qed.
#[local] Hint Resolve convert_all_settings : frame.

Lemma store_line_settings (ue : bool) (line : Py.pystr) (L : locals) :
  preserves settings_frame (store_line ue line L).
Proof.
  unfold store_line, clear_result, _parse_tuple, append_row, header_line,
    header_body, header_field, rebuild_description, mutate_description,
    qtable_line, qupdate_line.
  settings.
Qed.
#[local] Hint Resolve store_line_settings : frame.

Lemma store_lines_settings (ue : bool) (lines : list Py.pystr) :
  forall L, preserves settings_frame (store_lines ue lines L).
Proof.
  induction lines as [|line lines IH]; intros L; cbn [store_lines]; settings.
Qed.
#[local] Hint Resolve store_lines_settings : frame.

Lemma store_result_settings (block : Py.pystr) (ue : bool) :
  preserves settings_frame (_store_result block ue).
Proof. unfold _store_result. settings. Qed.

Lemma store_binary_result_settings (block : Py.bytes) :
  preserves settings_frame (_store_binary_result block).
Proof.
  unfold _store_binary_result.
  assert (forall toc_pos i decoders,
             preserves settings_frame (decode_columns block toc_pos i decoders))
    as Hcols.
  { intros toc_pos i decoders c r c' Hrun.
    apply decode_columns_state in Hrun as ->. apply settings_frame_refl. }
  settings.
Qed.

Lemma on_connection_settings {A} (ev : event) (f : conn -> outcome A * conn) :
  preserves settings_frame (on_connection ev f).
Proof.
  apply preserves_on_connection; [apply settings_frame_refl|].
  intros c k t. repeat split.
Qed.

Lemma on_policy_settings {A} (ev : event) (f : policy -> A * policy) :
  preserves settings_frame (on_policy ev f).
Proof. apply preserves_on_policy. intros c p t. repeat split. Qed.
#[local] Hint Resolve store_result_settings store_binary_result_settings
  on_connection_settings on_policy_settings : frame.

(** A refill on a cursor that has made its choice of protocol. *)
Lemma populate_cache_settings (already_used requested_end : Z) (c c' : Cursor)
    (r : outcome unit) :
  _can_bindecode c <> None ->
  _populate_cache already_used requested_end c = (r, c') ->
  settings_frame c c'.
Proof.
  intros Hchosen. unfold _populate_cache.
  unfold bind at 1, modify at 1. unfold bind at 1, modify at 1.
  unfold bind at 1, get at 1.
  set (ca := set_offset _ (set_rows [] c)).
  unfold bind at 1, on_policy.
  destruct (policy_batch_size _ _ _ _ _) as [n p'].
  set (cb := set_trace _ (set_policy p' ca)).
  assert (settings_frame c cb) as Hcb by (repeat split).
  unfold bind at 1.
  change (_can_bindecode ca) with (_can_bindecode c).
  destruct (_can_bindecode c) as [b|]; [|congruence].
  unfold ret at 1.
  match goal with
  | |- ?m cb = _ -> _ => assert (preserves settings_frame m) as Hrest
  end.
  { settings. }
  intros Hrun. exact (settings_frame_trans _ _ _ Hcb (Hrest _ _ _ Hrun)).
Qed.

Lemma chosen_frame_refl (c : Cursor) :
  _can_bindecode c <> None -> settings_frame c c.
Proof. intros _. apply settings_frame_refl. Qed.

Lemma chosen_frame_trans (c1 c2 c3 : Cursor) :
  (_can_bindecode c1 <> None -> settings_frame c1 c2) ->
  (_can_bindecode c2 <> None -> settings_frame c2 c3) ->
  _can_bindecode c1 <> None -> settings_frame c1 c3.
Proof.
  intros H12 H23 H1. specialize (H12 H1).
  apply (settings_frame_trans _ _ _ H12). apply H23.
  destruct H12 as (_ & _ & _ & -> & _). exact H1.
Qed.

Ltac chosen :=
  pose proof chosen_frame_refl; pose proof chosen_frame_trans;
  repeat first
    [ match goal with
      | |- preserves _ (_populate_cache _ _) =>
          intros ? ? ? Hrun ?; eapply populate_cache_settings; eassumption
      end
    | apply preserves_modify; intros ? _; repeat split
    | apply preserves_handler; intros ? ? _; repeat split
    | apply preserves_on_policy; intros ? ? ? _; repeat split
    | frame_step ].

Lemma fetchone_settings :
  preserves (fun c c' => _can_bindecode c <> None -> settings_frame c c')
    fetchone.
Proof.
  unfold fetchone, _check_executed, check_resultset, take_row. chosen.
Qed.

Lemma fetchmany_settings (size : option Z) :
  preserves (fun c c' => _can_bindecode c <> None -> settings_frame c c')
    (fetchmany size).
Proof. unfold fetchmany, _check_executed, check_resultset. chosen. Qed.

Lemma scroll_settings (value : Z) (mode : Py.pystr) :
  preserves (fun c c' => _can_bindecode c <> None -> settings_frame c c')
    (scroll value mode).
Proof. unfold scroll, _check_executed. chosen. Qed.

Lemma run_call_settings (f : fetch_call) (c : Cursor) :
  _can_bindecode c <> None -> settings_frame c (run_call f c).
Proof.
  destruct f as [|size| |value mode]; unfold run_call.
  - destruct (fetchone c) as [r c'] eqn:Hrun. exact (fetchone_settings _ _ _ Hrun).
  - destruct (fetchmany size c) as [r c'] eqn:Hrun.
    exact (fetchmany_settings _ _ _ _ Hrun).
  - unfold fetchall, bind, get.
    destruct (fetchmany (Some (rowcount c)) c) as [r c'] eqn:Hrun.
    exact (fetchmany_settings _ _ _ _ Hrun).
  - destruct (scroll value mode c) as [r c'] eqn:Hrun.
    exact (scroll_settings _ _ _ _ _ Hrun).
Qed.

(** X15. The choice of protocol is made once per result set.  Once
    [_can_bindecode] is decided, no sequence of [fetchone], [fetchmany],
    [fetchall] and [scroll] calls changes it, the decoders, the array size,
    the byte order or the operation, so [used_binary_protocol] keeps its
    answer; [nextset], when it activates a result set, forgets the choice
    and the decoders, and [used_binary_protocol] is then false until the
    next refill. *)
Theorem protocol_choice_made_once_per_result_set
    (c : Cursor) (calls : list fetch_call) :
  _can_bindecode c <> None ->
  settings_frame c (run_calls calls c)
  /\ used_binary_protocol (run_calls calls c) = used_binary_protocol c
  /\ (forall c1, nextset (run_calls calls c) = (Ok (Some true), c1) ->
        _can_bindecode c1 = None /\ _bindecoders c1 = None
        /\ used_binary_protocol c1 = false).
Proof.
  intros Hchosen.
  assert (settings_frame c (run_calls calls c)) as Hrun.
  { revert c Hchosen. induction calls as [|f calls IH]; intros c Hchosen.
    - apply settings_frame_refl.
    - cbn [run_calls]. pose proof (run_call_settings f c Hchosen) as Hf.
      apply (settings_frame_trans _ _ _ Hf). apply IH.
      destruct Hf as (_ & _ & _ & -> & _). exact Hchosen. }
  split; [exact Hrun|]. split.
  - unfold used_binary_protocol. destruct Hrun as (_ & _ & _ & -> & _).
    reflexivity.
  - intros c1. unfold nextset, bind, get.
    destruct (_next_result_sets _) as [|[[[q n] d] rs] rest];
      [intros Hx; discriminate Hx|].
    unfold modify at 1 2. unfold on_policy.
    destruct (policy_new_query _) as [a p']. cbn. intros [= <-].
    repeat split.
Qed.


(** ** The position after a fetch *)

Lemma take_row_cases (c : Cursor) :
  (exists r, take_row c = (Ok (Some r), set_rownumber (rownumber c + 1) c))
  \/ take_row c = (Raise (Builtin IndexError), c).
Proof.
  unfold take_row, bind, get, or_raise.
  destruct (Py.index _ _) as [r|]; [left; exists r | right]; reflexivity.
Qed.

Lemma check_executed_cases (c : Cursor) :
  _check_executed c = (Ok tt, c)
  \/ exists e ms, _check_executed c = (Raise e, set_messages ms c).
Proof.
  unfold _check_executed, bind, get.
  destruct (truthy _); [left | right; eexists; eexists]; reflexivity.
Qed.

Lemma check_resultset_cases (c : Cursor) :
  check_resultset c = (Ok tt, c)
  \/ exists e ms, check_resultset c = (Raise e, set_messages ms c).
Proof.
  unfold check_resultset, bind, get.
  destruct (_query_id _); [left | right; eexists; eexists]; reflexivity.
Qed.

(** X16. [fetchone] moves the position by one row or not at all: a row
    that is returned advances [rownumber] by exactly one; [None] is
    returned only at or past both the end of the window and the end of the
    result set, and changes nothing; and whenever [fetchone] raises -- no
    execute, no result set, a refill that fails in the transport or in the
    parser, a reply without the row -- [rownumber] is what it was, so the
    row is not skipped by a later call. *)
Theorem fetchone_advances_by_one_or_not_at_all (c : Cursor) :
  match fetchone c with
  | (Ok (Some _), c') => rownumber c' = rownumber c + 1
  | (Ok None, c') =>
      c' = c /\ cache_end c <= rownumber c /\ rowcount c <= rownumber c
  | (Raise _, c') => rownumber c' = rownumber c
  end.
Proof.
  unfold fetchone. unfold bind at 1.
  destruct (check_executed_cases c) as [-> | (e & ms & ->)]; [|reflexivity].
  unfold bind at 1.
  destruct (check_resultset_cases c) as [-> | (e & ms & ->)]; [|reflexivity].
  unfold bind at 1, get at 1.
  destruct (Z.geb_spec (rownumber c) (cache_end c)) as [Hend|Hin].
  - destruct (Z.geb_spec (rownumber c) (rowcount c)) as [Hall|Hmore].
    + cbn. repeat split; lia.
    + unfold bind.
      destruct (_populate_cache 0 (rownumber c + 1) c) as [[[]|e] c1] eqn:Hrun;
        pose proof (populate_cache_effect _ _ _ _ _ Hrun) as (Hpos & _);
        [|exact Hpos].
      destruct (take_row_cases c1) as [[r ->] | ->]; cbn; lia.
  - destruct (take_row_cases c) as [[r ->] | ->]; cbn; lia.
Qed.

(** X17. A [fetchmany] that has to refill takes the rest of the window
    first and moves [rownumber] to the end of the window before it asks the
    server.  When that refill raises, the error propagates with the
    position already moved: the rows taken from the window are not
    returned, and the next fetch starts after them. *)
Theorem fetchmany_failed_refill_has_consumed_window
    (c c1 : Cursor) (size : Z) (e : exn) :
  executed c -> _query_id c <> None ->
  let requested_end := Z.min (rownumber c + size) (rowcount c) in
  let taken := Py.slice (_rows c) (rownumber c - _offset c)
                 (cache_end c - _offset c) in
  cache_end c < requested_end ->
  _populate_cache (Z.of_nat (length taken)) requested_end
    (set_rownumber (cache_end c) c) = (Raise e, c1) ->
  fetchmany (Some size) c = (Raise e, c1)
  /\ rownumber c1 = cache_end c
  /\ _executed c1 = _executed c.
Proof.
  intros He Hq requested_end taken Hmore Hrun.
  pose proof (populate_cache_effect _ _ _ _ _ Hrun) as (Hpos & Hex & _).
  split; [|split; [exact Hpos | exact Hex]].
  unfold fetchmany. unfold bind at 1. rewrite (check_executed_ok c He).
  unfold bind at 1. rewrite (check_resultset_ok c Hq).
  unfold bind at 1, get at 1. fold requested_end.
  destruct (Z.leb_spec requested_end (cache_end c)) as [Hle|_]; [lia|].
  unfold bind at 1, modify at 1. unfold bind at 1. fold taken.
  rewrite Hrun. reflexivity.
Qed.

(** X18. A refill on a closed cursor.  [close] only drops the connection,
    so a fetch that needs rows from the server gets as far as the refill,
    which empties the window, sets [_offset] to [rownumber], asks the
    policy for a batch size and then fails on the missing connection with
    an AttributeError: not one of the DB-API errors, and not recorded in
    [messages]. *)
Theorem refill_on_closed_cursor_raises_AttributeError
    (c : Cursor) (used target : Z) :
  connection c = None ->
  exists c',
    _populate_cache used target c = (Raise (Builtin AttributeError), c')
    /\ is_Error (exn_class (Builtin AttributeError)) = false
    /\ _rows c' = [] /\ _offset c' = rownumber c
    /\ rownumber c' = rownumber c /\ messages c' = messages c
    /\ (executed c -> _query_id c <> None ->
        cache_end c <= rownumber c < rowcount c ->
        fetchone c = (Raise (Builtin AttributeError),
                      (_populate_cache 0 (rownumber c + 1) c).2)).
Proof.
  intros Hclosed.
  assert (forall used target, exists c',
             _populate_cache used target c = (Raise (Builtin AttributeError), c')
             /\ _rows c' = [] /\ _offset c' = rownumber c
             /\ rownumber c' = rownumber c /\ messages c' = messages c)
    as Hrefill.
  { intros used' target'. unfold _populate_cache.
    unfold bind at 1, modify at 1. unfold bind at 1, modify at 1.
    unfold bind at 1, get at 1. unfold bind at 1, on_policy.
    destruct (policy_batch_size _ _ _ _ _) as [n p'].
    unfold bind at 1. cbn [_can_bindecode set_offset set_rows].
    destruct (_can_bindecode c) as [b|] eqn:Hcan.
    - unfold ret at 1. unfold bind at 1, get at 1.
      cbn [_can_bindecode set_trace set_policy set_offset set_rows].
      rewrite Hcan.
      destruct b; unfold bind, on_connection;
        cbn [connection set_trace set_policy set_offset set_rows];
        rewrite Hclosed; (eexists; split; [reflexivity|]); cbn; auto.
    - unfold _check_bindecode_possible, bind, modify, get, or_raise.
      cbn [connection set_can_bindecode set_trace set_policy set_offset
        set_rows]. rewrite Hclosed.
      eexists. split; [reflexivity|]. cbn. auto. }
  destruct (Hrefill used target) as (c' & Hrun & Hrows & Hoff & Hpos & Hmsg).
  exists c'. split; [exact Hrun|]. split; [reflexivity|].
  repeat (split; [assumption|]).
  intros He Hq [Hend Hmore]. rewrite (fetchone_unfold c He Hq).
  destruct (Z.geb_spec (rownumber c) (cache_end c)); [|lia].
  destruct (Z.geb_spec (rownumber c) (rowcount c)); [lia|].
  destruct (Hrefill 0 (rownumber c + 1)) as (c1 & Hrun1 & _).
  unfold bind. rewrite Hrun1. reflexivity.
Qed.


(** ** [execute] and [executemany] *)

Lemma on_raise_preserves {A} (R : Cursor -> Cursor -> Prop) (m : Mc A) :
  preserves R m -> on_raise R m.
Proof. intros Hm c e c'. apply Hm. Qed.

Lemma on_raise_bind {A B} (R : Cursor -> Cursor -> Prop) (m : Mc A)
    (k : A -> Mc B) :
  (forall c1 c2 c3, R c1 c2 -> R c2 c3 -> R c1 c3) ->
  preserves R m -> (forall a, on_raise R (k a)) -> on_raise R (bind m k).
Proof.
  intros Htrans Hm Hk c e c'. unfold bind.
  destruct (m c) as [[a|e1] c1] eqn:Hmc.
  - intros Hka. exact (Htrans _ _ _ (Hm _ _ _ Hmc) (Hk a _ _ _ Hka)).
  - intros [= _ <-]. exact (Hm _ _ _ Hmc).
Qed.

Lemma ensures_bind {A B} (Q : B -> Cursor -> Prop) (m : Mc A) (k : A -> Mc B) :
  (forall a, ensures Q (k a)) -> ensures Q (bind m k).
Proof.
  intros Hk c b c'. unfold bind. destruct (m c) as [[a|e] c1].
  - apply Hk.
  - intros Hx. discriminate Hx.
Qed.

Lemma executed_frame_trans (c1 c2 c3 : Cursor) :
  _executed c2 = _executed c1 -> _executed c3 = _executed c2 ->
  _executed c3 = _executed c1.
Proof. congruence. Qed.

Lemma operation_frame_trans (c1 c2 c3 : Cursor) :
  operation c2 = operation c1 -> operation c3 = operation c2 ->
  operation c3 = operation c1.
Proof. congruence. Qed.

Lemma store_result_executed (block : Py.pystr) (ue : bool) :
  preserves (fun c c' => _executed c' = _executed c) (_store_result block ue).
Proof.
  intros c r c' Hrun. apply store_result_frame in Hrun. apply Hrun.
Qed.

Lemma store_result_operation (block : Py.pystr) (ue : bool) :
  preserves (fun c c' => operation c' = operation c) (_store_result block ue).
Proof.
  intros c r c' Hrun. apply store_result_settings in Hrun. apply Hrun.
Qed.

Lemma close_each_executed (rss : list Py.pystr) :
  preserves (fun c c' => _executed c' = _executed c) (close_each rss).
Proof.
  pose proof (fun c : Cursor => eq_refl (_executed c)) as Hrefl.
  pose proof executed_frame_trans as Htrans.
  induction rss as [|rs rss IH]; cbn [close_each];
    repeat first
      [ assumption | frame_step
      | apply preserves_on_connection; [assumption | reflexivity] ].
Qed.
#[local] Hint Resolve store_result_executed store_result_operation
  close_each_executed : frame.

Ltac field_frame trans :=
  pose proof trans;
  repeat first
    [ solve [auto with frame]
    | apply preserves_ret; reflexivity
    | apply preserves_raise; reflexivity
    | apply preserves_get; reflexivity
    | apply preserves_or_raise; reflexivity
    | apply preserves_lift; reflexivity
    | apply preserves_handler; reflexivity
    | apply preserves_modify; reflexivity
    | apply preserves_on_connection; reflexivity
    | apply preserves_on_policy; reflexivity
    | frame_step ].

Lemma nextset_executed :
  preserves (fun c c' => _executed c' = _executed c) nextset.
Proof. unfold nextset. field_frame executed_frame_trans. Qed.

Lemma nextset_operation :
  preserves (fun c c' => operation c' = operation c) nextset.
Proof. unfold nextset. field_frame operation_frame_trans. Qed.
#[local] Hint Resolve nextset_executed nextset_operation : frame.

(** What [execute] leaves when it returns, and what it keeps when it
    raises. *)
Lemma execute_result (operation_ : Py.pystr) (params : option parameters) :
  ensures (fun n c' =>
             _executed c' = Some operation_ /\ operation c' = operation_
             /\ n = (if rowcount c' >=? 0 then Some (rowcount c') else None))
    (execute operation_ params)
  /\ on_raise (fun c c' => _executed c' = _executed c)
       (execute operation_ params).
Proof.
  split.
  - unfold execute.
    do 8 (apply ensures_bind; intros ?).
    match goal with
    | |- ensures _ (bind (modify (set_operation _)) (fun _ => ?rest)) =>
        assert (preserves (fun c c' => operation c' = operation c) rest)
          as Hop;
        [|assert (ensures (fun n c' =>
                     _executed c' = Some operation_
                     /\ n = (if rowcount c' >=? 0 then Some (rowcount c')
                             else None)) rest) as Hex]
    end.
    + unfold _close_earlier_resultsets. field_frame operation_frame_trans.
    + do 4 (apply ensures_bind; intros ?).
      intros c n c'. unfold bind, modify, get, ret. intros [= <- <-].
      split; reflexivity.
    + intros c n c'. unfold bind at 1, modify at 1. intros Hrun.
      destruct (Hex _ _ _ Hrun) as [He Hn].
      pose proof (Hop _ _ _ Hrun) as Ho. cbn in Ho. auto.
  - unfold execute, _close_earlier_resultsets.
    pose proof executed_frame_trans as Htrans.
    repeat first
      [ match goal with
        | |- on_raise _ (bind (modify (set_executed _)) _) =>
            intros c e c'; unfold bind, modify, get, ret;
            intros Hx; discriminate Hx
        end
      | apply on_raise_bind;
        [ exact Htrans
        | field_frame executed_frame_trans
        | intros ? ] ].
Qed.


(** X19. [execute] marks the cursor as executed only when it returns.  A
    call that returns leaves [_executed] and [operation] at the operation
    and returns [rowcount] when that is not negative and [None] otherwise;
    a call that raises -- on a closed cursor, in the transport, or in the
    parser of the reply -- leaves [_executed] as it was, whatever else it
    has changed by then. *)
Theorem execute_marks_cursor_executed_only_when_it_returns
    (operation_ : Py.pystr) (params : option parameters) (c : Cursor) :
  match execute operation_ params c with
  | (Ok n, c') =>
      _executed c' = Some operation_ /\ operation c' = operation_
      /\ n = (if rowcount c' >=? 0 then Some (rowcount c') else None)
  | (Raise _, c') => _executed c' = _executed c
  end.
Proof.
  destruct (execute_result operation_ params) as [Hok Hraise].
  destruct (execute operation_ params c) as [[n|e] c'] eqn:Hrun.
  - exact (Hok _ _ _ Hrun).
  - exact (Hraise _ _ _ Hrun).
Qed.






(** * The refill, from the replies of the collaborators *)


















(** * Below the window, and after a raise *)

Lemma index_below_zero {A} (l : list A) (i : Z) :
  i < 0 ->
  Py.index l i
  = if 0 <=? Z.of_nat (length l) + i
    then l !! Z.to_nat (Z.of_nat (length l) + i) else None.
Proof.
  intros Hi. unfold Py.index.
  destruct (Z.ltb_spec i 0); [|lia].
  rewrite (Z.add_comm i).
  destruct (Z.leb_spec 0 (Z.of_nat (length l) + i)); [|reflexivity].
  destruct (Z.ltb_spec (Z.of_nat (length l) + i) (Z.of_nat (length l)));
    [reflexivity | lia].
Qed.

(** X22. [fetchone] with [rownumber] below the window never refills: it
    takes [self._rows[rownumber - _offset]], a negative index, which Python
    counts from the end of the window.  If the window holds at least
    [_offset - rownumber] rows, the call returns the row that far from the
    end and advances [rownumber], changing nothing else (nothing is asked of
    the policy or of the connection); otherwise it raises IndexError and
    changes nothing. *)
Theorem fetchone_below_window_never_refills (c : Cursor) :
  executed c -> _query_id c <> None -> rownumber c < _offset c ->
  let back := _offset c - rownumber c in
  let len := Z.of_nat (length (_rows c)) in
  fetchone c = take_row c
  /\ (back <= len ->
      exists r, _rows c !! Z.to_nat (len - back) = Some r
        /\ fetchone c = (Ok (Some r), set_rownumber (rownumber c + 1) c))
  /\ (len < back -> fetchone c = (Raise (Builtin IndexError), c)).
Proof.
  intros He Hq Hlt back len.
  assert (fetchone c = take_row c) as Hf.
  { rewrite (fetchone_unfold c He Hq). unfold cache_end.
    destruct (Z.geb_spec (rownumber c)
                (_offset c + Z.of_nat (length (_rows c)))); [lia | reflexivity]. }
  assert (take_row c
          = match Py.index (_rows c) (rownumber c - _offset c) with
            | Some r => (Ok (Some r), set_rownumber (rownumber c + 1) c)
            | None => (Raise (Builtin IndexError), c)
            end) as Ht.
  { unfold take_row, bind, get, or_raise.
    destruct (Py.index _ _); reflexivity. }
  rewrite (index_below_zero (_rows c) (rownumber c - _offset c)) in Ht by lia.
  replace (Z.of_nat (length (_rows c)) + (rownumber c - _offset c))
    with (len - back) in Ht by (unfold len, back; lia).
  split; [exact Hf|]. rewrite Hf, Ht. split.
  - intros Hback. destruct (Z.leb_spec 0 (len - back)); [|lia].
    destruct (lookup_lt_is_Some_2 (_rows c) (Z.to_nat (len - back)))
      as [r Hr]; [unfold len, back in *; lia|].
    exists r. split; [exact Hr|]. rewrite Hr. reflexivity.
  - intros Hback. destruct (Z.leb_spec 0 (len - back)); [lia|]. reflexivity.
Qed.

(** A raise is final: lines after the one that raised are not looked at. *)
Lemma store_lines_raise_app (ue : bool) (pre post : list Py.pystr)
    (L : locals) (c c' : Cursor) (e : exn) :
  store_lines ue pre L c = (Raise e, c') ->
  store_lines ue (pre ++ post) L c = (Raise e, c').
Proof.
  revert L c. induction pre as [|line pre IH]; intros L c.
  - cbn. unfold ret. discriminate.
  - cbn [store_lines app]. unfold bind.
    destruct (store_line ue line L c) as [[[L'|]|e1] c1].
    + apply IH.
    + unfold ret. discriminate.
    + intros H. exact H.
Qed.

(** X23. An exception raised while the lines of a block are stored ends
    [_store_result] there: if the lines up to some line make the loop raise,
    [_store_result] raises the same exception and leaves the same state,
    whatever lines follow, a prompt line included. *)
Theorem store_result_raise_ends_parse (block : Py.pystr) (ue : bool)
    (c c' : Cursor) (pre post : list Py.pystr) (e : exn) :
  length MSG_TUPLE = 1%nat -> length MSG_HEADER = 1%nat ->
  Py.split [10] block = pre ++ post ->
  store_lines ue pre locals_init (parse_start ue c) = (Raise e, c') ->
  _store_result block ue c = (Raise e, c').
Proof.
  intros Ht Hh Hsplit Hpre.
  rewrite (store_result_unfold block ue c Ht Hh), Hsplit.
  rewrite (store_lines_raise_app ue pre post _ _ _ _ Hpre). reflexivity.
Qed.

End Properties.

(** * The properties on concrete cursors *)

#[local] Existing Instance Sample.mapi.
#[local] Existing Instance Sample.types.
#[local] Existing Instance Sample.collab.

(** Closes a ground statement about integers and cursors by computing
    it. *)
Ltac ground :=
  vm_compute;
  repeat match goal with |- _ /\ _ => split end;
  first
    [ reflexivity
    | discriminate
    | intros; discriminate
    | let H := fresh in intros [_ H]; discriminate H
    | let H := fresh in intros [H _]; apply H; reflexivity ].

(** A scroll inside the window of [Sample.small], and one outside it. *)
Lemma scroll_inside_moves_pointer_outside_relocates_witness :
  scroll 1 absolute Sample.small = (Ok tt, set_rownumber 1 Sample.small)
  /\ exists c',
       scroll 7 absolute Sample.small = (Ok tt, c')
       /\ _rows c' = [] /\ _offset c' = 7 /\ rownumber c' = 7
       /\ trace c' = [EvScroll].
Proof.
  split.
  - apply (scroll_inside_moves_pointer_outside_relocates
             Sample.small 1 absolute eq_refl (or_intror eq_refl)).
    ground.
  - destruct (proj2 (scroll_inside_moves_pointer_outside_relocates
                       Sample.small 7 absolute eq_refl (or_intror eq_refl)))
      as (c' & Hrun & Hrows & Hoff & Hrn & Htrace & _).
    + ground.
    + ground.
    + exists c'. repeat split; assumption.
Defined.

Lemma scroll_beyond_rowcount_raises_IndexError_witness :
  scroll 11 absolute Sample.small
  = (Raise (Exn IndexError (Py.lit "value beyond length of resultset")),
     set_messages
       [(IndexError, Py.lit "value beyond length of resultset")] Sample.small).
Proof.
  apply (scroll_beyond_rowcount_raises_IndexError
           Sample.small 11 absolute eq_refl (or_intror eq_refl)).
  - ground.
  - ground.
Defined.

(** C7 fails on the code as it is stated: [executemany] with an empty
    sequence on [Sample.small] sets [rowcount] to 0 and keeps the window of
    three rows; a scroll to position 2, beyond [rowcount], is then inside
    the window and returns. *)
Lemma scroll_inside_window_beyond_rowcount_returns :
  let c := (executemany (Py.lit "select") [] Sample.small).2 in
  executemany (Py.lit "select") [] Sample.small = (Ok 0, c)
  /\ executed c /\ valid_mode absolute
  /\ rowcount c = 0 /\ scroll_target c 2 absolute > rowcount c
  /\ scroll 2 absolute c = (Ok tt, set_rownumber 2 c)
  /\ messages (set_rownumber 2 c) = [].
Proof.
  cbv zeta. split; [vm_compute; reflexivity|].
  split; [reflexivity|]. split; [right; reflexivity|].
  split; [reflexivity|]. split; [vm_compute; reflexivity|].
  split; vm_compute; reflexivity.
Qed.

Lemma fetchmany_nonpositive_size_moves_back_witness :
  fetchmany (Some (-1)) (set_rownumber 2 Sample.small)
  = (Ok [], set_rownumber 1 Sample.small).
Proof.
  apply (fetchmany_nonpositive_size_moves_back
           (set_rownumber 2 Sample.small) (-1)).
  - ground.
  - ground.
  - ground.
  - ground.
Defined.

(** A block of one byte, a block with the embedded message "err", and one
    whose message is not UTF-8. *)
Lemma binary_short_block_and_embedded_error_witness :
  _store_binary_result [x01] Sample.binary
  = (Raise (Exn InterfaceError (Py.lit "binary response too short")),
     set_messages [(InterfaceError, Py.lit "binary response too short")]
       Sample.binary)
  /\ _store_binary_result Sample.error_block Sample.binary
     = (Raise (Exn ProgrammingError (Py.lit "err")),
        set_messages [(ProgrammingError, Py.lit "err")] Sample.binary)
  /\ _store_binary_result Sample.garbled_block Sample.binary
     = (Raise (Exn InterfaceError (Py.lit "invalid utf-8 in error message")),
        set_messages
          [(InterfaceError, Py.lit "invalid utf-8 in error message")]
          Sample.binary).
Proof.
  split; [|split].
  - apply (binary_short_block_and_embedded_error
             Sample.binary [x01] [tt; tt] eq_refl).
    ground.
  - apply (proj2 (binary_short_block_and_embedded_error
                    Sample.binary Sample.error_block [tt; tt] eq_refl)).
    + ground.
    + ground.
    + ground.
  - apply (proj2 (binary_short_block_and_embedded_error
                    Sample.binary Sample.garbled_block [tt; tt] eq_refl)).
    + ground.
    + ground.
    + ground.
Defined.

(** The block with a column of two values and a column of one: one row. *)
Lemma binary_rows_stop_at_shortest_column_witness :
  _store_binary_result Sample.uneven_block Sample.binary
  = (Ok tt, set_rows [[CVal 1; CVal 3]] Sample.binary)
  /\ length (zip_star [[1; 2]; [3]]) = 1%nat.
Proof.
  split; [|reflexivity].
  apply (binary_rows_stop_at_shortest_column
           Sample.binary Sample.uneven_block [tt; tt] [[1; 2]; [3]]
           Sample.binary eq_refl).
  - ground.
  - ground.
  - ground.
Defined.

(** C1 fails on the code: the two columns of [Sample.uneven_block] decode to
    two values and to one, and decoding returns normally, with the single
    row that both columns cover. *)
Lemma binary_uneven_columns_raise_nothing :
  decode_columns Sample.uneven_block 3 0 [tt; tt] Sample.binary
  = (Ok [[1; 2]; [3]], Sample.binary)
  /\ Py.unpack_int64 Py.Little Sample.uneven_block
       (Z.of_nat (length Sample.uneven_block) - 8) = Some 3
  /\ fst (_store_binary_result Sample.uneven_block Sample.binary) = Ok tt
  /\ _rows (snd (_store_binary_result Sample.uneven_block Sample.binary))
     = [[CVal 1; CVal 3]]
  /\ messages (snd (_store_binary_result Sample.uneven_block Sample.binary))
     = [].
Proof. repeat split; vm_compute; reflexivity. Qed.

(** A reply of one info line and the prompt, and the same without the
    prompt. *)
Lemma store_result_prompt_or_unknown_state_witness :
  fst (_store_result (Py.lit ("#note" ++ Sample.newline)) true Sample.small)
  = Ok tt
  /\ fst (_store_result (Py.lit "#note") true Sample.small)
     = Raise (Exn InterfaceError (Py.lit "Unknown state, #note")).
Proof.
  split.
  - rewrite (proj2 (@store_result_prompt_or_unknown_state
                      Sample.mapi Sample.types Sample.collab
                      (Py.lit ("#note" ++ Sample.newline)) true Sample.small
                      eq_refl eq_refl)
               eq_refl [Py.lit "#note"] [] false
               (set_messages [(Warning, Py.lit "note")] Sample.small)
               eq_refl eq_refl).
    reflexivity.
  - destruct (proj1 (@store_result_prompt_or_unknown_state
                       Sample.mapi Sample.types Sample.collab
                       (Py.lit "#note") true Sample.small eq_refl eq_refl))
      as [_ Hunknown].
    + apply (bool_decide_unpack _). vm_compute. exact I.
    + rewrite (Hunknown (set_messages [(Warning, Py.lit "note")] Sample.small)
                 eq_refl).
      reflexivity.
Defined.

(** C2 fails on the code: this reply has a prompt line (its last, empty
    line) and is not parsed successfully, because of its error line; and
    without the prompt line the failure is the server's error, not the
    interface error. *)
Lemma store_result_error_line_before_prompt :
  (MSG_PROMPT ∈ Py.split [10] (Py.lit ("!boom" ++ Sample.newline)))
  /\ fst (_store_result (Py.lit ("!boom" ++ Sample.newline)) false Sample.small)
     = Raise (Exn ProgrammingError (Py.lit "boom"))
  /\ (MSG_PROMPT ∉ Py.split [10] (Py.lit "!boom"))
  /\ fst (_store_result (Py.lit "!boom") false Sample.small)
     = Raise (Exn ProgrammingError (Py.lit "boom")).
Proof.
  split; [|split; [|split]].
  - apply (bool_decide_unpack _). vm_compute. exact I.
  - vm_compute. reflexivity.
  - apply (bool_decide_unpack _). vm_compute. exact I.
  - vm_compute. reflexivity.
Qed.

(** The refill of [Sample.paging] at position 2 brings rows 3 to 5, and
    [fetchone] returns row 3. *)
Lemma fetchone_window_or_single_refill_witness :
  fst (fetchone (set_rownumber 2 Sample.paging)) = Ok (Some [CVal 3])
  /\ rownumber (snd (fetchone (set_rownumber 2 Sample.paging))) = 3.
Proof.
  destruct (fetchone_window_or_single_refill (set_rownumber 2 Sample.paging))
    as (_ & _ & Hpast & _); [ground|].
  destruct Hpast as [_ Hrefill]; [ground|].
  destruct (Hrefill (snd (_populate_cache 0 3 (set_rownumber 2 Sample.paging))))
    as (_ & _ & _ & Hgot); [vm_compute; reflexivity|].
  destruct Hgot as (r & Hr & Hf); [ground|].
  rewrite Hf. vm_compute in Hr. injection Hr as <-.
  split; reflexivity.
Defined.

(** C4 fails on the code: [fetchmany(-1)] on [Sample.small] leaves the
    position at -1, before the window [0, 3) of an active result set of 10
    rows.  [fetchone] then makes no refill (the trace stays empty): it
    returns the last row of the window, by Python's negative indexing, and
    afterwards [_offset <= rownumber - 1] does not hold. *)
Lemma fetchone_below_window_takes_row_from_end :
  fetchmany (Some (-1)) Sample.small
  = (Ok [[CVal 1]; [CVal 2]], Sample.rewound)
  /\ result_set_active Sample.rewound
  /\ rownumber Sample.rewound < _offset Sample.rewound
  /\ rownumber Sample.rewound < rowcount Sample.rewound
  /\ fetchone Sample.rewound
     = (Ok (Some [CVal 3]), set_rownumber 0 Sample.rewound)
  /\ trace (set_rownumber 0 Sample.rewound) = []
  /\ ~ (_offset (set_rownumber 0 Sample.rewound)
        <= rownumber (set_rownumber 0 Sample.rewound) - 1).
Proof.
  split; [vm_compute; reflexivity|].
  split; [ground|]. split; [ground|]. split; [ground|].
  split; [vm_compute; reflexivity|]. split; [reflexivity|].
  vm_compute. intros H. apply H. reflexivity.
Qed.


(** Membership and its negation on concrete texts. *)
Ltac decided := apply (bool_decide_unpack _); vm_compute; exact I.

(** The header line of [Sample.decimal_reply] made of "%", [data], "#" and
    [ident]. *)
Ltac header_of data ident :=
  exists 37, (Py.lit data), (Py.lit ident);
  split; [vm_compute; reflexivity|];
  split; [reflexivity|];
  split; [vm_compute; discriminate|];
  split; [decided|];
  split; [decided|];
  split; vm_compute; reflexivity.

(** [Sample.decimal_reply] parsed on a new cursor: a decimal and an integer
    column, with the values "10 2" and "32 0". *)
Lemma typesizes_decimal_precision_scale_witness :
  exists c' d0 d1,
    _store_result Sample.decimal_reply false Sample.fresh
    = (Ok tt, c')
    /\ description c' = Some [d0; d1]
    /\ internal_size d0 = Some 10
    /\ precision d0 = Some 10 /\ scale d0 = Some 2
    /\ internal_size d1 = Some 32
    /\ precision d1 = None /\ scale d1 = None.
Proof.
  destruct (typesizes_decimal_precision_scale
              (T := Sample.types) (C := Sample.collab)
              Sample.decimal_reply false Sample.fresh 2
              (Py.lit "&1 7 1 2 1")
              (Py.lit ("% decimal," ++ Sample.tab ++ "int # type")%string)
              (Py.lit ("% 10 2," ++ Sample.tab ++ "32 0 # typesizes")%string)
              [Py.lit ("% sys.t," ++ Sample.tab ++ "sys.t # table_name")%string;
               Py.lit ("% price," ++ Sample.tab ++ "qty # name")%string]
              []
              [Py.lit ("[ 15," ++ Sample.tab ++ "2 ]")%string]
              []
              [Py.lit "decimal"; Py.lit "int"]
              [Py.lit "10 2"; Py.lit "32 0"]
              [[10; 2]; [32; 0]]
              [[@CVal Sample.types 15; @CVal Sample.types 2]])
    as (c' & ds & Hrun & Hdesc & Hlen & Hcode & Hpair & Hother).
  - vm_compute. reflexivity.
  - reflexivity.
  - vm_compute. reflexivity.
  - split; [vm_compute; discriminate|]. split; [vm_compute; discriminate|].
    split; [vm_compute; reflexivity|]. split; [vm_compute; reflexivity|].
    exists (Py.lit "7"), (Py.lit "1"), (Py.lit "2"), (Py.lit "1").
    split; [vm_compute; reflexivity|]. split; [vm_compute; reflexivity|].
    split; [exists 1; vm_compute; reflexivity|].
    split; [exists 1; vm_compute; reflexivity|].
    intros Hprepare. vm_compute in Hprepare. discriminate Hprepare.
  - constructor; [|constructor; [|constructor]].
    + right. left.
      exists (Py.strip <$> Py.split (Py.lit ",")
                (Py.lit (" sys.t," ++ Sample.tab ++ "sys.t ")%string)).
      header_of (" sys.t," ++ Sample.tab ++ "sys.t ")%string " table_name"%string.
    + left.
      exists (Py.strip <$> Py.split (Py.lit ",")
                (Py.lit (" price," ++ Sample.tab ++ "qty ")%string)).
      split; [|vm_compute; reflexivity].
      header_of (" price," ++ Sample.tab ++ "qty ")%string " name"%string.
  - constructor.
  - header_of (" decimal," ++ Sample.tab ++ "int ")%string " type"%string.
  - reflexivity.
  - header_of (" 10 2," ++ Sample.tab ++ "32 0 ")%string " typesizes"%string.
  - reflexivity.
  - vm_compute. reflexivity.
  - intros [|[|j]] t Ht; try discriminate; injection Ht as <-; discriminate.
  - intros [|[|j]] Ht; try discriminate. exists 10, 2, []. reflexivity.
  - constructor; [|constructor].
    split; [vm_compute; reflexivity|]. split; [vm_compute; reflexivity|].
    vm_compute.
    constructor; [exists 15; split; reflexivity|].
    constructor; [exists 2; split; reflexivity|]. constructor.
  - destruct ds as [|d0 [|d1 [|d2 ds]]]; try discriminate.
    exists c', d0, d1.
    destruct (Hcode 0%nat d0 eq_refl) as (ty0 & Hty0 & Hc0).
    destruct (Hcode 1%nat d1 eq_refl) as (ty1 & Hty1 & Hc1).
    injection Hty0 as <-. injection Hty1 as <-.
    destruct (Hpair 0%nat d0 eq_refl eq_refl) as [Hs0 Hp0].
    destruct (Hp0 Hc0) as [Hprec Hscale].
    destruct (Hother 1%nat d1 eq_refl) as (Hp1 & Hs1 & p & tl & Hts & Hs).
    { rewrite Hc1. discriminate. }
    injection Hts as <- _. auto 10.
Defined.

(** C9 fails on the code.  After [close()] the connection is gone and
    [execute] raises the programming error "cursor is closed", but the fetch
    methods and [scroll] still work on the rows in the window: [fetchone]
    returns the first row, [fetchmany(2)] the first two, [scroll] moves the
    position, and nothing is raised. *)
Theorem closed_cursor_still_returns_cached_rows :
  close Sample.small = (Ok tt, Sample.closed)
  /\ connection Sample.closed = None
  /\ fst (execute (Py.lit "select 1") None Sample.closed)
     = Raise (Exn ProgrammingError (Py.lit "cursor is closed"))
  /\ fetchone Sample.closed
     = (Ok (Some [CVal 1]), set_rownumber 1 Sample.closed)
  /\ fetchmany (Some 2) Sample.closed
     = (Ok [[CVal 1]; [CVal 2]], set_rownumber 2 Sample.closed)
  /\ scroll 1 relative Sample.closed = (Ok tt, set_rownumber 1 Sample.closed).
Proof. repeat split; vm_compute; reflexivity. Qed.


(** ** Further properties on concrete cursors *)

(** A new cursor, before any [execute]. *)
Lemma fetch_and_scroll_need_execute_witness :
  fetchone (init Sample.quiet tt 100)
  = (Raise (Exn ProgrammingError (Py.lit "do a execute() first")),
     set_messages [(ProgrammingError, Py.lit "do a execute() first")]
       (init Sample.quiet tt 100)).
Proof.
  exact (proj1 (fetch_and_scroll_need_execute
                  (init Sample.quiet tt 100) None 0 relative eq_refl)).
Defined.

(** [Sample.small] as an update would leave it: no query id. *)
Lemma fetch_needs_result_set_witness :
  fetchone (set_query_id None Sample.small)
  = (Raise (Exn ProgrammingError (Py.lit "query didn't result in a resultset")),
     set_messages
       [(ProgrammingError, Py.lit "query didn't result in a resultset")]
       (set_query_id None Sample.small)).
Proof.
  exact (proj1 (fetch_needs_result_set
                  (set_query_id None Sample.small) None eq_refl eq_refl)).
Defined.

Lemma scroll_unknown_mode_witness :
  scroll 1 (Py.lit "forward") Sample.small
  = (Raise (Exn ProgrammingError (Py.lit "unknown mode 'forward'")),
     set_messages [(ProgrammingError, Py.lit "unknown mode 'forward'")]
       Sample.small).
Proof.
  apply (scroll_unknown_mode Sample.small 1 (Py.lit "forward") eq_refl).
  - ground.
  - ground.
Defined.

(** Two of the three rows in the window of [Sample.small]. *)
Lemma fetchmany_served_from_window_witness :
  fetchmany (Some 2) Sample.small
  = (Ok [[CVal 1]; [CVal 2]], set_rownumber 2 Sample.small).
Proof.
  apply (fetchmany_served_from_window Sample.small 2 eq_refl).
  - ground.
  - ground.
  - ground.
  - ground.
  - ground.
Defined.

Lemma fetchone_repeated_equals_fetchmany_witness :
  fetchone_times 2 Sample.small = fetchmany (Some 2) Sample.small.
Proof.
  apply (fetchone_repeated_equals_fetchmany 2 Sample.small eq_refl).
  - ground.
  - ground.
  - ground.
  - ground.
Defined.

Lemma scroll_then_fetchone_witness :
  exists r,
    _rows Sample.small !! 1%nat = Some r
    /\ bind (scroll 1 absolute) (fun _ => fetchone) Sample.small
       = (Ok (Some r), set_rownumber 2 Sample.small).
Proof.
  apply (scroll_then_fetchone Sample.small 1 absolute eq_refl).
  - ground.
  - right. reflexivity.
  - ground.
Defined.

(** The second queued result set of [Sample.queued] after two calls. *)
Lemma nextset_activates_in_order_witness :
  exists c',
    nextset_times 2 Sample.queued = (Ok [Some true; Some true], c')
    /\ _query_id c' = Some (Py.lit "9") /\ rowcount c' = 0
    /\ _next_result_sets c' = [].
Proof.
  destruct (nextset_activates_in_order 1 Sample.queued (Py.lit "9") 0 [] []
              eq_refl)
    as (c' & Hrun & Hq & Hn & _ & _ & Hrest & _).
  exists c'. repeat split; assumption.
Defined.

(** A line of two cells against the one column of [Sample.small]. *)
Lemma parse_tuple_row_has_description_arity_witness :
  _parse_tuple (Py.lit ("[ 1," ++ Sample.tab ++ "2 ]")%string) Sample.small
  = (Raise (Exn InterfaceError (Py.lit "length of row doesn't match header")),
     set_messages
       [(InterfaceError, Py.lit "length of row doesn't match header")]
       Sample.small).
Proof.
  apply (parse_tuple_row_has_description_arity Sample.small
           (Py.lit ("[ 1," ++ Sample.tab ++ "2 ]")%string) _ eq_refl).
  ground.
Defined.

Lemma next_stops_only_at_end_of_rows_witness :
  rows_nonempty Sample.small
  /\ next Sample.small
     = match fetchone Sample.small with
       | (Ok (Some r), c') => (Ok (Yield r), c')
       | (Ok None, c') => (Ok StopIteration, c')
       | (Raise e, c') => (Raise e, c')
       end.
Proof.
  assert (rows_nonempty Sample.small) as Hrows.
  { split; repeat constructor; discriminate. }
  split; [exact Hrows|].
  exact (proj2 (next_stops_only_at_end_of_rows Sample.small Hrows)).
Defined.

(** The second column of [Sample.uneven_block]: one byte at offset 2. *)
Lemma decode_columns_reads_table_of_contents_witness :
  column_decoded Py.Little Sample.quiet Sample.uneven_block 3 1 tt [3].
Proof.
  apply (proj1 (proj1 (decode_columns_reads_table_of_contents
                         (T := Sample.types) (C := Sample.collab)
                         Sample.uneven_block 3 [tt; tt] Sample.quiet
                         Sample.binary [[1; 2]; [3]] eq_refl))).
  - vm_compute. reflexivity.
  - reflexivity.
  - reflexivity.
Defined.

Lemma check_bindecode_possible_needs_decoder_for_every_column_witness :
  exists c',
    _check_bindecode_possible Sample.negotiable = (Ok tt, c')
    /\ used_binary_protocol c' = true.
Proof.
  destruct (check_bindecode_possible_needs_decoder_for_every_column
              Sample.negotiable _ _ eq_refl eq_refl)
    as (c' & Hrun & Hiff & _).
  exists c'. split; [exact Hrun|]. apply Hiff.
  split; [reflexivity|]. intros i _. exists tt. reflexivity.
Defined.

Lemma protocol_choice_made_once_per_result_set_witness :
  used_binary_protocol
    (run_calls [Fetchone; Scroll 5 absolute; Fetchmany (Some 2)] Sample.binary)
  = true.
Proof.
  destruct (protocol_choice_made_once_per_result_set Sample.binary
              [Fetchone; Scroll 5 absolute; Fetchmany (Some 2)])
    as (_ & Hused & _).
  - ground.
  - rewrite Hused. reflexivity.
Defined.

(** The connection of [Sample.small] has no reply left: the refill of a
    [fetchmany(5)] fails in the transport, after the three rows of the
    window were taken. *)
Lemma fetchmany_failed_refill_has_consumed_window_witness :
  exists c1,
    fetchmany (Some 5) Sample.small = (Raise (Builtin OtherError), c1)
    /\ rownumber c1 = 3.
Proof.
  exists (_populate_cache 3 5 (set_rownumber 3 Sample.small)).2.
  destruct (fetchmany_failed_refill_has_consumed_window Sample.small
              (_populate_cache 3 5 (set_rownumber 3 Sample.small)).2
              5 (Builtin OtherError) eq_refl)
    as (Hrun & Hpos & _).
  - ground.
  - ground.
  - vm_compute. reflexivity.
  - split; [exact Hrun | exact Hpos].
Defined.

Lemma refill_on_closed_cursor_raises_AttributeError_witness :
  exists c',
    _populate_cache 0 4 Sample.closed = (Raise (Builtin AttributeError), c')
    /\ _rows c' = [].
Proof.
  destruct (refill_on_closed_cursor_raises_AttributeError Sample.closed 0 4
              eq_refl)
    as (c' & Hrun & _ & Hrows & _).
  exists c'. split; assumption.
Defined.



(** [Sample.rewound] is one row below its window of three rows: [fetchone]
    returns the last row of the window. *)
Lemma fetchone_below_window_never_refills_witness :
  rownumber Sample.rewound < _offset Sample.rewound
  /\ fetchone Sample.rewound = take_row Sample.rewound
  /\ exists r,
       _rows Sample.rewound !! 2%nat = Some r
       /\ fetchone Sample.rewound
          = (Ok (Some r), set_rownumber 0 Sample.rewound).
Proof.
  split; [ground|].
  destruct (fetchone_below_window_never_refills
              (T := Sample.types) (C := Sample.collab) Sample.rewound)
    as (Hf & Hback & _).
  - reflexivity.
  - discriminate.
  - ground.
  - split; [exact Hf|]. apply Hback. vm_compute. discriminate.
Defined.

(** An error line, then the prompt: the error is raised and the prompt is
    not reached. *)
Lemma store_result_raise_ends_parse_witness :
  _store_result (Py.lit "!no such table" ++ [10]) false Sample.fresh
  = (Raise (Exn ProgrammingError (Py.lit "no such table")),
     set_messages [(ProgrammingError, Py.lit "no such table")]
       (set_next_result_sets [] Sample.fresh)).
Proof.
  apply (store_result_raise_ends_parse
           (T := Sample.types) (C := Sample.collab)
           _ false Sample.fresh _ [Py.lit "!no such table"] [Py.lit ""]).
  - reflexivity.
  - reflexivity.
  - vm_compute. reflexivity.
  - vm_compute. reflexivity.
Defined.

(** * Examples *)

Example slice_negative_end : Py.slice [1; 2; 3] 0 (-1) = [1; 2].
Proof. reflexivity. Qed.

Example index_negative : Py.index [1; 2; 3] (-1) = Some 3.
Proof. reflexivity. Qed.

Example split_header :
  Py.split (Py.lit "#") (Py.lit "a,b # name") = [Py.lit "a,b "; Py.lit " name"].
Proof. reflexivity. Qed.

Example split_long_separator :
  Py.split [1; 2] [0; 1; 2; 2; 1; 2] = [[0]; [2]; []].
Proof. reflexivity. Qed.

Example words_of_pair : Py.words (Py.lit " 10  2 ") = [Py.lit "10"; Py.lit "2"].
Proof. reflexivity. Qed.

Example int_literals :
  Py.int (Py.lit "-1_0") = Some (-10) /\ Py.int (Py.lit "1__0") = None
  /\ Py.int (Py.lit "") = None.
Proof. repeat split; reflexivity. Qed.

Example str_of_int_digits :
  Py.str_of_int 1203 = Py.lit "1203" /\ Py.str_of_int (-45) = Py.lit "-45"
  /\ Py.str_of_int 0 = Py.lit "0".
Proof. repeat split; vm_compute; reflexivity. Qed.

Example unpack_both_orders :
  Py.unpack_int64 Py.Little (Sample.le64 (-12)) 0 = Some (-12)
  /\ Py.unpack_int64 Py.Big (reverse (Sample.le64 258)) 0 = Some 258
  /\ Py.unpack_int64 Py.Little (Sample.le64 1) 1 = None.
Proof. repeat split; vm_compute; reflexivity. Qed.

Example export_command_text :
  export_command "Xexport" (set_rownumber 100 Sample.small) 250
  = Py.lit "Xexport 7 100 250".
Proof. vm_compute. reflexivity. Qed.

Example parse_decimal_reply :
  let r := _store_result Sample.decimal_reply false (init Sample.quiet tt 100) in
  fst r = Ok tt
  /\ description (snd r) = Some Sample.decimal_description
  /\ _rows (snd r) = [[CVal 15; CVal 2]]
  /\ rowcount (snd r) = 1
  /\ _next_result_sets (snd r)
     = [(Py.lit "7", 1, Sample.decimal_description, [[CVal 15; CVal 2]])].
Proof. vm_compute. repeat split. Qed.

(** A query-update reply "3 42". *)
Example parse_update_reply :
  let r := _store_result (Py.lit ("&2 3 42" ++ Sample.newline)) false
             Sample.small in
  fst r = Ok tt /\ rowcount (snd r) = 3 /\ lastrowid (snd r) = Some 42
  /\ description (snd r) = None /\ _rows (snd r) = []
  /\ _query_id (snd r) = None.
Proof. vm_compute. repeat split. Qed.
